(** * LiveOps calendar: event ingestion, search and highlight

    A shallow embedding of the calendar application of the repository:
    [src/unnamed/part_000] (the variant with the webhook import, the fair
    filter and the day modal, module [Calendar]) and
    [src/liveops-calendar/app.js] (the variant that loads [liveops.json],
    module [AppJs]).

    The program is JavaScript.  Module [JS] holds the part of the language
    runtime the program calls (strings, truthiness, number and date
    conversions); module [Calendar] and module [AppJs] follow the source
    function by function, with the global variables gathered in a state
    record that every function receives and returns.  Module [Intake]
    holds the reading of files and of pasted text, and module [Grid] the
    month grid with its buttons. *)

From Stdlib Require Import ZArith QArith Qround List String Ascii Bool Lia Sorted.
Import ListNotations.

#[local] Set Warnings "-register-all".

Local Open Scope string_scope.
Local Open Scope Z_scope.

(* ===================================================================== *)
(** ** The JavaScript runtime used by the program *)
(* ===================================================================== *)

Module JS.

(** *** Strings

    A JavaScript string is a sequence of code units; the strings of the
    model are the ones whose code units are below 256, held in [string]. *)

(** [WhiteSpace] and [LineTerminator] code units below 256, the ones
    [String.prototype.trim] removes. *)
Definition isWhiteSpace (c : ascii) : bool :=
  let n := nat_of_ascii c in
  (Nat.eqb n 9 || Nat.eqb n 10 || Nat.eqb n 11 || Nat.eqb n 12
   || Nat.eqb n 13 || Nat.eqb n 32 || Nat.eqb n 160)%bool.

Fixpoint trimStart (s : string) : string :=
  match s with
  | String c r => if isWhiteSpace c then trimStart r else s
  | EmptyString => EmptyString
  end.

(** [trimEnd] keeps a character when it is not white space or when
    something other than white space follows it. *)
Fixpoint trimEnd (s : string) : string :=
  match s with
  | String c r =>
      match trimEnd r with
      | EmptyString => if isWhiteSpace c then EmptyString else String c EmptyString
      | r' => String c r'
      end
  | EmptyString => EmptyString
  end.

Definition trim (s : string) : string := trimEnd (trimStart s).

(** [String.prototype.toLowerCase] on code units below 256: the letters
    A-Z and the Latin-1 capitals (192-222 without the multiplication sign
    215) move up by 32. *)
Definition lowerChar (c : ascii) : ascii :=
  let n := nat_of_ascii c in
  if ((Nat.leb 65 n && Nat.leb n 90)
      || (Nat.leb 192 n && Nat.leb n 222 && negb (Nat.eqb n 215)))%bool
  then ascii_of_nat (n + 32) else c.

Fixpoint toLowerCase (s : string) : string :=
  match s with
  | String c r => String (lowerChar c) (toLowerCase r)
  | EmptyString => EmptyString
  end.

(** [s.startsWith(p)]. *)
Fixpoint startsWith (p s : string) : bool :=
  match p, s with
  | EmptyString, _ => true
  | String a p', String b s' => (Ascii.eqb a b && startsWith p' s')%bool
  | String _ _, EmptyString => false
  end.

(** [s.includes(q)]: [q] occurs in [s] as a contiguous substring. *)
Fixpoint includes (s q : string) : bool :=
  (startsWith q s ||
   match s with
   | String _ r => includes r q
   | EmptyString => false
   end)%bool.

(** [s.split(sep)] for a one-character separator. *)
Fixpoint split (sep : ascii) (s : string) : list string :=
  match s with
  | EmptyString => [EmptyString]
  | String c r =>
      if Ascii.eqb c sep then EmptyString :: split sep r
      else match split sep r with
           | h :: t => String c h :: t
           | [] => [String c EmptyString]
           end
  end.

Definition nonEmpty (s : string) : bool :=
  match s with EmptyString => false | _ => true end.

(** Decimal numeral of a non-negative integer, most significant digit
    first; the fuel is one more than the binary logarithm, which bounds
    the number of decimal digits. *)
Definition digitChar (d : Z) : ascii := ascii_of_nat (48 + Z.to_nat d).

Fixpoint digitsOf (fuel : nat) (n : Z) (acc : string) : string :=
  match fuel with
  | O => acc
  | S f =>
      let acc' := String (digitChar (n mod 10)) acc in
      if n <? 10 then acc' else digitsOf f (n / 10) acc'
  end.

(** [String(n)] for an integer [n]. *)
Definition intToString (n : Z) : string :=
  let a := Z.abs n in
  let digits := digitsOf (S (Z.to_nat (Z.log2 a))) a EmptyString in
  if n <? 0 then "-" ++ digits else digits.

Fixpoint repeatChar (c : ascii) (n : nat) : string :=
  match n with
  | O => EmptyString
  | S k => String c (repeatChar c k)
  end.

(** [s.padStart(n, c)] with a one-character filler. *)
Definition padStart (n : nat) (c : ascii) (s : string) : string :=
  repeatChar c (n - String.length s) ++ s.

(** *** Values

    The values the program handles are the ones [JSON.parse] and the
    spreadsheet reader deliver.  [JNull] also stands for [undefined] (an
    absent property, a missing cell): the program only tests such a value
    for truthiness.  [JNum] holds the integer-valued numbers (the safe
    integers, whose string form is the plain decimal numeral). *)
Inductive json : Type :=
| JNull
| JBool (b : bool)
| JNum (n : Z)
| JStr (s : string)
| JArr (items : list json)
| JObj (fields : list (string * json)).

(** [ToBoolean]. *)
Definition truthy (v : json) : bool :=
  match v with
  | JNull => false
  | JBool b => b
  | JNum n => negb (n =? 0)
  | JStr s => nonEmpty s
  | JArr _ | JObj _ => true
  end.

Fixpoint lookupField (k : string) (fields : list (string * json)) : json :=
  match fields with
  | [] => JNull
  | (k', v) :: r => if String.eqb k k' then v else lookupField k r
  end.

(** [v[k]] for a property name [k] that no prototype defines (every name
    the program reads is of that kind): the own property of an object,
    [undefined] on anything else.  Reading a property of [null] throws;
    the caller tests for that. *)
Definition getProp (v : json) (k : string) : json :=
  match v with
  | JObj fields => lookupField k fields
  | _ => JNull
  end.

(** [a || b]. *)
Definition orElse (a b : json) : json := if truthy a then a else b.

(** [ToString], which is also what [v.toString()] gives on the truthy
    values the program calls it on.  An array joins its elements with
    commas, [null] elements giving the empty string; an object converts
    with the built-in method (an object parsed from JSON whose own
    property [toString] hides that method is left out of the model). *)
Fixpoint toStr (v : json) : string :=
  match v with
  | JNull => "null"
  | JBool b => if b then "true" else "false"
  | JNum n => intToString n
  | JStr s => s
  | JArr items =>
      (fix join (l : list json) : string :=
         match l with
         | [] => EmptyString
         | x :: r =>
             let first := match x with JNull => EmptyString | _ => toStr x end in
             match r with
             | [] => first
             | _ => first ++ "," ++ join r
             end
         end) items
  | JObj _ => "[object Object]"
  end.

(** *** Numbers

    A number is NaN, an infinity or a finite value.  Finite values are
    kept as exact rationals: the rounding of a decimal numeral to the
    nearest binary64 value is not modelled (the integers the program
    compares with, and every integer below 2^53, are exact). *)
Inductive num : Type :=
| NaN
| Inf (negative : bool)
| Fin (q : Q).

Definition isNaN (n : num) : bool :=
  match n with NaN => true | _ => false end.

(** [n > k] for an integer [k]. *)
Definition gtZ (n : num) (k : Z) : bool :=
  match n with
  | NaN => false
  | Inf negative => negb negative
  | Fin q => negb (Qle_bool q (inject_Z k))
  end.

Definition digitValue (radix : Z) (c : ascii) : option Z :=
  let n := Z.of_nat (nat_of_ascii c) in
  let d := if (48 <=? n) && (n <=? 57) then n - 48
           else if (97 <=? n) && (n <=? 122) then n - 87
           else if (65 <=? n) && (n <=? 90) then n - 55
           else radix in
  if d <? radix then Some d else None.

(** The longest prefix of digits of the radix: its value, the number of
    digits and the rest of the string. *)
Fixpoint scanDigits (radix : Z) (s : string) (acc : Z) (count : nat)
  : Z * nat * string :=
  match s with
  | String c r =>
      match digitValue radix c with
      | Some d => scanDigits radix r (acc * radix + d) (S count)
      | None => (acc, count, s)
      end
  | EmptyString => (acc, count, s)
  end.

Definition pow10 (e : Z) : Q :=
  if 0 <=? e then inject_Z (10 ^ e) else Qmake 1 (Z.to_pos (10 ^ (- e))).

(** The exponent part [e[+-]digits], when one is there. *)
Definition scanExponent (s : string) : Z * string :=
  match s with
  | String c r =>
      if Ascii.eqb c "e" || Ascii.eqb c "E" then
        let '(negative, r1) :=
          match r with
          | String "-" r' => (true, r')
          | String "+" r' => (false, r')
          | _ => (false, r)
          end in
        let '(e, count, rest) := scanDigits 10 r1 0 O in
        match count with
        | O => (0, s)
        | _ => (if negative then - e else e, rest)
        end
      else (0, s)
  | EmptyString => (0, s)
  end.

(** The longest prefix that is an unsigned decimal literal
    ([digits[.digits][exponent]] or [.digits[exponent]]). *)
Definition scanUnsignedDecimal (s : string) : option (Q * string) :=
  let '(ip, icount, r1) := scanDigits 10 s 0 O in
  let '(fp, fcount, r2) :=
    match r1 with
    | String "." r' => scanDigits 10 r' 0 O
    | _ => (0, O, r1)
    end in
  match icount, fcount with
  | O, O => None
  | _, _ =>
      let mantissa :=
        Qplus (inject_Z ip) (Qmult (inject_Z fp) (pow10 (- Z.of_nat fcount))) in
      let '(e, rest) := scanExponent r2 in
      Some (Qmult mantissa (pow10 e), rest)
  end.

(** The longest prefix that is a signed decimal literal or [Infinity]. *)
Definition scanDecimal (s : string) : option (num * string) :=
  let '(negative, r) :=
    match s with
    | String "-" r' => (true, r')
    | String "+" r' => (false, r')
    | _ => (false, s)
    end in
  if startsWith "Infinity" r then
    Some (Inf negative, String.substring 8 (String.length r - 8) r)
  else
    match scanUnsignedDecimal r with
    | Some (q, rest) => Some (Fin (if negative then Qopp q else q), rest)
    | None => None
    end.

(** An integer literal with a radix prefix: [0x], [0o] or [0b] followed by
    digits of that radix and nothing else. *)
Definition radixLiteral (s : string) : option Z :=
  match s with
  | String "0" (String p r) =>
      let radix :=
        if Ascii.eqb p "x" || Ascii.eqb p "X" then 16
        else if Ascii.eqb p "o" || Ascii.eqb p "O" then 8
        else if Ascii.eqb p "b" || Ascii.eqb p "B" then 2
        else 0 in
      if radix =? 0 then None
      else match scanDigits radix r 0 O with
           | (_, O, _) => None
           | (v, _, EmptyString) => Some v
           | _ => None
           end
  | _ => None
  end.

(** [Number(s)], the conversion behind [isNaN(s)] and [s > 1000]. *)
Definition toNumber (s : string) : num :=
  let t := trim s in
  match t with
  | EmptyString => Fin 0
  | _ =>
      match radixLiteral t with
      | Some v => Fin (inject_Z v)
      | None =>
          match scanDecimal t with
          | Some (n, EmptyString) => n
          | _ => NaN
          end
      end
  end.

(** [parseFloat(s)]: the longest decimal prefix after leading white
    space. *)
Definition parseFloat (s : string) : num :=
  match scanDecimal (trimStart s) with
  | Some (n, _) => n
  | None => NaN
  end.

(** [parseInt(s)] without a radix argument: leading white space, a sign,
    an optional [0x], then the longest prefix of digits; [None] is NaN. *)
Definition parseInt (s : string) : option Z :=
  let t := trimStart s in
  let '(negative, r) :=
    match t with
    | String "-" r' => (true, r')
    | String "+" r' => (false, r')
    | _ => (false, t)
    end in
  let '(radix, r1) :=
    match r with
    | String "0" (String "x" r') => (16, r')
    | String "0" (String "X" r') => (16, r')
    | _ => (10, r)
    end in
  match scanDigits radix r1 0 O with
  | (_, O, _) => None
  | (v, _, _) => Some (if negative then - v else v)
  end.

(** *** Dates

    A [Date] object holds a time value: the milliseconds since 1970-01-01
    UTC, or NaN ([None]).  The day and year arithmetic is the one of the
    language definition. *)
Definition msPerDay : Z := 86400000.
Definition maxTime : Z := 8640000000000000.

Definition TimeClip (t : Z) : option Z :=
  if Z.abs t <=? maxTime then Some t else None.

Definition Day (t : Z) : Z := t / msPerDay.

Definition DayFromYear (y : Z) : Z :=
  365 * (y - 1970) + (y - 1969) / 4 - (y - 1901) / 100 + (y - 1601) / 400.

Definition InLeapYear (y : Z) : Z :=
  if (y mod 4 =? 0) && (negb (y mod 100 =? 0) || (y mod 400 =? 0))
  then 1 else 0.

(** The year a day number falls in: the estimate from the mean length of
    a year is off by at most one. *)
Definition YearFromDay (d : Z) : Z :=
  let y0 := 1970 + (400 * d) / 146097 in
  if DayFromYear (y0 + 1) <=? d then y0 + 1
  else if DayFromYear y0 <=? d then y0
  else y0 - 1.

(** Day within the year on which month [m] (0-11) starts. *)
Definition monthStart (leap : Z) (m : Z) : Z :=
  match m with
  | 0 => 0
  | 1 => 31
  | 2 => 59 + leap
  | 3 => 90 + leap
  | 4 => 120 + leap
  | 5 => 151 + leap
  | 6 => 181 + leap
  | 7 => 212 + leap
  | 8 => 243 + leap
  | 9 => 273 + leap
  | 10 => 304 + leap
  | 11 => 334 + leap
  | _ => 365 + leap
  end.

Fixpoint monthOfDay (leap dayInYear : Z) (candidates : list Z) : Z :=
  match candidates with
  | [] => 0
  | m :: r => if monthStart leap m <=? dayInYear then m else monthOfDay leap dayInYear r
  end.

(** [YearFromTime], [MonthFromTime] (0-11) and [DateFromTime] of a day
    number. *)
Definition civilOfDay (d : Z) : Z * Z * Z :=
  let y := YearFromDay d in
  let leap := InLeapYear y in
  let diy := d - DayFromYear y in
  let m := monthOfDay leap diy [11; 10; 9; 8; 7; 6; 5; 4; 3; 2; 1] in
  (y, m, diy - monthStart leap m + 1).

(** [MakeDay(year, month, date)]: months beyond 0-11 carry into the year
    and the date counts on from the first of the month, so that day 0 is
    the last day of the month before and day 31 of a 30-day month is the
    first of the next. *)
Definition MakeDay (year month date : Z) : option Z :=
  let ym := year + month / 12 in
  let mn := month mod 12 in
  let first := DayFromYear ym + monthStart (InLeapYear ym) mn in
  match TimeClip (first * msPerDay) with
  | Some _ => Some (first + date - 1)
  | None => None
  end.

(** What the program cannot read off the language definition: the offset
    of local time from UTC in milliseconds (taken constant: no daylight
    saving change), and the result of [Date.parse] on a string that is not
    a plain ISO calendar date, which every engine decides for itself.
    [regExpCompiles pattern] tells whether [new RegExp(pattern, 'gi')]
    returns a regular expression ([true]) or throws a [SyntaxError]: the
    pattern syntax is the engine's own parser, and it has grown from one
    edition of the language to the next. *)
Record host : Type := {
  localTZA : Z;
  dateParseFallback : string -> option Z;
  regExpCompiles : string -> bool
}.

(** [new Date(year, month, date)]: local midnight of that calendar day;
    a NaN argument gives an invalid date, a year from 0 to 99 means
    1900 + year. *)
Definition newDate (h : host) (year month date : option Z) : option Z :=
  match year, month, date with
  | Some y, Some m, Some d =>
      let yr := if (0 <=? y) && (y <=? 99) then 1900 + y else y in
      match MakeDay yr m d with
      | Some day => TimeClip (day * msPerDay - localTZA h)
      | None => None
      end
  | _, _, _ => None
  end.

Definition twoDigits (a b : ascii) : option Z :=
  match digitValue 10 a, digitValue 10 b with
  | Some x, Some y => Some (10 * x + y)
  | _, _ => None
  end.

Definition daysInMonth (y m : Z) : Z :=
  monthStart (InLeapYear y) m - monthStart (InLeapYear y) (m - 1).

(** The date-only form [YYYY-MM-DD] of the ISO format, with a month from
    01 to 12 and a day that exists in that month: the day number. *)
Definition isoDateOnly (s : string) : option Z :=
  match s with
  | String y1 (String y2 (String y3 (String y4 (String "-"
      (String m1 (String m2 (String "-" (String d1 (String d2 EmptyString))))))))) =>
      match twoDigits y1 y2, twoDigits y3 y4, twoDigits m1 m2, twoDigits d1 d2 with
      | Some yh, Some yl, Some m, Some d =>
          let y := 100 * yh + yl in
          if (1 <=? m) && (m <=? 12) && (1 <=? d) && (d <=? daysInMonth y m)
          then MakeDay y (m - 1) d else None
      | _, _, _, _ => None
      end
  | _ => None
  end.

(** [new Date(s)] for a string: a date-only ISO string is midnight UTC of
    that day; anything else is left to the engine. *)
Definition dateParse (h : host) (s : string) : option Z :=
  match isoDateOnly s with
  | Some day => Some (day * msPerDay)
  | None => dateParseFallback h s
  end.

(** [getFullYear()], [getMonth()] and [getDate()]: the calendar day of
    the time value in local time. *)
Definition localCivil (h : host) (t : Z) : Z * Z * Z :=
  civilOfDay (Day (t + localTZA h)).

Definition pad2 (n : Z) : string := padStart 2 "0" (intToString n).

End JS.

(* ===================================================================== *)
(** ** The spreadsheet library *)
(* ===================================================================== *)

(** [XLSX.SSF.parse_date_code] belongs to the SheetJS library the page
    loads next to the program; the program receives it like the rest of
    its platform.  This is the library's conversion of a serial day count,
    kept here as the reference instance: serial 60 is the 29 February 1900
    of the spreadsheet convention, serial 0 is day 0 of January 1900, and
    any other serial counts days from 1 January 1900 = serial 1, one day
    less above 60 to make up for the day that did not exist.  [None] is
    the library's [null]. *)
Module XLSX.

Definition parse_date_code (v : JS.num) : option (Z * Z * Z) :=
  match v with
  | JS.NaN => Some (1900, 1, 0)
  | JS.Inf _ => None
  | JS.Fin q =>
      if negb (Qle_bool q (inject_Z 2958465)) || negb (Qle_bool 0 q) then None
      else
        let date0 := Qfloor q in
        let secs := Qmult (inject_Z 86400) (Qminus q (inject_Z date0)) in
        let time := Qfloor secs in
        let u := Qminus secs (inject_Z time) in
        let date :=
          if negb (Qle_bool u (Qmake 9999 10000)) && (time + 1 =? 86400)
          then date0 + 1 else date0 in
        if date =? 60 then Some (1900, 2, 29)
        else if date =? 0 then Some (1900, 1, 0)
        else
          let date' := if 60 <? date then date - 1 else date in
          let '(y, m, d) :=
            JS.civilOfDay (JS.DayFromYear 1900 + date' - 1) in
          Some (y, m + 1, d)
  end.

End XLSX.

(* ===================================================================== *)
(** ** The calendar with webhook import ([src/unnamed/part_000]) *)
(* ===================================================================== *)

Module Calendar.
Import JS.

(** The platform the page runs on: the JavaScript host and the
    spreadsheet library's [parse_date_code]. *)
Record platform : Type := {
  jsHost : host;
  parse_date_code : num -> option (Z * Z * Z)
}.

(** An event as [processImportedData] builds it.  An absent [fair] or
    [link] (an event stored by an earlier version) reads as the empty
    string: the program only tests them for truthiness or compares them
    with a non-empty string. *)
Record Event : Type := {
  id : Z;
  date : string;
  title : string;
  fair : string;
  link : string
}.

(** The global variables of the script and the parts of the page it reads
    back: [storage] is the [liveopsEvents] entry of [localStorage],
    [timers] holds the due times of the pending [setTimeout] callbacks of
    [navigateToEvent] and [clock] the current time in milliseconds. *)
Record State : Type := {
  events : list Event;
  filteredEvents : list Event;
  highlightedDate : option string;
  searchInput : string;
  fairFilter : string;
  fairOptions : list string;
  currentDayEvents : list Event;
  modalSearchInput : string;
  modalShown : bool;
  modalEventsList : list Event;
  storage : list Event;
  timers : list Z;
  clock : Z
}.

Definition setEvents (l : list Event) (st : State) : State :=
  {| events := l; filteredEvents := filteredEvents st;
     highlightedDate := highlightedDate st; searchInput := searchInput st;
     fairFilter := fairFilter st; fairOptions := fairOptions st;
     currentDayEvents := currentDayEvents st;
     modalSearchInput := modalSearchInput st; modalShown := modalShown st;
     modalEventsList := modalEventsList st; storage := storage st;
     timers := timers st; clock := clock st |}.

Definition setFilteredEvents (l : list Event) (st : State) : State :=
  {| events := events st; filteredEvents := l;
     highlightedDate := highlightedDate st; searchInput := searchInput st;
     fairFilter := fairFilter st; fairOptions := fairOptions st;
     currentDayEvents := currentDayEvents st;
     modalSearchInput := modalSearchInput st; modalShown := modalShown st;
     modalEventsList := modalEventsList st; storage := storage st;
     timers := timers st; clock := clock st |}.

Definition setHighlight (d : option string) (pending : list Z) (st : State) : State :=
  {| events := events st; filteredEvents := filteredEvents st;
     highlightedDate := d; searchInput := searchInput st;
     fairFilter := fairFilter st; fairOptions := fairOptions st;
     currentDayEvents := currentDayEvents st;
     modalSearchInput := modalSearchInput st; modalShown := modalShown st;
     modalEventsList := modalEventsList st; storage := storage st;
     timers := pending; clock := clock st |}.

Definition setSearch (text fairValue : string) (st : State) : State :=
  {| events := events st; filteredEvents := filteredEvents st;
     highlightedDate := highlightedDate st; searchInput := text;
     fairFilter := fairValue; fairOptions := fairOptions st;
     currentDayEvents := currentDayEvents st;
     modalSearchInput := modalSearchInput st; modalShown := modalShown st;
     modalEventsList := modalEventsList st; storage := storage st;
     timers := timers st; clock := clock st |}.

Definition setFairOptions (options : list string) (st : State) : State :=
  {| events := events st; filteredEvents := filteredEvents st;
     highlightedDate := highlightedDate st; searchInput := searchInput st;
     fairFilter := EmptyString; fairOptions := options;
     currentDayEvents := currentDayEvents st;
     modalSearchInput := modalSearchInput st; modalShown := modalShown st;
     modalEventsList := modalEventsList st; storage := storage st;
     timers := timers st; clock := clock st |}.

Definition setModal (day : list Event) (text : string) (shown : bool)
    (listed : list Event) (st : State) : State :=
  {| events := events st; filteredEvents := filteredEvents st;
     highlightedDate := highlightedDate st; searchInput := searchInput st;
     fairFilter := fairFilter st; fairOptions := fairOptions st;
     currentDayEvents := day;
     modalSearchInput := text; modalShown := shown;
     modalEventsList := listed; storage := storage st;
     timers := timers st; clock := clock st |}.

Definition setClock (t : Z) (st : State) : State :=
  {| events := events st; filteredEvents := filteredEvents st;
     highlightedDate := highlightedDate st; searchInput := searchInput st;
     fairFilter := fairFilter st; fairOptions := fairOptions st;
     currentDayEvents := currentDayEvents st;
     modalSearchInput := modalSearchInput st; modalShown := modalShown st;
     modalEventsList := modalEventsList st; storage := storage st;
     timers := timers st; clock := t |}.

(** [saveEvents]: the whole list goes to [localStorage]. *)
Definition saveEvents (st : State) : State :=
  {| events := events st; filteredEvents := filteredEvents st;
     highlightedDate := highlightedDate st; searchInput := searchInput st;
     fairFilter := fairFilter st; fairOptions := fairOptions st;
     currentDayEvents := currentDayEvents st;
     modalSearchInput := modalSearchInput st; modalShown := modalShown st;
     modalEventsList := modalEventsList st; storage := events st;
     timers := timers st; clock := clock st |}.

(** The page as the script finds it on a first visit. *)
Definition initialState : State :=
  {| events := []; filteredEvents := []; highlightedDate := None;
     searchInput := EmptyString; fairFilter := EmptyString; fairOptions := [];
     currentDayEvents := []; modalSearchInput := EmptyString;
     modalShown := false; modalEventsList := []; storage := [];
     timers := []; clock := 0 |}.

(** *** Deleting *)

(** [deleteEvent(id)]. *)
Definition deleteEvent (eventId : Z) (st : State) : State :=
  saveEvents (setEvents (filter (fun e => negb (id e =? eventId)) (events st)) st).

(** [clearAllEvents]; [confirmed] is the answer to the confirmation
    dialog. *)
Definition clearAllEvents (confirmed : bool) (st : State) : State :=
  match events st with
  | [] => st
  | _ =>
      if confirmed then
        setSearch EmptyString (fairFilter st)
          (saveEvents (setFilteredEvents [] (setEvents [] st)))
      else st
  end.

(** *** Searching *)

(** [handleSearch]. *)
Definition handleSearch (st : State) : State :=
  let query := toLowerCase (trim (searchInput st)) in
  let selectedFair := fairFilter st in
  match events st with
  | [] => setFilteredEvents [] st
  | _ =>
      if negb (nonEmpty query) && negb (nonEmpty selectedFair) then
        setFilteredEvents [] st
      else
        let results := events st in
        let results :=
          if nonEmpty selectedFair then
            filter (fun e => nonEmpty (fair e) && String.eqb (fair e) selectedFair) results
          else results in
        let results :=
          if nonEmpty query then
            filter (fun e => includes (toLowerCase (title e)) query) results
          else results in
        setFilteredEvents results st
  end.

(** [navigateToEvent(event)]: the highlight is set and a callback that
    clears it is scheduled 5000 ms ahead; nothing is cancelled. *)
Definition navigateToEvent (e : Event) (st : State) : State :=
  setHighlight (Some (date e)) (timers st ++ [clock st + 5000]) st.

(** The event loop reaching time [t]: every callback due by then has run
    (each one sets [highlightedDate] to [null]) and has left the queue. *)
Definition advanceTo (t : Z) (st : State) : State :=
  let due := filter (fun d => d <=? t) (timers st) in
  let pending := filter (fun d => t <? d) (timers st) in
  setClock t
    (setHighlight (match due with [] => highlightedDate st | _ => None end)
       pending st).

(** [clearSearch]. *)
Definition clearSearch (st : State) : State :=
  setHighlight None (timers st)
    (setFilteredEvents [] (setSearch EmptyString EmptyString st)).

(** Insertion into a sorted list without repetition: what collecting the
    fairs in a [Set] and sorting the set amounts to. *)
Fixpoint insertFair (f : string) (l : list string) : list string :=
  match l with
  | [] => [f]
  | x :: r =>
      match String.compare f x with
      | Lt => f :: l
      | Eq => l
      | Gt => x :: insertFair f r
      end
  end.

(** [populateFairFilter]: the distinct non-blank fairs in sorted order;
    rebuilding the options leaves the first one, All Fairs, selected. *)
Definition populateFairFilter (st : State) : State :=
  setFairOptions
    (fold_left
       (fun acc e =>
          if nonEmpty (fair e) && nonEmpty (trim (fair e))
          then insertFair (fair e) acc else acc)
       (events st) [])
    st.

(** *** The day modal *)

(** The events [renderCalendar] hands to the cell of a day of the shown
    month; every assignment to [filteredEvents] is followed by a call of
    [renderCalendar], so the cell always holds this list. *)
Definition dayEvents (dateString : string) (st : State) : list Event :=
  filter (fun e => String.eqb (date e) dateString) (filteredEvents st).

(** [openDayEventsModal(day, dayEvents)]. *)
Definition openDayEventsModal (dayList : list Event) (st : State) : State :=
  setModal dayList EmptyString true dayList st.

(** A click on the cell of a day: [createDayElement] installs the handler
    only on a cell that has events. *)
Definition clickDay (dateString : string) (st : State) : State :=
  match dayEvents dateString st with
  | [] => st
  | l => openDayEventsModal l st
  end.

(** [closeDayEventsModal]. *)
Definition closeDayEventsModal (st : State) : State :=
  setModal [] EmptyString false (modalEventsList st) st.

(** [`(${query})`], the pattern [displayModalEvents] and [highlightMatch]
    hand to [new RegExp] to mark the query in a title. *)
Definition highlightPattern (query : string) : string := "(" ++ query ++ ")".

(** [displayModalEvents(eventsToShow, query)], lines 1074-1171, as far as
    the list of the modal goes.  The list is emptied first.  Without an
    event there is nothing more to do; otherwise the items are built one
    by one, and with a query each item starts with [new RegExp] of the
    pattern above: a query the engine does not take as a pattern throws
    at the first item, before anything is appended, and the list stays
    empty. *)
Definition displayModalEvents (h : host) (eventsToShow : list Event)
    (query : string) : list Event :=
  match eventsToShow with
  | [] => []
  | _ =>
      if nonEmpty query && negb (regExpCompiles h (highlightPattern query))
      then [] else eventsToShow
  end.

(** [handleModalSearch] after the modal's search box received [text],
    lines 1042-1057. *)
Definition handleModalSearch (h : host) (text : string) (st : State) : State :=
  let query := toLowerCase (trim text) in
  let shown :=
    if nonEmpty query then
      displayModalEvents h
        (filter (fun e => includes (toLowerCase (title e)) query) (currentDayEvents st))
        query
    else displayModalEvents h (currentDayEvents st) EmptyString in
  setModal (currentDayEvents st) text (modalShown st) shown st.

(** [displaySearchResults(results, query)], lines 469-521, returns
    ([true]) or throws: with a result to show, [highlightMatch] builds the
    regular expression of the query. *)
Definition displaySearchResults (h : host) (results : list Event)
    (query : string) : bool :=
  match results with
  | [] => true
  | _ => regExpCompiles h (highlightPattern query)
  end.

(** Whether [handleSearch] returns ([true]) or ends in the [SyntaxError]
    of [displaySearchResults], its last statement: [filteredEvents] is
    assigned and the grid rendered before. *)
Definition handleSearchReturns (h : host) (st : State) : bool :=
  let query := toLowerCase (trim (searchInput st)) in
  match events st with
  | [] => true
  | _ =>
      if negb (nonEmpty query) && negb (nonEmpty (fairFilter st)) then true
      else displaySearchResults h (filteredEvents (handleSearch st)) query
  end.

(** [deleteEventFromModal(event)], lines 1216-1244.  When the search box
    holds text [handleSearch] runs before [populateFairFilter]; if it
    ends in the [SyntaxError] of [displaySearchResults] the function is
    left there and the fair dropdown is not rebuilt. *)
Definition deleteEventFromModal (h : host) (confirmed : bool) (e : Event)
    (st : State) : State :=
  if confirmed then
    let keep := fun x => negb (id x =? id e) in
    let st1 := setEvents (filter keep (events st)) st in
    let st2 :=
      setModal (filter keep (currentDayEvents st1)) (modalSearchInput st1)
        (modalShown st1) (modalEventsList st1) st1 in
    let st3 := saveEvents st2 in
    let st4 :=
      setModal (currentDayEvents st3) (modalSearchInput st3) (modalShown st3)
        (currentDayEvents st3) st3 in
    let st5 :=
      match currentDayEvents st4 with
      | [] => closeDayEventsModal st4
      | _ => st4
      end in
    if nonEmpty (trim (searchInput st5)) then
      if handleSearchReturns h st5 then populateFairFilter (handleSearch st5)
      else handleSearch st5
    else populateFairFilter st5
  else st.

(** *** Importing rows *)

(** A row of the table: the cells of one line of the sheet, of the CSV
    text or of the pasted text, or the four cells [importFromWebhook]
    builds. *)
Definition row : Type := list json.

(** [row[k]]; a cell beyond the end of the row is [undefined]. *)
Definition cell (r : row) (k : nat) : json := nth k r JNull.

(** [row[k] ? row[k].toString().trim() : ''] *)
Definition cellText (c : json) : string :=
  if truthy c then trim (toStr c) else EmptyString.

(** The header test on the first cell of the first row. *)
Definition startIndex (data : list row) : nat :=
  match data with
  | r0 :: _ =>
      let c := cell r0 0 in
      if truthy c
         && (includes (toLowerCase (toStr c)) "date"
             || includes (toLowerCase (toStr c)) "when")
      then 1%nat else 0%nat
  | [] => 0%nat
  end.

(** [`${year}-${month}-${day}`] from the local-time getters of a valid
    date. *)
Definition formatLocal (h : host) (t : Z) : string :=
  let '(y, m, d) := localCivil h t in
  intToString y ++ "-" ++ pad2 (m + 1) ++ "-" ++ pad2 d.

(** The date of a row, lines 753-771 and 789-796: a numeric text above
    1000 goes through the spreadsheet conversion, anything else through
    [new Date(dateStr)].  [None] covers both ways the row ends up skipped:
    an invalid date, and the [TypeError] of reading [date.y] when the
    library returned [null], which the [catch] absorbs. *)
Definition rowDate (p : platform) (dateStr : string) : option Z :=
  let n := toNumber dateStr in
  if negb (isNaN n) && gtZ n 1000 then
    match parse_date_code p (parseFloat dateStr) with
    | Some (y, m, d) => newDate (jsHost p) (Some y) (Some (m - 1)) (Some d)
    | None => None
    end
  else dateParse (jsHost p) dateStr.

Definition formattedDate (p : platform) (dateStr : string) : option string :=
  option_map (formatLocal (jsHost p)) (rowDate p dateStr).

(** [events.some(e => e.date === formattedDate && e.title === title)] *)
Definition exists_ (fd t : string) (evs : list Event) : bool :=
  existsb (fun e => String.eqb (date e) fd && String.eqb (title e) t) evs.

(** The variables the loop of [processImportedData] updates. *)
Record progress : Type := {
  store : list Event;
  importedCount : Z;
  skippedCount : Z
}.

(** One turn of the loop, for the row at index [i]; [now] is the reading
    of [Date.now()] at that turn. *)
Definition importRow (p : platform) (now : Z) (i : Z) (r : row)
    (acc : progress) : progress :=
  if (List.length r <? 2)%nat then acc
  else
    let dateStr := cellText (cell r 0) in
    let title_ := cellText (cell r 1) in
    let fair_ := cellText (cell r 2) in
    let link_ := cellText (cell r 3) in
    if negb (nonEmpty dateStr) || negb (nonEmpty title_) then
      {| store := store acc; importedCount := importedCount acc;
         skippedCount := skippedCount acc + 1 |}
    else
      match formattedDate p dateStr with
      | Some fd =>
          if negb (exists_ fd title_ (store acc)) then
            {| store := (store acc ++
                 [{| id := now + i; date := fd; title := title_;
                     fair := fair_; link := link_ |}])%list;
               importedCount := importedCount acc + 1;
               skippedCount := skippedCount acc |}
          else
            {| store := store acc; importedCount := importedCount acc;
               skippedCount := skippedCount acc + 1 |}
      | None =>
          {| store := store acc; importedCount := importedCount acc;
             skippedCount := skippedCount acc + 1 |}
      end.

(** The loop from index [i] on; [clock i] is what [Date.now()] returns
    while row [i] is handled. *)
Fixpoint importRows (p : platform) (clock : Z -> Z) (i : Z) (rows : list row)
    (acc : progress) : progress :=
  match rows with
  | [] => acc
  | r :: rest => importRows p clock (i + 1) rest (importRow p (clock i) i r acc)
  end.

(** [processImportedData(data)]: the new state and the two counts the
    closing alert reports. *)
Definition processImportedData (p : platform) (clock : Z -> Z)
    (data : list row) (st : State) : State * (Z * Z) :=
  let start := startIndex data in
  let final :=
    importRows p clock (Z.of_nat start) (skipn start data)
      {| store := events st; importedCount := 0; skippedCount := 0 |} in
  let st1 := setEvents (store final) st in
  (if 0 <? importedCount final then populateFairFilter (saveEvents st1) else st1,
   (importedCount final, skippedCount final)).

(** *** Importing from the webhook *)

(** The array of records in the response, lines 883-894.  [None] is the
    failure the outer [catch] reports: the [Error] thrown on an
    unexpected shape, or the [TypeError] of reading [data.data] on
    [null]. *)
Definition dataArray (data : json) : option (list json) :=
  match data with
  | JArr items => Some items
  | JNull => None
  | _ =>
      match getProp data "data" with
      | JArr items => Some items
      | _ =>
          match getProp data "body" with
          | JArr items => Some items
          | _ => None
          end
      end
  end.

Definition eventColumns : list string :=
  [ "Launches"; "Fairs"; "Chip / Rockets Store Sale"; "PO 1"; "PO 2";
    "SeasonPass"; "Album Sale"; "RBS"; "EBS"; "Piggy Bank"; "Wheel Spin";
    "Web Shop Sale"; "Event 1"; "Event 2"; "Powerplay Promo";
    "Lever/Promo 1"; "Lever/Promo 2"; "Bash Wins/Tourney"; "Rooms Lever";
    "DIscounted Card Cost (DCC)"; "Bash Care Package"; "Slots Promo";
    "Season Pass Challenge"; "Web"; "VIP"; "Bold Beats - I"; "Bold Beats - II";
    "Bold beats - III"; "CRM Promo-1"; "CRM Promotions 2"; "Room Config Changes" ].

Definition monthMap : list (string * Z) :=
  [ ("Jan", 0); ("Feb", 1); ("Mar", 2); ("Apr", 3); ("May", 4); ("Jun", 5);
    ("Jul", 6); ("Aug", 7); ("Sep", 8); ("Oct", 9); ("Nov", 10); ("Dec", 11) ].

(** [monthMap[monthStr]]; anything that is not one of the twelve keys
    ends up as NaN in the [Date] constructor. *)
Fixpoint monthIndex (table : list (string * Z)) (monthStr : string) : option Z :=
  match table with
  | [] => None
  | (k, v) :: r => if String.eqb monthStr k then Some v else monthIndex r monthStr
  end.

(** The date of a record, lines 939-954: the text before the first comma
    is cut at the spaces, the first piece is the day and the second the
    month; the year is the current one.  There is no validity test: an
    invalid date prints as NaN-NaN-NaN. *)
Definition webhookDate (h : host) (currentYear : Z) (dateStr : string) : string :=
  let dateParts := trim (hd EmptyString (split "," (trim dateStr))) in
  let pieces := filter nonEmpty (split " " dateParts) in
  let month :=
    match nth_error pieces 1 with
    | Some monthStr => monthIndex monthMap monthStr
    | None => None
    end in
  let day :=
    match nth_error pieces 0 with
    | Some d => parseInt d
    | None => None
    end in
  match newDate h (Some currentYear) month day with
  | Some t => formatLocal h t
  | None => "NaN-NaN-NaN"
  end.

(** [value && value.toString().trim() && value !== '' && value !== '-'] *)
Definition hasActivity (value : json) : bool :=
  truthy value && nonEmpty (trim (toStr value))
  && negb (match value with JStr s => String.eqb s "" | _ => false end)
  && negb (match value with JStr s => String.eqb s "-" | _ => false end).

(** The scan of the event columns of one record, lines 965-974. *)
Definition scanColumns (item : json) (fd : string) (fairValue linkValue : json)
    (jsonData : list row) : list row :=
  fold_left
    (fun (acc : list row) colName =>
       let value := getProp item colName in
       if hasActivity value then
         (acc ++ [[JStr fd; JStr (colName ++ ": " ++ toStr value);
                   fairValue; linkValue]])%list
       else acc)
    eventColumns jsonData.

(** The body of [dataArray.forEach], lines 931-981, for a record that is
    not [null].  A date that is not a string has no [trim] method: the
    [TypeError] is caught and the record adds nothing.  The script reads
    the current year anew for every record; [currentYear] is that
    reading, the same for the records of one response. *)
Definition adaptRecord (h : host) (currentYear : Z) (item : json)
    (jsonData : list row) : list row :=
  let dateStr := orElse (orElse (getProp item "Date") (getProp item "date")) (JStr "") in
  if negb (truthy dateStr) then jsonData
  else
    match dateStr with
    | JStr s =>
        let fd := webhookDate h currentYear s in
        let fairValue := orElse (getProp item "Fairs") (JStr "") in
        let linkValue :=
          orElse (orElse (orElse (orElse (orElse (getProp item "Link")
            (getProp item "link")) (getProp item "URL")) (getProp item "url"))
            (getProp item "Ticket Link")) (JStr "") in
        scanColumns item fd fairValue linkValue jsonData
    | _ => jsonData
    end.

Definition isNull (v : json) : bool :=
  match v with JNull => true | _ => false end.

(** What a call of [importFromWebhook] ends with. *)
Inductive webhookResult : Type :=
| FetchError                       (* the alert of the outer [catch] *)
| NoValidEvents                    (* the alert on an empty [jsonData] *)
| Imported (imported skipped : Z). (* [processImportedData] ran *)

(** What [fetch] and [response.json()] deliver. *)
Inductive response : Type :=
| Failed                 (* network error, HTTP error status, or no JSON *)
| Body (data : json).

(** [importFromWebhook] with a URL in the box.  A [null] record makes
    [item.Date] throw, which leaves the loop and lands in the outer
    [catch] before [processImportedData] is reached. *)
Definition importFromWebhook (p : platform) (currentYear : Z) (clock : Z -> Z)
    (resp : response) (st : State) : State * webhookResult :=
  match resp with
  | Failed => (st, FetchError)
  | Body data =>
      match dataArray data with
      | None => (st, FetchError)
      | Some items =>
          if existsb isNull items then (st, FetchError)
          else
            let jsonData :=
              fold_left (fun acc item => adaptRecord (jsHost p) currentYear item acc)
                items [] in
            match jsonData with
            | [] => (st, NoValidEvents)
            | _ =>
                let '(st', (imported, skipped)) :=
                  processImportedData p clock jsonData st in
                (st', Imported imported skipped)
            end
      end
  end.

(** Loading the page anew: the script starts over with the events it
    finds in [localStorage], an empty filtered list and no pending
    callback, and [init] fills the fair dropdown when there are events. *)
Definition reload (st : State) : State :=
  let fresh :=
    {| events := storage st; filteredEvents := []; highlightedDate := None;
       searchInput := EmptyString; fairFilter := EmptyString; fairOptions := [];
       currentDayEvents := []; modalSearchInput := EmptyString;
       modalShown := false; modalEventsList := []; storage := storage st;
       timers := []; clock := clock st |} in
  match events fresh with
  | [] => fresh
  | _ => populateFairFilter fresh
  end.

(** *** The page as a state machine *)

(** What can happen to the page: the user's actions, with the data they
    bring, and the passing of time. *)
Inductive action : Type :=
| ImportTable (clock : Z -> Z) (data : list row)
| ImportWebhook (currentYear : Z) (clock : Z -> Z) (resp : response)
| Delete (eventId : Z)
| DeleteFromModal (confirmed : bool) (e : Event)
| ClearAll (confirmed : bool)
| Search (text fairValue : string)
| ClearSearch
| Navigate (e : Event)
| Advance (t : Z)
| ClickDay (dateString : string)
| ModalSearch (text : string)
| CloseModal
| Reload.

Definition step (p : platform) (a : action) (st : State) : State :=
  match a with
  | ImportTable clock data => fst (processImportedData p clock data st)
  | ImportWebhook year clock resp => fst (importFromWebhook p year clock resp st)
  | Delete eventId => deleteEvent eventId st
  | DeleteFromModal confirmed e => deleteEventFromModal (jsHost p) confirmed e st
  | ClearAll confirmed => clearAllEvents confirmed st
  | Search text fairValue => handleSearch (setSearch text fairValue st)
  | ClearSearch => clearSearch st
  | Navigate e => navigateToEvent e st
  | Advance t => advanceTo t st
  | ClickDay dateString => clickDay dateString st
  | ModalSearch text => handleModalSearch (jsHost p) text st
  | CloseModal => closeDayEventsModal st
  | Reload => reload st
  end.

Definition run (p : platform) (actions : list action) (st : State) : State :=
  fold_left (fun s a => step p a s) actions st.

(** The deduplication key of an event. *)
Definition key (e : Event) : string * string := (date e, title e).

Definition KeyUnique (evs : list Event) : Prop := NoDup (map key evs).

(** The invariant of the page: neither the store nor the stored snapshot
    holds a key twice. *)
Definition Deduplicated (st : State) : Prop :=
  KeyUnique (events st) /\ KeyUnique (storage st).

End Calendar.

(* ===================================================================== *)
(** ** The calendar that loads liveops.json ([src/liveops-calendar/app.js]) *)
(* ===================================================================== *)

Module AppJs.
Import JS.

(** An event of this variant: [processImportedData] builds it with an id,
    a date and a title only; [doc] and [clickup] are the links the loader
    of [liveops.json] adds. *)
Record Event : Type := {
  id : Z;
  date : string;
  title : string;
  doc : option string;
  clickup : option string
}.

(** [filteredEvents] is either the very array [events] names (the script
    assigns [filteredEvents = events], and a later [push] shows through
    both names) or an array of its own. *)
Inductive shown : Type :=
| SameArray
| Own (l : list Event).

(** [modal] is the list the day modal shows, when it is open. *)
Record State : Type := {
  events : list Event;
  filteredEvents : shown;
  highlightedDate : option string;
  searchInput : string;
  modal : option (string * list Event);
  storage : list Event
}.

Definition filteredList (st : State) : list Event :=
  match filteredEvents st with
  | SameArray => events st
  | Own l => l
  end.

(** [openEventModal(dateString)], lines 29-63, called with the date of
    the clicked cell. *)
Definition openEventModal (dateString : string) (st : State) : State :=
  if nonEmpty dateString then
    {| events := events st; filteredEvents := filteredEvents st;
       highlightedDate := highlightedDate st; searchInput := searchInput st;
       modal := Some (dateString,
                      filter (fun ev => String.eqb (date ev) dateString) (events st));
       storage := storage st |}
  else st.

(** [handleSearch], lines 530-572. *)
Definition handleSearch (st : State) : State :=
  let query := toLowerCase (trim (searchInput st)) in
  let result :=
    match events st with
    | [] => Own []
    | _ =>
        if negb (nonEmpty query) then SameArray
        else Own (filter (fun e => includes (toLowerCase (title e)) query) (events st))
    end in
  {| events := events st; filteredEvents := result;
     highlightedDate := highlightedDate st; searchInput := searchInput st;
     modal := modal st; storage := storage st |}.

(** [deleteEvent(id)], lines 341-345: [events] is bound to a new array,
    and a [filteredEvents] that named the old one keeps naming it. *)
Definition deleteEvent (eventId : Z) (st : State) : State :=
  let kept := filter (fun e => negb (id e =? eventId)) (events st) in
  {| events := kept; filteredEvents := Own (filteredList st);
     highlightedDate := highlightedDate st; searchInput := searchInput st;
     modal := modal st; storage := kept |}.

(** The loop of [processImportedData], lines 431-492; the header test
    and the date conversion are the text of the other variant. *)
Definition exists_ (fd t : string) (evs : list Event) : bool :=
  existsb (fun e => String.eqb (date e) fd && String.eqb (title e) t) evs.

Record progress : Type := {
  store : list Event;
  importedCount : Z;
  skippedCount : Z
}.

Definition importRow (p : Calendar.platform) (now : Z) (i : Z)
    (r : Calendar.row) (acc : progress) : progress :=
  if (List.length r <? 2)%nat then acc
  else
    let dateStr := Calendar.cellText (Calendar.cell r 0) in
    let title_ := Calendar.cellText (Calendar.cell r 1) in
    if negb (nonEmpty dateStr) || negb (nonEmpty title_) then
      {| store := store acc; importedCount := importedCount acc;
         skippedCount := skippedCount acc + 1 |}
    else
      match Calendar.formattedDate p dateStr with
      | Some fd =>
          if negb (exists_ fd title_ (store acc)) then
            {| store := (store acc ++
                 [{| id := now + i; date := fd; title := title_;
                     doc := None; clickup := None |}])%list;
               importedCount := importedCount acc + 1;
               skippedCount := skippedCount acc |}
          else
            {| store := store acc; importedCount := importedCount acc;
               skippedCount := skippedCount acc + 1 |}
      | None =>
          {| store := store acc; importedCount := importedCount acc;
             skippedCount := skippedCount acc + 1 |}
      end.

Fixpoint importRows (p : Calendar.platform) (clock : Z -> Z) (i : Z)
    (rows : list Calendar.row) (acc : progress) : progress :=
  match rows with
  | [] => acc
  | r :: rest => importRows p clock (i + 1) rest (importRow p (clock i) i r acc)
  end.

(** [processImportedData(data)], lines 416-509.  While the loop runs a
    [filteredEvents] that names the array of [events] sees every [push];
    after a successful import it names that array in any case. *)
Definition processImportedData (p : Calendar.platform) (clock : Z -> Z)
    (data : list Calendar.row) (st : State) : State * (Z * Z) :=
  let start := Calendar.startIndex data in
  let final :=
    importRows p clock (Z.of_nat start) (skipn start data)
      {| store := events st; importedCount := 0; skippedCount := 0 |} in
  ({| events := store final;
      filteredEvents :=
        if 0 <? importedCount final then SameArray else filteredEvents st;
      highlightedDate := highlightedDate st; searchInput := searchInput st;
      modal := modal st;
      storage := if 0 <? importedCount final then store final else storage st |},
   (importedCount final, skippedCount final)).

(** [clearSearch], lines 649-657: [filteredEvents] names the array of
    [events] again. *)
Definition clearSearch (st : State) : State :=
  {| events := events st; filteredEvents := SameArray;
     highlightedDate := None; searchInput := EmptyString;
     modal := modal st; storage := storage st |}.

(** [clearAllEvents], lines 512-527; [confirmed] is the answer to the
    confirmation dialog. *)
Definition clearAllEvents (confirmed : bool) (st : State) : State :=
  match events st with
  | [] => st
  | _ =>
      if confirmed then
        {| events := []; filteredEvents := Own [];
           highlightedDate := highlightedDate st; searchInput := EmptyString;
           modal := modal st; storage := [] |}
      else st
  end.

(** *** Loading liveops.json *)

(** [normalizeLiveopsDate(raw)], lines 152-174.  [currentYear] is the
    reading of [new Date().getFullYear()]; the text handed to [new Date]
    ends with a space and the year, so that it is never the date-only ISO
    form and the engine decides what it means.  [None] is [null]. *)
Definition normalizeLiveopsDate (h : host) (currentYear : Z) (raw : json)
  : option string :=
  match raw with
  | JStr s =>
      let trimmed := trim s in
      if nonEmpty trimmed then
        let dayMonth := trim (hd EmptyString (split "," trimmed)) in
        match dateParse h (dayMonth ++ " " ++ intToString currentYear) with
        | Some t => Some (Calendar.formatLocal h t)
        | None => None
        end
      else None
  | _ => None
  end.

(** [/^https?:\/\//i.test(s)] *)
Definition hasScheme (s : string) : bool :=
  startsWith "http://" (toLowerCase s) || startsWith "https://" (toLowerCase s).

(** [s.replace(/^\/+/, '')] *)
Fixpoint dropSlashes (s : string) : string :=
  match s with
  | String c r => if Ascii.eqb c "/" then dropSlashes r else s
  | EmptyString => EmptyString
  end.

(** Lines 108-114 and 115-120: the link of a row, from the first truthy
    one of two columns; a link without a scheme gets [https://] in front.
    [None] is [null]. *)
Definition linkOf (first second : json) : option string :=
  let raw := orElse (orElse first second) JNull in
  if truthy raw then
    let link := trim (toStr raw) in
    if nonEmpty link && negb (hasScheme link)
    then Some ("https://" ++ dropSlashes link)
    else Some link
  else None.

(** [parts.join(' | ')] *)
Fixpoint joinParts (parts : list string) : string :=
  match parts with
  | [] => EmptyString
  | [x] => x
  | x :: r => x ++ " | " ++ joinParts r
  end.

(** The callback of [rows.map], lines 92-134, for a row that is not
    [null]: [None] is the [null] that [filter(Boolean)] drops. *)
Definition mapRow (h : host) (currentYear : Z) (index : Z) (row : json)
  : option Event :=
  let data :=
    if truthy row && truthy (getProp row "json") then getProp row "json" else row in
  match normalizeLiveopsDate h currentYear (getProp data "JUMP TO TODAY") with
  | None => None
  | Some normalizedDate =>
      let part (prefix : string) (column : string) : list string :=
        if truthy (getProp data column)
        then [prefix ++ toStr (getProp data column)] else [] in
      let parts :=
        (part "" "JUMP TO TODAY" ++ part "" "Holiday List"
         ++ part "On-call: " "ON-CALL TEAM" ++ part "Revenue: " "REVENUE"
         ++ part "Perf: " "PERFORMANCE")%list in
      let joined := joinParts parts in
      Some {| id := index; date := normalizedDate;
              title := if nonEmpty joined then joined else normalizedDate;
              doc := linkOf (getProp data "Google Doc link") (getProp data "col_96");
              clickup := linkOf (getProp data "Click up link") (getProp data "col_97") |}
  end.

(** The rows of the file in turn, with their indices. *)
Fixpoint mapRows (h : host) (currentYear : Z) (index : Z) (rows : list json)
  : list Event :=
  match rows with
  | [] => []
  | row :: rest =>
      match mapRow h currentYear index row with
      | Some e => e :: mapRows h currentYear (index + 1) rest
      | None => mapRows h currentYear (index + 1) rest
      end
  end.

(** [loadEventsFromLiveopsJson], lines 81-149.  The state is left as it
    was when the file cannot be fetched or parsed, when it does not hold
    an array, when a row is [null] (reading its column throws, and the
    [catch] absorbs that), or when no row gives an event. *)
Definition loadEventsFromLiveopsJson (h : host) (currentYear : Z)
    (resp : Calendar.response) (st : State) : State :=
  match resp with
  | Calendar.Body (JArr rows) =>
      if existsb Calendar.isNull rows then st
      else
        match mapRows h currentYear 0 rows with
        | [] => st
        | mappedEvents =>
            {| events := mappedEvents; filteredEvents := SameArray;
               highlightedDate := highlightedDate st;
               searchInput := searchInput st; modal := modal st;
               storage := mappedEvents |}
        end
  | _ => st
  end.

End AppJs.

(* ===================================================================== *)
(** ** Files and pasted text (both variants) *)
(* ===================================================================== *)

(** [importCSV], [importCSVFile] and [importFromPaste] have the same text
    in both files; they end in the [processImportedData] of their file.
    The functions below are the ones of [src/unnamed/part_000]; [csvRows]
    and [pasteRows], which do not touch the state, serve both. *)
Module Intake.
Import JS.

Definition newline : ascii := "010"%char.
Definition tab : ascii := "009"%char.
Definition quote : ascii := "034"%char.

(** [s.split(/[,\t]/)]: a split at every character of a class. *)
Fixpoint splitAny (isSep : ascii -> bool) (s : string) : list string :=
  match s with
  | EmptyString => [EmptyString]
  | String c r =>
      if isSep c then EmptyString :: splitAny isSep r
      else match splitAny isSep r with
           | h :: t => String c h :: t
           | [] => [String c EmptyString]
           end
  end.

Definition commaOrTab (c : ascii) : bool :=
  Ascii.eqb c "," || Ascii.eqb c tab.

(** The second alternative of [/^"|"$/g]: a quote that ends the string. *)
Fixpoint dropClosingQuote (s : string) : string :=
  match s with
  | EmptyString => EmptyString
  | String c r =>
      match r with
      | EmptyString => if Ascii.eqb c quote then EmptyString else s
      | _ => String c (dropClosingQuote r)
      end
  end.

(** [s.replace(/^"|"$/g, '')]: one quote goes at the start and one at
    the end of what is left. *)
Definition unquote (s : string) : string :=
  match s with
  | String c r => if Ascii.eqb c quote then dropClosingQuote r else dropClosingQuote s
  | EmptyString => EmptyString
  end.

(** [part.trim().replace(/^"|"$/g, '')] *)
Definition cleanCell (part : string) : string := unquote (trim part).

(** Lines 701-705: the table [importCSVFile] reads off the text of the
    file. *)
Definition csvRows (text : string) : list Calendar.row :=
  map (fun line => map (fun part => JStr (cleanCell part)) (splitAny commaOrTab line))
    (split newline text).

(** [importCSVFile], lines 696-715, when the file has been read. *)
Definition importCSVFile (p : Calendar.platform) (clock : Z -> Z) (text : string)
    (st : Calendar.State) : Calendar.State * (Z * Z) :=
  Calendar.processImportedData p clock (csvRows text) st.

(** Lines 618-623: the cells of a pasted line, cut at the tabs, or at
    the commas when there is no tab. *)
Definition pasteCells (line : string) : list string :=
  let cells := split tab line in
  if (List.length cells <? 2)%nat then map cleanCell (split "," line) else cells.

(** Lines 610-629: the lines that give two cells or more. *)
Definition pasteRows (pastedData : string) : list Calendar.row :=
  fold_left
    (fun (jsonData : list Calendar.row) line =>
       let cells := pasteCells line in
       if (2 <=? List.length cells)%nat then (jsonData ++ [map JStr cells])%list
       else jsonData)
    (split newline pastedData) [].

(** What a call of [importFromPaste] ends with. *)
Inductive pasteResult : Type :=
| NothingPasted                    (* the alert on an empty box *)
| NoValidData                      (* the alert on an empty [jsonData] *)
| Pasted (imported skipped : Z).   (* [processImportedData] ran *)

(** [importFromPaste], lines 598-647, on the text of the paste box: the
    new state, the outcome and the text the box holds afterwards. *)
Definition importFromPaste (p : Calendar.platform) (clock : Z -> Z)
    (pasteArea : string) (st : Calendar.State)
  : Calendar.State * pasteResult * string :=
  let pastedData := trim pasteArea in
  if negb (nonEmpty pastedData) then (st, NothingPasted, pasteArea)
  else
    match pasteRows pastedData with
    | [] => (st, NoValidData, pasteArea)
    | jsonData =>
        let '(st', (imported, skipped)) :=
          Calendar.processImportedData p clock jsonData st in
        (st', Pasted imported skipped, EmptyString)
    end.

(** A file as the page receives it: its name, its content read as text
    and the rows the spreadsheet library finds in its first sheet ([None]
    when the library throws). *)
Record file : Type := {
  name : string;
  text : string;
  firstSheet : option (list Calendar.row)
}.

(** [fileName.split('.').pop()] of the lower-cased name. *)
Definition fileExtension (f : file) : string :=
  last (split "." (toLowerCase (name f))) EmptyString.

(** What a call of [importCSV] ends with. *)
Inductive fileResult : Type :=
| NoFile                           (* nothing was selected *)
| UnsupportedFormat
| UnreadableSheet                  (* the alert of [importExcelFile] *)
| Read (imported skipped : Z).

(** [importCSV], lines 650-668, with [importExcelFile] and
    [importCSVFile]. *)
Definition importCSV (p : Calendar.platform) (clock : Z -> Z)
    (selected : option file) (st : Calendar.State) : Calendar.State * fileResult :=
  match selected with
  | None => (st, NoFile)
  | Some f =>
      let fileExtension := fileExtension f in
      if String.eqb fileExtension "xlsx" || String.eqb fileExtension "xls" then
        match firstSheet f with
        | Some jsonData =>
            let '(st', (imported, skipped)) :=
              Calendar.processImportedData p clock jsonData st in
            (st', Read imported skipped)
        | None => (st, UnreadableSheet)
        end
      else if String.eqb fileExtension "csv" then
        let '(st', (imported, skipped)) := importCSVFile p clock (text f) st in
        (st', Read imported skipped)
      else (st, UnsupportedFormat)
  end.

End Intake.

(* ===================================================================== *)
(** ** The month grid *)
(* ===================================================================== *)

(** [currentDate], the month buttons, [renderCalendar] and
    [createDayElement] of [src/unnamed/part_000]; the other file has the
    same text but for the click handler of a cell, which opens its own
    modal there.  [currentDate] is a [Date] object: its time value, or
    [None] when it is invalid. *)
Module Grid.
Import JS.

(** [getFullYear()], [getMonth()], [getDate()] and [getDay()] of a valid
    date. *)
Definition getFullYear (h : host) (t : Z) : Z := let '(y, _, _) := localCivil h t in y.
Definition getMonth (h : host) (t : Z) : Z := let '(_, m, _) := localCivil h t in m.
Definition getDate (h : host) (t : Z) : Z := let '(_, _, d) := localCivil h t in d.
Definition getDay (h : host) (t : Z) : Z := (Day (t + localTZA h) + 4) mod 7.

(** [d.setMonth(m)] on a valid date: the local year, day of the month
    and time of day stay, and [MakeDay] carries a day the month does not
    have into the month after. *)
Definition setMonth (h : host) (t : Z) (m : Z) : option Z :=
  let lt := t + localTZA h in
  let '(y, _, dt) := civilOfDay (Day lt) in
  match MakeDay y m dt with
  | Some day => TimeClip (day * msPerDay + lt mod msPerDay - localTZA h)
  | None => None
  end.

(** The click handlers of the two month buttons, lines 61-69, as far as
    [currentDate] goes. *)
Definition prevMonth (h : host) (currentDate : option Z) : option Z :=
  match currentDate with
  | Some t => setMonth h t (getMonth h t - 1)
  | None => None
  end.

Definition nextMonth (h : host) (currentDate : option Z) : option Z :=
  match currentDate with
  | Some t => setMonth h t (getMonth h t + 1)
  | None => None
  end.

(** [new Date(event.date + 'T00:00:00')]: a calendar date followed by a
    time without an offset is that time of the day in local time;
    anything else is left to the engine. *)
Definition localMidnight (h : host) (dateText : string) : option Z :=
  match isoDateOnly dateText with
  | Some day => TimeClip (day * msPerDay - localTZA h)
  | None => dateParseFallback h (dateText ++ "T00:00:00")
  end.

(** [navigateToEvent(event)], lines 530-544, as far as [currentDate]
    goes: the first day of the month of the event. *)
Definition navigateToEvent (h : host) (e : Calendar.Event) : option Z :=
  let eventDate := localMidnight h (Calendar.date e) in
  newDate h (option_map (getFullYear h) eventDate)
    (option_map (getMonth h) eventDate) (Some 1).

(** A cell of the grid as [createDayElement] builds it: the number it
    shows, its classes, the texts of its event tags and, when a click
    opens the day modal, the events the modal receives. *)
Record dayElement : Type := {
  dayNumber : option Z;
  otherMonth : bool;
  today : bool;
  hasEvent : bool;
  highlighted : bool;
  eventTags : list string;
  opens : option (list Calendar.Event)
}.

(** The text of an event tag, line 217. *)
Definition tagText (t : string) : string :=
  if (15 <? String.length t)%nat then String.substring 0 15 t ++ "..." else t.

(** [createDayElement], lines 186-239. *)
Definition createDayElement (day : option Z)
    (isOtherMonth isToday hasEvent isHighlighted : bool)
    (dayEvents : list Calendar.Event) : dayElement :=
  let listed := (0 <? List.length dayEvents)%nat && negb isOtherMonth in
  {| dayNumber := day; otherMonth := isOtherMonth; today := isToday;
     hasEvent := hasEvent; highlighted := isHighlighted;
     eventTags :=
       if listed then
         (map (fun e => tagText (Calendar.title e)) (firstn 2 dayEvents)
          ++ (if (2 <? List.length dayEvents)%nat
              then [("+" ++ intToString (Z.of_nat (List.length dayEvents) - 2)
                     ++ " more")%string]
              else []))%list
       else [];
     opens := if listed then Some dayEvents else None |}.

Definition monthNames : list string :=
  [ "January"; "February"; "March"; "April"; "May"; "June"; "July"; "August";
    "September"; "October"; "November"; "December" ].

(** [`${monthNames[month]} ${year}`], the text above the grid, line 141;
    an invalid [currentDate] prints as [undefined NaN]. *)
Definition currentMonthText (h : host) (currentDate : option Z) : string :=
  match currentDate with
  | Some t =>
      nth (Z.to_nat (getMonth h t)) monthNames "undefined"
      ++ " " ++ intToString (getFullYear h t)
  | None => "undefined NaN"
  end.

(** The numbers from 1 to [n], none when [n] is below 1. *)
Definition upTo (n : Z) : list Z := map Z.of_nat (seq 1 (Z.to_nat n)).

(** [`${year}-${String(month + 1).padStart(2, '0')}-${String(day).padStart(2, '0')}`] *)
Definition dateString (year month day : Z) : string :=
  intToString year ++ "-" ++ pad2 (month + 1) ++ "-" ++ pad2 day.

(** The three runs of cells [renderCalendar] appends, lines 144-182.
    [now] is the reading of [new Date()] and [headers] the number of
    [.day-header] elements of the grid.  A count that is NaN, of an
    invalid [currentDate], makes its loop end at once. *)
Definition previousCells (h : host) (currentDate : option Z) : list dayElement :=
  let year := option_map (getFullYear h) currentDate in
  let month := option_map (getMonth h) currentDate in
  let daysInPrevMonth := option_map (getDate h) (newDate h year month (Some 0)) in
  match option_map (getDay h) (newDate h year month (Some 1)) with
  | Some firstDay =>
      map (fun k =>
             createDayElement
               (option_map (fun n => n - (firstDay - 1 - Z.of_nat k)) daysInPrevMonth)
               true false false false [])
        (seq 0 (Z.to_nat firstDay))
  | None => []
  end.

Definition currentCells (h : host) (now : Z) (currentDate : option Z)
    (st : Calendar.State) : list dayElement :=
  let year := option_map (getFullYear h) currentDate in
  let month := option_map (getMonth h) currentDate in
  match year, month,
        option_map (getDate h) (newDate h year (option_map (fun m => m + 1) month) (Some 0))
  with
  | Some y, Some m, Some daysInMonth =>
      map (fun day =>
             let isToday :=
               (day =? getDate h now) && (m =? getMonth h now)
               && (y =? getFullYear h now) in
             let dayEvents := Calendar.dayEvents (dateString y m day) st in
             createDayElement (Some day) false isToday
               (0 <? List.length dayEvents)%nat
               (match Calendar.highlightedDate st with
                | Some d => String.eqb d (dateString y m day)
                | None => false
                end)
               dayEvents)
        (upTo daysInMonth)
  | _, _, _ => []
  end.

Definition nextCells (headers : Z) (shown : list dayElement) : list dayElement :=
  let totalCells := headers + Z.of_nat (List.length shown) - 7 in
  let remainingCells := 42 - totalCells - 7 in
  map (fun day => createDayElement (Some day) true false false false [])
    (upTo remainingCells).

(** [renderCalendar], lines 134-183: the day cells in the order of the
    grid, after the headers. *)
Definition renderCalendar (h : host) (now : Z) (headers : Z)
    (currentDate : option Z) (st : Calendar.State) : list dayElement :=
  let shown := (previousCells h currentDate ++ currentCells h now currentDate st)%list in
  (shown ++ nextCells headers shown)%list.

End Grid.

(* ===================================================================== *)
(** ** Reference platform and the wording of the specification *)
(* ===================================================================== *)

(** What the reference engine checks of a pattern, from left to right:
    the parentheses pair up, a group that opens with a question mark goes
    on with [:], [=], [!] or [<], a bracket class is closed, a backslash
    has a character to escape, and [*], [+] and [?] have something to
    repeat.  [depth] counts the open groups, [atom] tells whether
    something that can be repeated came last and [inClass] whether a
    bracket class is open; the character of code 92 is the backslash. *)
Fixpoint patternScan (s : string) (depth : nat) (atom inClass : bool) : bool :=
  match s with
  | EmptyString => Nat.eqb depth 0 && negb inClass
  | String c r =>
      if Ascii.eqb c "092" then
        match r with
        | String _ r' => patternScan r' depth true inClass
        | EmptyString => false
        end
      else if inClass then patternScan r depth true (negb (Ascii.eqb c "]"))
      else if Ascii.eqb c "[" then patternScan r depth true true
      else if Ascii.eqb c "(" then
        match r with
        | String q r1 =>
            if Ascii.eqb q "?" then
              match r1 with
              | String k r2 =>
                  if Ascii.eqb k ":" || Ascii.eqb k "=" || Ascii.eqb k "!"
                     || Ascii.eqb k "<"
                  then patternScan r2 (S depth) false false
                  else false
              | EmptyString => false
              end
            else patternScan r (S depth) false false
        | EmptyString => false
        end
      else if Ascii.eqb c ")" then
        match depth with
        | O => false
        | S d => patternScan r d true false
        end
      else if Ascii.eqb c "*" || Ascii.eqb c "+" || Ascii.eqb c "?" then
        if atom then
          match r with
          | String q r1 =>
              if Ascii.eqb q "?" then patternScan r1 depth false false
              else patternScan r depth false false
          | EmptyString => Nat.eqb depth 0
          end
        else false
      else if Ascii.eqb c "|" || Ascii.eqb c "^" || Ascii.eqb c "$" then
        patternScan r depth false false
      else patternScan r depth true false
  end.

Definition referenceRegExp (pattern : string) : bool :=
  patternScan pattern 0 false false.

(** A host at a fixed offset from UTC whose [Date.parse] accepts the ISO
    format only, which the language definition allows, and whose [RegExp]
    checks a pattern as above. *)
Definition strictHost (tza : Z) : JS.host :=
  {| JS.localTZA := tza; JS.dateParseFallback := fun _ => None;
     JS.regExpCompiles := referenceRegExp |}.

(** A host with the spreadsheet library loaded. *)
Definition sheetPlatform (h : JS.host) : Calendar.platform :=
  {| Calendar.jsHost := h; Calendar.parse_date_code := XLSX.parse_date_code |}.

Definition referencePlatform (tza : Z) : Calendar.platform :=
  sheetPlatform (strictHost tza).

(** A sheet of [n] rows for the fifth of March 2025 with the titles
    Event 0, Event 1, ... *)
Definition sheet (n : nat) : list Calendar.row :=
  map (fun k => [JS.JStr "2025-03-05";
                 JS.JStr ("Event " ++ JS.intToString (Z.of_nat k))])
    (seq 0 n).

(** [l'] is [l] without the elements that satisfy [gone], the others in
    their places. *)
Inductive Removed {A : Type} (gone : A -> Prop) : list A -> list A -> Prop :=
| Removed_nil : Removed gone [] []
| Removed_drop x l l' : gone x -> Removed gone l l' -> Removed gone (x :: l) l'
| Removed_keep x l l' : ~ gone x -> Removed gone l l' -> Removed gone (x :: l) (x :: l').

(** The statements of the specification that the code is compared with,
    in the specification's words. *)
Module Spec.

(** Section 4.5: (fairTag is empty or E.fair = fairTag) and (text is empty
    or lowercase(E.title) contains lowercase(text)). *)
Definition matches (text fairTag : string) (e : Calendar.Event) : bool :=
  (String.eqb fairTag "" || String.eqb (Calendar.fair e) fairTag)
  && (String.eqb text ""
      || JS.includes (JS.toLowerCase (Calendar.title e)) (JS.toLowerCase text)).

(** Section 4.2, tabular variant: a row gives no candidate when it has
    fewer than 2 non-empty cells in positions 0-1 or when its date or
    title is empty after trimming, and one candidate otherwise. *)
Definition candidatesOfRow (r : Calendar.row) : Z :=
  if JS.nonEmpty (Calendar.cellText (Calendar.cell r 0))
     && JS.nonEmpty (Calendar.cellText (Calendar.cell r 1))
  then 1 else 0.

Definition candidates (data : list Calendar.row) : Z :=
  fold_right (fun r n => candidatesOfRow r + n) 0
    (skipn (Calendar.startIndex data) data).

End Spec.

(** The rows the loop of [processImportedData] counts: the ones with at
    least two cells. *)
Definition counted (rows : list Calendar.row) : Z :=
  Z.of_nat (List.length (filter (fun r => (2 <=? List.length r)%nat) rows)).

(** Strings made of decimal digits and dashes, as the formatted dates
    are. *)
Definition numeralChar (c : ascii) : bool :=
  let n := nat_of_ascii c in
  (Nat.eqb n 45 || (Nat.leb 48 n && Nat.leb n 57))%bool.

Fixpoint numeralChars (s : string) : bool :=
  match s with
  | EmptyString => true
  | String c r => numeralChar c && numeralChars r
  end.

(** The rows [importFromWebhook] builds: four cells, the first one a
    formatted date or the text of an invalid one. *)
Definition webhookRow (r : Calendar.row) : Prop :=
  exists fd t fairValue linkValue,
    r = [JS.JStr fd; JS.JStr t; fairValue; linkValue]
    /\ (fd = "NaN-NaN-NaN" \/ (numeralChars fd = true /\ fd <> "")).

(** The record of the fan-out example of the specification. *)
Definition exampleRecord : JS.json :=
  JS.JObj [("Date", JS.JStr " 5 Mar, Tue"); ("Fairs", JS.JStr "SpringFair");
           ("PO 1", JS.JStr "Sale A"); ("PO 2", JS.JStr "-")].

(** An engine whose [Date.parse] reads [day month year] with an English
    month abbreviation as local midnight of that day, and nothing else
    beside the ISO format. *)
Definition shortDateHost (tza : Z) : JS.host :=
  {| JS.localTZA := tza;
     JS.dateParseFallback := fun s =>
       match filter JS.nonEmpty (JS.split " " s) with
       | [d; mo; y] =>
           match JS.parseInt d, Calendar.monthIndex Calendar.monthMap mo, JS.parseInt y with
           | Some d', Some m', Some y' =>
               match JS.MakeDay y' m' d' with
               | Some day => JS.TimeClip (day * JS.msPerDay - tza)
               | None => None
               end
           | _, _, _ => None
           end
       | _ => None
       end;
     JS.regExpCompiles := referenceRegExp |}.

(** An event as the import loop leaves it: a title that is not empty and
    has no white space around it, a date made of digits and dashes, a
    fair and a link without white space around them. *)
Definition WellFormed (e : Calendar.Event) : Prop :=
  Calendar.title e <> ""
  /\ JS.trim (Calendar.title e) = Calendar.title e
  /\ numeralChars (Calendar.date e) = true
  /\ Calendar.date e <> ""
  /\ JS.trim (Calendar.fair e) = Calendar.fair e
  /\ JS.trim (Calendar.link e) = Calendar.link e.

Definition AllWellFormed (st : Calendar.State) : Prop :=
  Forall WellFormed (Calendar.events st) /\ Forall WellFormed (Calendar.storage st).

(** A row that another pass of the import loop over [evs] would not
    import: too short, blank, without a valid date, or already there. *)
Definition covered (p : Calendar.platform) (evs : list Calendar.Event)
    (r : Calendar.row) : bool :=
  (List.length r <? 2)%nat
  || negb (JS.nonEmpty (Calendar.cellText (Calendar.cell r 0)))
  || negb (JS.nonEmpty (Calendar.cellText (Calendar.cell r 1)))
  || match Calendar.formattedDate p (Calendar.cellText (Calendar.cell r 0)) with
     | Some fd => Calendar.exists_ fd (Calendar.cellText (Calendar.cell r 1)) evs
     | None => true
     end.

(** Strings in strictly ascending order of their code units. *)
Definition ascending : list string -> Prop :=
  StronglySorted (fun a b => String.compare a b = Lt).

(** The text with a carriage return in front of every line feed, as a
    file saved on Windows has it. *)
Fixpoint crlf (s : string) : string :=
  match s with
  | EmptyString => EmptyString
  | String c r =>
      if Ascii.eqb c Intake.newline
      then String "013" (String c (crlf r))
      else String c (crlf r)
  end.

(** No character of the string satisfies [bad]. *)
Fixpoint lacks (bad : ascii -> bool) (s : string) : bool :=
  match s with
  | EmptyString => true
  | String c r => negb (bad c) && lacks bad r
  end.

(** The characters at which [importCSVFile] cuts the text. *)
Definition separator (c : ascii) : bool :=
  Intake.commaOrTab c || Ascii.eqb c Intake.newline.

Definition isChar (x : ascii) (c : ascii) : bool := Ascii.eqb c x.

(** The row [importCSVFile] makes of one line. *)
Definition rowOf (line : string) : Calendar.row :=
  map (fun part => JS.JStr (Intake.cleanCell part))
    (Intake.splitAny Intake.commaOrTab line).

(** The numeral [padStart] gives a number below 100 has two digits that
    read back as the number; the numeral of a year from 1000 to 9999 has
    four.  Both are checked by running through the range. *)
Definition twoChars (k : Z) : bool :=
  match JS.pad2 k with
  | String a (String b EmptyString) =>
      match JS.twoDigits a b with
      | Some v => v =? k
      | None => false
      end
  | _ => false
  end.

Definition fourChars (y : Z) : bool :=
  match JS.intToString y with
  | String a (String b (String c (String d EmptyString))) =>
      match JS.twoDigits a b, JS.twoDigits c d with
      | Some v, Some w => (v =? y / 100) && (w =? y mod 100)
      | _, _ => false
      end
  | _ => false
  end.

(** A link as the loader of [liveops.json] leaves it: absent, empty, or
    with a scheme. *)
Definition linkOk (link : option string) : Prop :=
  match link with
  | None => True
  | Some s => s = EmptyString \/ AppJs.hasScheme s = true
  end.

(** Every character of the string is white space. *)
Definition blank (s : string) : bool := lacks (fun c => negb (JS.isWhiteSpace c)) s.

(** The pieces [importFromWebhook] cuts the date text of a record into,
    lines 939-940: the text before the first comma, cut at the spaces,
    without the empty pieces.  [Calendar.webhookDate] reads the first one
    as the day and the second one as the month. *)
Definition datePieces (dateStr : string) : list string :=
  filter JS.nonEmpty
    (JS.split " " (JS.trim (hd EmptyString (JS.split "," (JS.trim dateStr))))).

(** What the cutting of a webhook date relies on for the text made of the
    numeral of [d], a space and the month name [mo]: it begins and ends
    with a character that [trim] keeps, holds no comma, falls into these
    two pieces, the numeral reads back as [d] and the name is the key of
    [m] in the table.  The check is run over the days and the names. *)
Definition shortFormCheck (mo : string) (m d : Z) : bool :=
  let digits := JS.intToString d in
  let core := digits ++ " " ++ mo in
  match core with
  | String c _ => negb (JS.isWhiteSpace c)
  | EmptyString => false
  end
  && String.eqb (JS.trimEnd core) core
  && lacks (isChar ",") core
  && match filter JS.nonEmpty (JS.split " " core) with
     | [a; b] => String.eqb a digits && String.eqb b mo
     | _ => false
     end
  && match JS.parseInt digits with
     | Some v => v =? d
     | None => false
     end
  && match Calendar.monthIndex Calendar.monthMap mo with
     | Some v => v =? m
     | None => false
     end.

(* ===================================================================== *)
(** ** Properties *)
(* ===================================================================== *)

Import JS.

(** *** Strings *)

Lemma nonEmpty_true (s : string) : nonEmpty s = true <-> s <> EmptyString.
Proof.
  destruct s; simpl; split; intro H; try discriminate; try reflexivity.
  now elim H.
Qed.

Lemma nonEmpty_false (s : string) : nonEmpty s = false <-> s = EmptyString.
Proof.
  destruct s; simpl; split; intro H; try discriminate; reflexivity.
Qed.

Lemma startsWith_spec (p s : string) :
  startsWith p s = true <-> exists rest, s = p ++ rest.
Proof.
  revert s; induction p as [|a p IH]; intro s; simpl.
  - split; [intros _; now exists s | reflexivity].
  - destruct s as [|b s]; split.
    + discriminate.
    + intros [rest H]; discriminate.
    + rewrite andb_true_iff, Ascii.eqb_eq, IH.
      intros [-> [rest ->]]; now exists rest.
    + intros [rest H]; injection H as -> ->.
      rewrite andb_true_iff, Ascii.eqb_eq, IH; split; [reflexivity | now exists rest].
Qed.

(** [includes] decides the occurrence of a contiguous substring. *)
Lemma includes_spec (s q : string) :
  includes s q = true <-> exists before after, s = before ++ q ++ after.
Proof.
  induction s as [|c s IH].
  - simpl. rewrite orb_false_r, startsWith_spec. split.
    + intros [rest H]; now exists EmptyString, rest.
    + intros [before [after H]].
      destruct before; simpl in H; [now exists after | discriminate].
  - cbn [includes]. rewrite orb_true_iff, startsWith_spec, IH. split.
    + intros [[rest H] | [before [after H]]].
      * now exists EmptyString, rest.
      * exists (String c before), after; simpl; now rewrite H.
    + intros [before [after H]]. destruct before as [|b before]; simpl in H.
      * left; now exists after.
      * right; injection H as _ H; now exists before, after.
Qed.

(** *** The runtime on the inputs of the specification *)

Example trim_short_date : trim " 1 Jan, Wed" = "1 Jan, Wed".
Proof. reflexivity. Qed.

Example split_short_date : split "," "1 Jan, Wed" = ["1 Jan"; " Wed"].
Proof. reflexivity. Qed.

Example toNumber_serial : toNumber "45643" = Fin (inject_Z 45643).
Proof. reflexivity. Qed.

Example toNumber_iso : toNumber "2024-12-25" = NaN.
Proof. reflexivity. Qed.

Example serial_45643 : XLSX.parse_date_code (Fin (inject_Z 45643)) = Some (2024, 12, 17).
Proof. reflexivity. Qed.

Example serial_unix_epoch : XLSX.parse_date_code (Fin (inject_Z 25569)) = Some (1970, 1, 1).
Proof. reflexivity. Qed.

Example serial_leap_day_1900 : XLSX.parse_date_code (Fin (inject_Z 60)) = Some (1900, 2, 29).
Proof. reflexivity. Qed.

Example iso_christmas : option_map civilOfDay (isoDateOnly "2024-12-25") = Some (2024, 11, 25).
Proof. reflexivity. Qed.

Example february_rolls_over : option_map civilOfDay (MakeDay 2025 1 31) = Some (2025, 2, 3).
Proof. reflexivity. Qed.

Example join_array :
  toStr (JArr [JNum 1; JNull; JStr "a"; JArr [JBool true; JNum (-3)]]) = "1,,a,true,-3".
Proof. reflexivity. Qed.

(** West of UTC the local day of a date-only ISO string is the day
    before: the string is read as midnight UTC. *)
Example iso_west_of_utc :
  Calendar.formattedDate (referencePlatform (-18000000)) "2024-12-25"
  = Some "2024-12-24".
Proof. reflexivity. Qed.

(** *** Lists *)

Lemma Removed_filter {A : Type} (gone : A -> Prop) (keep : A -> bool) (l : list A) :
  (forall x, gone x <-> keep x = false) ->
  Removed gone l (filter keep l).
Proof.
  intro G. induction l as [|x l IH]; simpl.
  - constructor.
  - destruct (keep x) eqn:E.
    + apply Removed_keep; [rewrite G; congruence | exact IH].
    + apply Removed_drop; [now apply G | exact IH].
Qed.

(** What [Removed] says, element by element: the elements kept are the
    ones that are not [gone], as often as before. *)
Lemma Removed_In {A : Type} (gone : A -> Prop) (l l' : list A) :
  Removed gone l l' -> forall x, In x l' <-> In x l /\ ~ gone x.
Proof.
  induction 1 as [|x l l' G R IH|x l l' G R IH]; intro y; simpl.
  - tauto.
  - rewrite IH. split; [tauto|]. intros [[->|H] N]; [contradiction|tauto].
  - rewrite IH. split; [intros [->|H]; tauto|tauto].
Qed.

Lemma Removed_functional {A : Type} (gone : A -> Prop) (l l1 l2 : list A) :
  Removed gone l l1 -> Removed gone l l2 -> l1 = l2.
Proof.
  intros R1; revert l2; induction R1; intros l2 R2; inversion R2; subst;
    try reflexivity; try contradiction; auto.
  f_equal; auto.
Qed.

(** *** Deleting an event *)

Lemma populateFairFilter_events st :
  Calendar.events (Calendar.populateFairFilter st) = Calendar.events st
  /\ Calendar.storage (Calendar.populateFairFilter st) = Calendar.storage st
  /\ Calendar.searchInput (Calendar.populateFairFilter st) = Calendar.searchInput st
  /\ Calendar.filteredEvents (Calendar.populateFairFilter st) = Calendar.filteredEvents st.
Proof. now repeat split. Qed.

Lemma handleSearch_events st :
  Calendar.events (Calendar.handleSearch st) = Calendar.events st
  /\ Calendar.storage (Calendar.handleSearch st) = Calendar.storage st
  /\ Calendar.searchInput (Calendar.handleSearch st) = Calendar.searchInput st.
Proof.
  unfold Calendar.handleSearch.
  destruct (Calendar.events st) eqn:E; simpl; [now rewrite E|].
  destruct (negb _ && negb _); simpl; now rewrite E.
Qed.

Lemma deleteEventFromModal_events h e st :
  let st' := Calendar.deleteEventFromModal h true e st in
  Calendar.events st' =
    filter (fun x => negb (Calendar.id x =? Calendar.id e)) (Calendar.events st)
  /\ Calendar.storage st' = Calendar.events st'
  /\ Calendar.searchInput st' = Calendar.searchInput st.
Proof.
  cbv zeta. unfold Calendar.deleteEventFromModal.
  repeat match goal with
  | |- context [if Calendar.handleSearchReturns h ?X then _ else _] =>
      destruct (Calendar.handleSearchReturns h X)
  | |- context [if nonEmpty ?t then _ else _] => destruct (nonEmpty t)
  | |- context [Calendar.populateFairFilter ?X] =>
      destruct (populateFairFilter_events X) as (-> & -> & -> & _)
  | |- context [Calendar.handleSearch ?X] =>
      destruct (handleSearch_events X) as (-> & -> & ->)
  | |- context [match ?l with [] => Calendar.closeDayEventsModal _ | _ => _ end] =>
      destruct l
  end; now repeat split.
Qed.

Lemma Removed_by_id {A : Type} (ident : A -> Z) (eventId : Z) (l : list A) :
  Removed (fun x => ident x = eventId) l
    (filter (fun x => negb (ident x =? eventId)) l).
Proof.
  apply Removed_filter. intro x.
  rewrite negb_false_iff. symmetry. apply Z.eqb_eq.
Qed.

Lemma Removed_by_date {A : Type} (day : A -> string) (d : string) (l : list A) :
  Removed (fun x => day x <> d) l (filter (fun x => String.eqb (day x) d) l).
Proof.
  apply Removed_filter. intro x. symmetry. apply String.eqb_neq.
Qed.

(** C10. Deleting by id, from the grid ([deleteEvent], in both variants)
    or from the day modal after confirmation ([deleteEventFromModal]):
    the store loses exactly the events with that id, every other event
    stays as it is and where it is relative to the others, the new list
    is written to storage, and the text of the search box is not touched.
    A declined confirmation changes nothing. *)
Theorem delete_frame (h : host) (eventId : Z) (e : Calendar.Event)
    (st : Calendar.State) (st0 : AppJs.State) :
  (let st' := Calendar.deleteEvent eventId st in
   Removed (fun x => Calendar.id x = eventId) (Calendar.events st) (Calendar.events st')
   /\ Calendar.storage st' = Calendar.events st'
   /\ Calendar.searchInput st' = Calendar.searchInput st)
  /\ (let st' := Calendar.deleteEventFromModal h true e st in
      Removed (fun x => Calendar.id x = Calendar.id e)
        (Calendar.events st) (Calendar.events st')
      /\ Calendar.storage st' = Calendar.events st'
      /\ Calendar.searchInput st' = Calendar.searchInput st)
  /\ Calendar.deleteEventFromModal h false e st = st
  /\ (let st' := AppJs.deleteEvent eventId st0 in
      Removed (fun x => AppJs.id x = eventId) (AppJs.events st0) (AppJs.events st')
      /\ AppJs.storage st' = AppJs.events st'
      /\ AppJs.searchInput st' = AppJs.searchInput st0).
Proof.
  repeat split; try reflexivity.
  - apply Removed_by_id.
  - destruct (deleteEventFromModal_events h e st) as (-> & _ & _).
    apply Removed_by_id.
  - now destruct (deleteEventFromModal_events h e st) as (_ & -> & _).
  - now destruct (deleteEventFromModal_events h e st) as (_ & _ & ->).
  - apply Removed_by_id.
Qed.

(** *** Searching *)

Lemma in_handleSearch (st : Calendar.State) (e : Calendar.Event) :
  let query := toLowerCase (trim (Calendar.searchInput st)) in
  let fairTag := Calendar.fairFilter st in
  In e (Calendar.filteredEvents (Calendar.handleSearch st)) <->
  In e (Calendar.events st)
  /\ (query <> "" \/ fairTag <> "")
  /\ (fairTag = "" \/ Calendar.fair e = fairTag)
  /\ (query = "" \/ includes (toLowerCase (Calendar.title e)) query = true).
Proof.
  cbv zeta. unfold Calendar.handleSearch.
  destruct (Calendar.events st) as [|e0 l] eqn:E.
  - simpl. tauto.
  - destruct (nonEmpty (toLowerCase (trim (Calendar.searchInput st)))) eqn:Q;
      destruct (nonEmpty (Calendar.fairFilter st)) eqn:F;
      cbn [negb andb Calendar.filteredEvents Calendar.setFilteredEvents];
      rewrite ?filter_In, ?andb_true_iff, ?String.eqb_eq, ?nonEmpty_true;
      try (apply nonEmpty_true in Q); try (apply nonEmpty_true in F);
      try (apply nonEmpty_false in Q); try (apply nonEmpty_false in F).
    + split.
      * intros [[I [_ HF]] HQ]. tauto.
      * intros (I & _ & [HF|HF] & [HQ|HQ]); try contradiction.
        repeat split; try assumption. congruence.
    + split.
      * intros [I HQ]. tauto.
      * intros (I & _ & _ & [HQ|HQ]); [contradiction|]. now split.
    + split.
      * intros [I [_ HF]]. tauto.
      * intros (I & _ & [HF|HF] & _); [contradiction|].
        repeat split; try assumption. congruence.
    + simpl. tauto.
Qed.

(** C2. In [part_000], for an event of the store and a query whose text
    (trimmed and lower-cased, as [handleSearch] reads it) or fair tag is
    not empty: the event is among the filtered events exactly when (the
    fair tag is empty or the event's fair equals it) and (the text is
    empty or the lower-cased title contains it).  With both empty the
    filtered list is empty.  In [app.js], which has no fair filter, the
    event is among the filtered events exactly when the text is empty or
    the lower-cased title contains it. *)
Theorem handleSearch_matches (st : Calendar.State) (st0 : AppJs.State) :
  let query := toLowerCase (trim (Calendar.searchInput st)) in
  let fairTag := Calendar.fairFilter st in
  let query0 := toLowerCase (trim (AppJs.searchInput st0)) in
  (forall e, In e (Calendar.events st) ->
     query <> "" \/ fairTag <> "" ->
     (In e (Calendar.filteredEvents (Calendar.handleSearch st)) <->
      (fairTag = "" \/ Calendar.fair e = fairTag)
      /\ (query = "" \/ includes (toLowerCase (Calendar.title e)) query = true)))
  /\ (query = "" -> fairTag = "" ->
      Calendar.filteredEvents (Calendar.handleSearch st) = [])
  /\ (forall e, In e (AppJs.events st0) ->
      (In e (AppJs.filteredList (AppJs.handleSearch st0)) <->
       query0 = "" \/ includes (toLowerCase (AppJs.title e)) query0 = true)).
Proof.
  cbv zeta. split; [|split].
  - intros e I NE. pose proof (in_handleSearch st e) as H. cbv zeta in H. tauto.
  - intros Q F. unfold Calendar.handleSearch. rewrite Q, F.
    now destruct (Calendar.events st).
  - intros e I. unfold AppJs.handleSearch, AppJs.filteredList.
    destruct (AppJs.events st0) as [|e0 l] eqn:E; [contradiction|].
    destruct (nonEmpty (toLowerCase (trim (AppJs.searchInput st0)))) eqn:Q;
      cbn [negb AppJs.filteredEvents AppJs.events].
    + apply nonEmpty_true in Q. rewrite filter_In. tauto.
    + apply nonEmpty_false in Q. tauto.
Qed.

Lemma handleSearch_matches_witness :
  let e := {| Calendar.id := 1; Calendar.date := "2025-03-05";
              Calendar.title := "PO 1: Sale A"; Calendar.fair := "SpringFair";
              Calendar.link := "" |} in
  let st := Calendar.setSearch " sale " "SpringFair"
              (Calendar.setEvents [e] Calendar.initialState) in
  In e (Calendar.filteredEvents (Calendar.handleSearch st)).
Proof.
  cbv zeta.
  refine (proj2 (proj1 (handleSearch_matches _
            {| AppJs.events := []; AppJs.filteredEvents := AppJs.SameArray;
               AppJs.highlightedDate := None; AppJs.searchInput := "";
               AppJs.modal := None; AppJs.storage := [] |}) _ _ _) _).
  - left. reflexivity.
  - left. vm_compute. discriminate.
  - split; right; reflexivity.
Defined.

(** The query with nothing in it: the predicate of section 4.5 holds of
    the stored event, and [part_000] shows no event. *)
Lemma empty_query_shows_nothing :
  let e := {| Calendar.id := 1; Calendar.date := "2025-03-05";
              Calendar.title := "PO 1: Sale A"; Calendar.fair := "SpringFair";
              Calendar.link := "" |} in
  let st := Calendar.handleSearch
              (Calendar.setSearch "" "" (Calendar.setEvents [e] Calendar.initialState)) in
  In e (Calendar.events st)
  /\ Spec.matches "" "" e = true
  /\ ~ In e (Calendar.filteredEvents st).
Proof.
  cbv zeta. split; [now left|]. split; [reflexivity|]. intros [].
Qed.

(** *** The highlight and its timers *)

Ltac order_tests :=
  repeat match goal with
  | |- context [?a <=? ?b] => destruct (Z.leb_spec a b); try lia
  | |- context [?a <? ?b] => destruct (Z.ltb_spec a b); try lia
  end.

Lemma filter_none {A : Type} (f : A -> bool) (l : list A) :
  (forall x, In x l -> f x = false) -> filter f l = [].
Proof.
  induction l as [|x l IH]; intro H; [reflexivity|].
  cbn [filter]. rewrite (H x (or_introl eq_refl)). apply IH.
  intros y I. apply H. now right.
Qed.

Lemma filter_some {A : Type} (f : A -> bool) (l : list A) (x : A) :
  In x l -> f x = true -> filter f l <> [].
Proof.
  intros I F E.
  assert (J : In x (filter f l)) by (apply filter_In; now split).
  rewrite E in J. exact J.
Qed.

(** No callback is due by [t]: the highlight stays; one is: the highlight
    is cleared. *)
Lemma advanceTo_highlight t st :
  ((forall x, In x (Calendar.timers st) -> t < x) ->
   Calendar.highlightedDate (Calendar.advanceTo t st) = Calendar.highlightedDate st)
  /\ (forall x, In x (Calendar.timers st) -> x <= t ->
      Calendar.highlightedDate (Calendar.advanceTo t st) = None).
Proof.
  unfold Calendar.advanceTo.
  cbn [Calendar.highlightedDate Calendar.setHighlight Calendar.setClock]. split.
  - intro H. rewrite filter_none; [reflexivity|].
    intros x I. apply Z.leb_gt. now apply H.
  - intros x I L.
    destruct (filter (fun d => d <=? t) (Calendar.timers st)) eqn:E; [|reflexivity].
    exfalso. apply (filter_some (fun d => d <=? t) _ x I); [|exact E].
    now apply Z.leb_le.
Qed.

(** C3. [navigateToEvent] sets the highlight to the date of the event and
    adds a callback due 5000 ms later; it cancels nothing, whatever is
    pending.  So after A is selected at time [t0] and B is selected [d]
    ms later, inside A's window: the pending callbacks are the ones of
    earlier selections that were not yet due ([older]), the one of A and
    the one of B; the highlight is first the date of A, then the date of
    B; it stays the date of B as long as no pending callback is due and
    is cleared as soon as one is, at [t0 + 5000] at the latest, when A's
    callback runs, and not before when no older callback is pending.  A
    callback leaves the queue only by becoming due. *)
Theorem highlight_timers (a b : Calendar.Event) (st : Calendar.State) (d : Z) :
  0 <= d < 5000 ->
  let t0 := Calendar.clock st in
  let stA := Calendar.navigateToEvent a st in
  let stB := Calendar.navigateToEvent b (Calendar.advanceTo (t0 + d) stA) in
  let older := filter (fun x => t0 + d <? x) (Calendar.timers st) in
  Calendar.highlightedDate stA = Some (Calendar.date a)
  /\ Calendar.timers stA = (Calendar.timers st ++ [t0 + 5000])%list
  /\ Calendar.highlightedDate stB = Some (Calendar.date b)
  /\ Calendar.timers stB = (older ++ [t0 + 5000; t0 + d + 5000])%list
  /\ (forall t, (forall x, In x (Calendar.timers stB) -> t < x) ->
      Calendar.highlightedDate (Calendar.advanceTo t stB) = Some (Calendar.date b))
  /\ (forall t x, In x (Calendar.timers stB) -> x <= t ->
      Calendar.highlightedDate (Calendar.advanceTo t stB) = None)
  /\ (forall t, t0 + 5000 <= t ->
      Calendar.highlightedDate (Calendar.advanceTo t stB) = None)
  /\ (older = [] -> forall t, t < t0 + 5000 ->
      Calendar.highlightedDate (Calendar.advanceTo t stB) = Some (Calendar.date b))
  /\ (forall t x, In x (Calendar.timers (Calendar.advanceTo t stB)) <->
                  In x (Calendar.timers stB) /\ t < x).
Proof.
  intros D t0 stA stB older.
  assert (TA : Calendar.timers stA = (Calendar.timers st ++ [t0 + 5000])%list)
    by reflexivity.
  assert (TB : Calendar.timers stB = (older ++ [t0 + 5000; t0 + d + 5000])%list).
  { unfold stB, Calendar.navigateToEvent, Calendar.advanceTo.
    cbn [Calendar.timers Calendar.clock Calendar.setHighlight Calendar.setClock].
    rewrite TA, filter_app. cbn [filter].
    destruct (Z.ltb_spec (t0 + d) (t0 + 5000)); [|lia].
    rewrite <- app_assoc. reflexivity. }
  assert (HB : Calendar.highlightedDate stB = Some (Calendar.date b)) by reflexivity.
  split; [reflexivity|]. split; [exact TA|]. split; [exact HB|].
  split; [exact TB|]. split; [|split; [|split; [|split]]].
  - intros t H. rewrite <- HB. now apply (proj1 (advanceTo_highlight t stB)).
  - intros t x. apply (proj2 (advanceTo_highlight t stB)).
  - intros t T. apply (proj2 (advanceTo_highlight t stB) (t0 + 5000)); [|exact T].
    rewrite TB. apply in_or_app. right. now left.
  - intros O t T. rewrite <- HB. apply (proj1 (advanceTo_highlight t stB)).
    rewrite TB, O. cbn [app In]. intros x [<- | [<- | []]]; lia.
  - intros t x. unfold Calendar.advanceTo.
    cbn [Calendar.timers Calendar.setHighlight Calendar.setClock].
    rewrite filter_In, Z.ltb_lt. reflexivity.
Qed.

(** The two selections one second apart on the page as first opened: two
    callbacks are pending, not only B's, and the highlight of B is
    cleared at 5000 ms, four seconds after B was selected. *)
Lemma stale_timer_clears_highlight :
  let a := {| Calendar.id := 1; Calendar.date := "2025-03-05";
              Calendar.title := "PO 1: Sale A"; Calendar.fair := "";
              Calendar.link := "" |} in
  let b := {| Calendar.id := 2; Calendar.date := "2025-04-01";
              Calendar.title := "PO 2: Sale B"; Calendar.fair := "";
              Calendar.link := "" |} in
  let stA := Calendar.navigateToEvent a Calendar.initialState in
  let stB := Calendar.navigateToEvent b (Calendar.advanceTo 1000 stA) in
  Calendar.highlightedDate stB = Some "2025-04-01"
  /\ Calendar.timers stB <> [1000 + 5000]
  /\ List.length (Calendar.timers stB) = 2%nat
  /\ Calendar.highlightedDate (Calendar.advanceTo 5000 stB) = None
  /\ 5000 < 1000 + 5000.
Proof.
  cbv zeta. repeat split; try reflexivity. discriminate.
Qed.

(** Three selections one second apart, C, A and B: three callbacks are
    pending after the third, and the highlight of B is cleared at 5000
    ms, when the callback of C runs. *)
Lemma highlight_timers_witness :
  let c := {| Calendar.id := 3; Calendar.date := "2025-02-11";
              Calendar.title := "Wheel Spin: Bonus"; Calendar.fair := "";
              Calendar.link := "" |} in
  let a := {| Calendar.id := 1; Calendar.date := "2025-03-05";
              Calendar.title := "PO 1: Sale A"; Calendar.fair := "";
              Calendar.link := "" |} in
  let b := {| Calendar.id := 2; Calendar.date := "2025-04-01";
              Calendar.title := "PO 2: Sale B"; Calendar.fair := "";
              Calendar.link := "" |} in
  let st := Calendar.advanceTo 1000 (Calendar.navigateToEvent c Calendar.initialState) in
  let stB := Calendar.navigateToEvent b
               (Calendar.advanceTo 2000 (Calendar.navigateToEvent a st)) in
  Calendar.timers stB = [5000; 6000; 7000]
  /\ Calendar.highlightedDate (Calendar.advanceTo 5000 stB) = None.
Proof.
  cbv zeta.
  pose proof (highlight_timers
    {| Calendar.id := 1; Calendar.date := "2025-03-05";
       Calendar.title := "PO 1: Sale A"; Calendar.fair := "";
       Calendar.link := "" |}
    {| Calendar.id := 2; Calendar.date := "2025-04-01";
       Calendar.title := "PO 2: Sale B"; Calendar.fair := "";
       Calendar.link := "" |}
    (Calendar.advanceTo 1000
       (Calendar.navigateToEvent
          {| Calendar.id := 3; Calendar.date := "2025-02-11";
             Calendar.title := "Wheel Spin: Bonus"; Calendar.fair := "";
             Calendar.link := "" |} Calendar.initialState))
    1000 ltac:(lia)) as H.
  cbv zeta in H. destruct H as (_ & _ & _ & T & _ & N & _).
  split.
  - exact T.
  - apply (N 5000 5000); [now left | lia].
Defined.

(** *** The day modal *)

(** C5. In [app.js] the modal of a day lists the events of the whole
    store that fall on that day, in store order, whatever the filtered
    list and the search text are.  In [part_000] a click on a day opens
    the modal on the events of the filtered list (the result of the
    global search and fair filter) that fall on that day, and opens
    nothing when there is none; the text typed into the modal's own
    search box narrows the listed events to those whose lower-cased title
    contains it, provided the engine takes the text in parentheses as a
    pattern for [new RegExp]: when it does not and an event matches, the
    list is left empty.  The day's events, the filtered list and the store
    stay as they are in either case. *)
Theorem day_modal_lists (h : host) (d text : string) (st0 : AppJs.State)
    (st : Calendar.State) :
  (d <> "" ->
   exists l, AppJs.modal (AppJs.openEventModal d st0) = Some (d, l)
             /\ Removed (fun e => AppJs.date e <> d) (AppJs.events st0) l)
  /\ (let st' := Calendar.clickDay d st in
      (Calendar.dayEvents d st <> [] ->
       Calendar.modalShown st' = true
       /\ Calendar.modalEventsList st' = Calendar.currentDayEvents st'
       /\ Removed (fun e => Calendar.date e <> d)
            (Calendar.filteredEvents st) (Calendar.currentDayEvents st'))
      /\ (Calendar.dayEvents d st = [] -> st' = st))
  /\ (let st' := Calendar.handleModalSearch h text st in
      let query := toLowerCase (trim text) in
      (forall e, In e (Calendar.modalEventsList st') <->
                 In e (Calendar.currentDayEvents st)
                 /\ (query = ""
                     \/ (includes (toLowerCase (Calendar.title e)) query = true
                         /\ regExpCompiles h (Calendar.highlightPattern query) = true)))
      /\ Calendar.currentDayEvents st' = Calendar.currentDayEvents st
      /\ Calendar.filteredEvents st' = Calendar.filteredEvents st
      /\ Calendar.events st' = Calendar.events st).
Proof.
  split; [|split].
  - intro D. unfold AppJs.openEventModal.
    apply nonEmpty_true in D. rewrite D. cbn [AppJs.modal].
    eexists; split; [reflexivity|]. apply Removed_by_date.
  - cbv zeta. unfold Calendar.clickDay. split.
    + intro NE. destruct (Calendar.dayEvents d st) as [|e l] eqn:E; [now elim NE|].
      repeat split. rewrite <- E. apply Removed_by_date.
    + now intros ->.
  - cbv zeta. split; [|now repeat split].
    intro e. unfold Calendar.handleModalSearch, Calendar.displayModalEvents.
    cbn [Calendar.modalEventsList Calendar.setModal].
    destruct (nonEmpty (toLowerCase (trim text))) eqn:Q.
    + apply nonEmpty_true in Q. cbn [andb].
      destruct (filter _ (Calendar.currentDayEvents st)) as [|x l] eqn:F.
      * split; [intros []|]. intros (I & [E | [M _]]); [now elim Q|].
        assert (J : In e (filter
                      (fun e0 => includes (toLowerCase (Calendar.title e0))
                                   (toLowerCase (trim text)))
                      (Calendar.currentDayEvents st))) by (apply filter_In; now split).
        rewrite F in J. exact J.
      * destruct (regExpCompiles h _) eqn:R; cbn [negb].
        -- rewrite <- F, filter_In. tauto.
        -- split; [intros []|]. intros (_ & [E | [_ C]]); [now elim Q|discriminate C].
    + apply nonEmpty_false in Q. cbn [andb].
      destruct (Calendar.currentDayEvents st); tauto.
Qed.

(** A day with one event, Sale (big), in the reference engine: the text
    sale lists it; the text ( is part of the title as well, but is no
    pattern once it is put in parentheses, and leaves the list empty. *)
Example modal_search_unclosed_group :
  let e := {| Calendar.id := 1; Calendar.date := "2025-03-05";
              Calendar.title := "Sale (big)"; Calendar.fair := "";
              Calendar.link := "" |} in
  let st := Calendar.openDayEventsModal [e] Calendar.initialState in
  Calendar.modalEventsList (Calendar.handleModalSearch (strictHost 0) "sale" st) = [e]
  /\ includes (toLowerCase (Calendar.title e)) "(" = true
  /\ Calendar.modalEventsList (Calendar.handleModalSearch (strictHost 0) "(" st) = []
  /\ Calendar.modalEventsList (Calendar.handleModalSearch (strictHost 0) "" st) = [e].
Proof.
  vm_compute. repeat split; reflexivity.
Qed.

(** Two events on the same day and a global search that matches one of
    them: the day modal of [part_000] lists that one only, while the
    store holds both for the day. *)
Lemma day_modal_follows_global_search :
  let e1 := {| Calendar.id := 1; Calendar.date := "2025-03-05";
               Calendar.title := "PO 1: Sale A"; Calendar.fair := "";
               Calendar.link := "" |} in
  let e2 := {| Calendar.id := 2; Calendar.date := "2025-03-05";
               Calendar.title := "Wheel Spin: Bonus"; Calendar.fair := "";
               Calendar.link := "" |} in
  let st := Calendar.handleSearch
              (Calendar.setSearch "sale" ""
                 (Calendar.setEvents [e1; e2] Calendar.initialState)) in
  let st' := Calendar.clickDay "2025-03-05" st in
  Calendar.currentDayEvents st' = [e1]
  /\ filter (fun e => String.eqb (Calendar.date e) "2025-03-05") (Calendar.events st')
     = [e1; e2]
  /\ Calendar.modalEventsList st' <> [e1; e2].
Proof.
  cbv zeta. repeat split. discriminate.
Qed.

Lemma day_modal_lists_witness :
  let e1 := {| AppJs.id := 0; AppJs.date := "2025-03-05";
               AppJs.title := " 5 Mar, Wed | On-call: Asha";
               AppJs.doc := None; AppJs.clickup := None |} in
  let st0 := {| AppJs.events := [e1]; AppJs.filteredEvents := AppJs.Own [];
                AppJs.highlightedDate := None; AppJs.searchInput := "zzz";
                AppJs.modal := None; AppJs.storage := [e1] |} in
  exists l, AppJs.modal (AppJs.openEventModal "2025-03-05" st0) = Some ("2025-03-05", l)
            /\ Removed (fun e => AppJs.date e <> "2025-03-05") (AppJs.events st0) l.
Proof.
  cbv zeta.
  refine (proj1 (day_modal_lists (strictHost 0) "2025-03-05" "" _ Calendar.initialState) _).
  discriminate.
Defined.

(** *** The import loop: counts *)

Lemma NoDup_map_filter {A B : Type} (f : A -> B) (keep : A -> bool) (l : list A) :
  NoDup (map f l) -> NoDup (map f (filter keep l)).
Proof.
  induction l as [|x l IH]; simpl; intro N; [constructor|].
  inversion N as [|? ? NI N']; subst.
  destruct (keep x); simpl; auto.
  constructor; auto.
  intro I. apply NI. apply in_map_iff in I. destruct I as (y & E & I).
  apply filter_In in I. apply in_map_iff. exists y. tauto.
Qed.

Lemma NoDup_snoc {A : Type} (l : list A) (x : A) :
  NoDup l -> ~ In x l -> NoDup (l ++ [x]).
Proof.
  intros N NI. apply NoDup_app; auto.
  - constructor; [intros []|constructor].
  - intros a I [<-|[]]. contradiction.
Qed.

Lemma counted_cons r rows :
  counted (r :: rows) =
  (if (List.length r <? 2)%nat then 0 else 1) + counted rows.
Proof.
  unfold counted. cbn [filter].
  destruct (Nat.ltb_spec (List.length r) 2) as [L|L];
    destruct (Nat.leb_spec 2 (List.length r)); try lia.
  cbn [List.length]. lia.
Qed.

(** One turn of the loop: a row with fewer than two cells changes
    nothing, any other row adds one to exactly one of the two counts, and
    the store grows by one event exactly when the imported count does. *)
Lemma importRow_counts p now i r acc :
  let acc' := Calendar.importRow p now i r acc in
  Calendar.importedCount acc' + Calendar.skippedCount acc' =
    Calendar.importedCount acc + Calendar.skippedCount acc
    + (if (List.length r <? 2)%nat then 0 else 1)
  /\ Calendar.skippedCount acc <= Calendar.skippedCount acc'
  /\ Z.of_nat (List.length (Calendar.store acc')) - Calendar.importedCount acc' =
     Z.of_nat (List.length (Calendar.store acc)) - Calendar.importedCount acc.
Proof.
  cbv zeta. unfold Calendar.importRow.
  destruct (List.length r <? 2)%nat; [lia|].
  destruct (negb _ || negb _); cbn; [lia|].
  destruct (Calendar.formattedDate p _); cbn; [|lia].
  destruct (negb _); cbn; [|lia].
  rewrite length_app. cbn. lia.
Qed.

Lemma importRows_counts p clock rows : forall i acc,
  let acc' := Calendar.importRows p clock i rows acc in
  Calendar.importedCount acc' + Calendar.skippedCount acc' =
    Calendar.importedCount acc + Calendar.skippedCount acc + counted rows
  /\ Calendar.skippedCount acc <= Calendar.skippedCount acc'
  /\ Z.of_nat (List.length (Calendar.store acc')) - Calendar.importedCount acc' =
     Z.of_nat (List.length (Calendar.store acc)) - Calendar.importedCount acc.
Proof.
  induction rows as [|r rows IH]; intros i acc; cbv zeta.
  - cbn. unfold counted. cbn. lia.
  - cbn [Calendar.importRows]. rewrite counted_cons.
    specialize (IH (i + 1) (Calendar.importRow p (clock i) i r acc)).
    cbv zeta in IH.
    pose proof (importRow_counts p (clock i) i r acc) as H. cbv zeta in H.
    lia.
Qed.

Lemma appjs_importRow_counts p now i r acc :
  let acc' := AppJs.importRow p now i r acc in
  AppJs.importedCount acc' + AppJs.skippedCount acc' =
    AppJs.importedCount acc + AppJs.skippedCount acc
    + (if (List.length r <? 2)%nat then 0 else 1)
  /\ AppJs.skippedCount acc <= AppJs.skippedCount acc'
  /\ Z.of_nat (List.length (AppJs.store acc')) - AppJs.importedCount acc' =
     Z.of_nat (List.length (AppJs.store acc)) - AppJs.importedCount acc.
Proof.
  cbv zeta. unfold AppJs.importRow.
  destruct (List.length r <? 2)%nat; [lia|].
  destruct (negb _ || negb _); cbn; [lia|].
  destruct (Calendar.formattedDate p _); cbn; [|lia].
  destruct (negb _); cbn; [|lia].
  rewrite length_app. cbn. lia.
Qed.

Lemma appjs_importRows_counts p clock rows : forall i acc,
  let acc' := AppJs.importRows p clock i rows acc in
  AppJs.importedCount acc' + AppJs.skippedCount acc' =
    AppJs.importedCount acc + AppJs.skippedCount acc + counted rows
  /\ AppJs.skippedCount acc <= AppJs.skippedCount acc'
  /\ Z.of_nat (List.length (AppJs.store acc')) - AppJs.importedCount acc' =
     Z.of_nat (List.length (AppJs.store acc)) - AppJs.importedCount acc.
Proof.
  induction rows as [|r rows IH]; intros i acc; cbv zeta.
  - cbn. unfold counted. cbn. lia.
  - cbn [AppJs.importRows]. rewrite counted_cons.
    specialize (IH (i + 1) (AppJs.importRow p (clock i) i r acc)).
    cbv zeta in IH.
    pose proof (appjs_importRow_counts p (clock i) i r acc) as H. cbv zeta in H.
    lia.
Qed.

(** *** Formatted dates *)

Lemma numeralChars_app a b :
  numeralChars (a ++ b) = numeralChars a && numeralChars b.
Proof.
  induction a as [|c a IH]; simpl; [reflexivity|].
  now rewrite IH, andb_assoc.
Qed.

Lemma digitChar_numeral n : numeralChar (digitChar (n mod 10)) = true.
Proof.
  assert (H : 0 <= n mod 10 < 10) by (apply Z.mod_pos_bound; lia).
  assert (C : n mod 10 = 0 \/ n mod 10 = 1 \/ n mod 10 = 2 \/ n mod 10 = 3
              \/ n mod 10 = 4 \/ n mod 10 = 5 \/ n mod 10 = 6 \/ n mod 10 = 7
              \/ n mod 10 = 8 \/ n mod 10 = 9) by lia.
  repeat (destruct C as [-> | C]; [reflexivity|]). now rewrite C.
Qed.

Lemma digitsOf_numeral fuel : forall n acc,
  numeralChars acc = true -> numeralChars (digitsOf fuel n acc) = true.
Proof.
  induction fuel as [|f IH]; intros n acc A; simpl; [exact A|].
  assert (A' : numeralChars (String (digitChar (n mod 10)) acc) = true)
    by (cbn [numeralChars]; now rewrite digitChar_numeral).
  destruct (n <? 10); [exact A'|]. now apply IH.
Qed.

Lemma digitsOf_nonEmpty fuel : forall n acc,
  digitsOf (S fuel) n acc <> "".
Proof.
  induction fuel as [|f IH]; intros n acc.
  - simpl. now destruct (n <? 10).
  - change (digitsOf (S (S f)) n acc)
      with (let acc' := String (digitChar (n mod 10)) acc in
            if n <? 10 then acc' else digitsOf (S f) (n / 10) acc').
    cbv zeta. destruct (n <? 10); [discriminate|apply IH].
Qed.

Lemma intToString_numeral n :
  numeralChars (intToString n) = true /\ intToString n <> "".
Proof.
  unfold intToString.
  pose proof (digitsOf_numeral (S (Z.to_nat (Z.log2 (Z.abs n)))) (Z.abs n) ""
                eq_refl) as D.
  pose proof (digitsOf_nonEmpty (Z.to_nat (Z.log2 (Z.abs n))) (Z.abs n) "") as N.
  destruct (n <? 0); [|now split].
  split; [|discriminate]. now rewrite numeralChars_app, D.
Qed.

Lemma repeatChar_numeral k : numeralChars (repeatChar "0" k) = true.
Proof. induction k; simpl; auto. Qed.

Lemma pad2_numeral n : numeralChars (pad2 n) = true.
Proof.
  unfold pad2, padStart.
  rewrite numeralChars_app, repeatChar_numeral.
  apply intToString_numeral.
Qed.

Lemma formatLocal_numeral h t :
  numeralChars (Calendar.formatLocal h t) = true /\ Calendar.formatLocal h t <> "".
Proof.
  unfold Calendar.formatLocal. destruct (localCivil h t) as [[y m] d].
  destruct (intToString_numeral y) as [Y NE].
  split.
  - rewrite !numeralChars_app, Y, !pad2_numeral. reflexivity.
  - destruct (intToString y); [now elim NE|discriminate].
Qed.

Lemma numeralChars_lower s : numeralChars s = true -> toLowerCase s = s.
Proof.
  induction s as [|c s IH]; simpl; [reflexivity|].
  rewrite andb_true_iff. intros [C S]. rewrite (IH S). f_equal.
  unfold numeralChar in C. unfold lowerChar.
  assert (L : (nat_of_ascii c <= 57)%nat).
  { destruct (Nat.eqb_spec (nat_of_ascii c) 45); [lia|].
    destruct (Nat.leb_spec 48 (nat_of_ascii c)); [|discriminate].
    destruct (Nat.leb_spec (nat_of_ascii c) 57); [lia|discriminate]. }
  destruct (Nat.leb_spec 65 (nat_of_ascii c)); [lia|].
  destruct (Nat.leb_spec 192 (nat_of_ascii c)); [lia|reflexivity].
Qed.

(** A string of digits and dashes contains no word that starts with a
    letter. *)
Lemma numeralChars_includes s c q :
  numeralChars s = true -> numeralChar c = false ->
  includes s (String c q) = false.
Proof.
  intros S C. induction s as [|a s IH]; [reflexivity|].
  cbn [numeralChars] in S. apply andb_true_iff in S. destruct S as [A S].
  cbn [includes startsWith]. rewrite (IH S), orb_false_r.
  destruct (Ascii.eqb_spec c a) as [->|]; [congruence|reflexivity].
Qed.

Lemma webhookRow_no_header r rows :
  webhookRow r -> Calendar.startIndex (r :: rows) = 0%nat.
Proof.
  intros (fd & t & f & l & -> & [->|[N NE]]); [reflexivity|].
  unfold Calendar.startIndex. cbn [Calendar.cell nth truthy toStr].
  rewrite (numeralChars_lower _ N).
  rewrite !(numeralChars_includes fd) by (assumption || reflexivity).
  now rewrite andb_false_r.
Qed.

Lemma webhookRows_counted rows :
  Forall webhookRow rows -> counted rows = Z.of_nat (List.length rows).
Proof.
  induction 1 as [|r rows R F IH]; [reflexivity|].
  rewrite counted_cons, IH. destruct R as (fd & t & f & l & -> & _).
  change (List.length (_ :: rows)) with (S (List.length rows)).
  rewrite Nat2Z.inj_succ. change (List.length [_; _; _; _] <? 2)%nat with false.
  lia.
Qed.

(** *** The calendar arithmetic of the runtime *)

Lemma InLeapYear_bound y : 0 <= InLeapYear y <= 1.
Proof. unfold InLeapYear. destruct (andb _ _); lia. Qed.

Lemma DayFromYear_step y :
  DayFromYear (y + 1) - DayFromYear y = 365 + InLeapYear y.
Proof.
  unfold DayFromYear, InLeapYear.
  destruct (Z.eqb_spec (y mod 4) 0); destruct (Z.eqb_spec (y mod 100) 0);
    destruct (Z.eqb_spec (y mod 400) 0); cbn [andb orb negb];
    Z.div_mod_to_equations; lia.
Qed.

(** [YearFromDay] is the year of the language definition: the one whose
    first day is the last first-of-January not after the day. *)
Lemma YearFromDay_spec y k :
  0 <= k < 365 + InLeapYear y -> YearFromDay (DayFromYear y + k) = y.
Proof.
  intro K.
  pose proof (DayFromYear_step y) as S0.
  pose proof (DayFromYear_step (y + 1)) as S1.
  pose proof (DayFromYear_step (y - 1)) as S2.
  replace (y - 1 + 1) with y in S2 by lia.
  pose proof (InLeapYear_bound y). pose proof (InLeapYear_bound (y + 1)).
  pose proof (InLeapYear_bound (y - 1)).
  unfold YearFromDay.
  set (d := DayFromYear y + k).
  assert (Y0 : y - 1 <= 1970 + 400 * d / 146097 <= y + 1).
  { subst d. unfold DayFromYear. Z.div_mod_to_equations. lia. }
  set (y0 := 1970 + 400 * d / 146097) in *.
  assert (C : y0 = y - 1 \/ y0 = y \/ y0 = y + 1) by lia.
  destruct C as [-> | [-> | ->]].
  - replace (y - 1 + 1) with y by lia.
    destruct (Z.leb_spec (DayFromYear y) d); [lia | subst d; lia].
  - destruct (Z.leb_spec (DayFromYear (y + 1)) d); [subst d; lia|].
    destruct (Z.leb_spec (DayFromYear y) d); [lia | subst d; lia].
  - destruct (Z.leb_spec (DayFromYear (y + 1 + 1)) d); [subst d; lia|].
    destruct (Z.leb_spec (DayFromYear (y + 1)) d); [subst d; lia | lia].
Qed.

Ltac month_cases C D :=
  repeat (destruct C as [-> | C]); try subst;
  match type of D with
  | context [monthStart _ (?k + 1)] =>
      let k' := eval vm_compute in (k + 1) in change (k + 1) with k' in D
  end;
  cbn [monthStart monthOfDay] in D |- *.

(** The calendar day of day [d] of month [m] of year [y] is [(y, m, d)]. *)
Lemma civilOfDay_day y m d :
  0 <= m <= 11 -> 1 <= d <= daysInMonth y (m + 1) ->
  civilOfDay (DayFromYear y + monthStart (InLeapYear y) m + d - 1) = (y, m, d).
Proof.
  intros M D. unfold daysInMonth in D.
  replace (m + 1 - 1) with m in D by lia.
  pose proof (InLeapYear_bound y) as L.
  assert (C : m = 0 \/ m = 1 \/ m = 2 \/ m = 3 \/ m = 4 \/ m = 5 \/ m = 6
              \/ m = 7 \/ m = 8 \/ m = 9 \/ m = 10 \/ m = 11) by lia.
  assert (K : 0 <= monthStart (InLeapYear y) m + d - 1 < 365 + InLeapYear y).
  { set (leap := InLeapYear y) in *. clearbody leap. month_cases C D; lia. }
  unfold civilOfDay.
  replace (DayFromYear y + monthStart (InLeapYear y) m + d - 1)
    with (DayFromYear y + (monthStart (InLeapYear y) m + d - 1)) by lia.
  rewrite (YearFromDay_spec y _ K).
  replace (DayFromYear y + (monthStart (InLeapYear y) m + d - 1) - DayFromYear y)
    with (monthStart (InLeapYear y) m + d - 1) by lia.
  clear K. set (leap := InLeapYear y) in *. clearbody leap.
  month_cases C D; order_tests; cbn [monthStart]; f_equal; lia.
Qed.

(** *** The records of the webhook *)

(** The scan of the columns adds, in the order of the columns, one row
    for every column that holds an activity. *)
Lemma scanColumns_eq item fd fairValue linkValue jsonData :
  Calendar.scanColumns item fd fairValue linkValue jsonData =
  (jsonData ++
   map (fun colName =>
          [JStr fd; JStr (colName ++ ": " ++ toStr (getProp item colName));
           fairValue; linkValue])
     (filter (fun colName => Calendar.hasActivity (getProp item colName))
        Calendar.eventColumns))%list.
Proof.
  unfold Calendar.scanColumns. generalize Calendar.eventColumns as cols.
  intro cols. revert jsonData.
  induction cols as [|c cols IH]; intro jsonData; cbn [fold_left filter map].
  - now rewrite app_nil_r.
  - rewrite IH. destruct (Calendar.hasActivity (getProp item c)).
    + cbn [map]. now rewrite <- app_assoc.
    + reflexivity.
Qed.

Lemma adaptRecord_app h year item jsonData :
  Calendar.adaptRecord h year item jsonData =
  (jsonData ++ Calendar.adaptRecord h year item [])%list.
Proof.
  unfold Calendar.adaptRecord.
  destruct (negb (truthy _)); [symmetry; apply app_nil_r|].
  destruct (orElse (orElse (getProp item "Date") (getProp item "date")) (JStr ""));
    try (symmetry; apply app_nil_r).
  rewrite (scanColumns_eq _ _ _ _ jsonData), (scanColumns_eq _ _ _ _ []).
  rewrite app_nil_l. reflexivity.
Qed.

Lemma webhookDate_shape h year s :
  Calendar.webhookDate h year s = "NaN-NaN-NaN"
  \/ (numeralChars (Calendar.webhookDate h year s) = true
      /\ Calendar.webhookDate h year s <> "").
Proof.
  unfold Calendar.webhookDate. destruct (newDate _ _ _ _); [right|now left].
  apply formatLocal_numeral.
Qed.

Lemma adaptRecord_rows h year item :
  Forall webhookRow (Calendar.adaptRecord h year item []).
Proof.
  unfold Calendar.adaptRecord.
  destruct (negb (truthy _)); [apply Forall_nil|].
  destruct (orElse (orElse (getProp item "Date") (getProp item "date")) (JStr ""));
    try apply Forall_nil.
  rewrite (scanColumns_eq _ _ _ _ []), app_nil_l.
  apply Forall_forall. intros r I. apply in_map_iff in I.
  destruct I as (c & <- & _).
  eexists _, _, _, _. split; [reflexivity|apply webhookDate_shape].
Qed.

Lemma adaptRecords_rows h year items : forall jsonData,
  Forall webhookRow jsonData ->
  Forall webhookRow
    (fold_left (fun acc item => Calendar.adaptRecord h year item acc) items jsonData).
Proof.
  induction items as [|item items IH]; intros jsonData F; cbn [fold_left].
  - exact F.
  - apply IH. rewrite adaptRecord_app. apply Forall_app. split; [exact F|].
    apply adaptRecord_rows.
Qed.

(** *** Counting the rows of a batch *)

Lemma processImportedData_counts p clock data st :
  let result := Calendar.processImportedData p clock data st in
  fst (snd result) + snd (snd result) =
    counted (skipn (Calendar.startIndex data) data)
  /\ 0 <= snd (snd result)
  /\ fst (snd result) =
     Z.of_nat (List.length (Calendar.events (fst result)))
     - Z.of_nat (List.length (Calendar.events st)).
Proof.
  cbv zeta. unfold Calendar.processImportedData. cbn [fst snd].
  match goal with
  | |- context [Calendar.importRows p clock ?i ?rows ?acc] =>
      pose proof (importRows_counts p clock rows i acc) as H;
      cbv zeta in H; cbn [Calendar.importedCount Calendar.skippedCount
                            Calendar.store] in H;
      set (final := Calendar.importRows p clock i rows acc) in *
  end.
  assert (E : Calendar.events
                (if 0 <? Calendar.importedCount final
                 then Calendar.populateFairFilter
                        (Calendar.saveEvents (Calendar.setEvents (Calendar.store final) st))
                 else Calendar.setEvents (Calendar.store final) st)
              = Calendar.store final) by (now destruct (0 <? _)).
  rewrite E. lia.
Qed.

Lemma appjs_processImportedData_counts p clock data st :
  let result := AppJs.processImportedData p clock data st in
  fst (snd result) + snd (snd result) =
    counted (skipn (Calendar.startIndex data) data)
  /\ 0 <= snd (snd result)
  /\ fst (snd result) =
     Z.of_nat (List.length (AppJs.events (fst result)))
     - Z.of_nat (List.length (AppJs.events st)).
Proof.
  cbv zeta. unfold AppJs.processImportedData. cbn [fst snd AppJs.events].
  match goal with
  | |- context [AppJs.importRows p clock ?i ?rows ?acc] =>
      pose proof (appjs_importRows_counts p clock rows i acc) as H;
      cbv zeta in H; cbn [AppJs.importedCount AppJs.skippedCount
                            AppJs.store] in H
  end.
  lia.
Qed.

(** C7. The two counts of a batch add up to the number of rows after the
    header row that have at least two cells, in both variants, and the
    imported count is the number of events the store gained.  A row with
    fewer than two cells is counted in neither total; a row with two or
    more cells whose date or title is empty after trimming is counted as
    skipped.  Every row the webhook fan-out builds has four cells and
    none is taken for a header, so for a webhook batch the two counts add
    up to the number of rows the fan-out produced. *)
Theorem count_accounting (p : Calendar.platform) (clock : Z -> Z)
    (data : list Calendar.row) (st : Calendar.State) (st0 : AppJs.State)
    (now i : Z) (r : Calendar.row) (acc : Calendar.progress)
    (year : Z) (items : list json) :
  (let result := Calendar.processImportedData p clock data st in
   fst (snd result) + snd (snd result) =
     counted (skipn (Calendar.startIndex data) data)
   /\ fst (snd result) =
      Z.of_nat (List.length (Calendar.events (fst result)))
      - Z.of_nat (List.length (Calendar.events st)))
  /\ (let result := AppJs.processImportedData p clock data st0 in
      fst (snd result) + snd (snd result) =
        counted (skipn (Calendar.startIndex data) data)
      /\ fst (snd result) =
         Z.of_nat (List.length (AppJs.events (fst result)))
         - Z.of_nat (List.length (AppJs.events st0)))
  /\ ((List.length r < 2)%nat -> Calendar.importRow p now i r acc = acc)
  /\ ((2 <= List.length r)%nat ->
      Calendar.cellText (Calendar.cell r 0) = ""
      \/ Calendar.cellText (Calendar.cell r 1) = "" ->
      Calendar.importRow p now i r acc =
        {| Calendar.store := Calendar.store acc;
           Calendar.importedCount := Calendar.importedCount acc;
           Calendar.skippedCount := Calendar.skippedCount acc + 1 |})
  /\ (forall st' imported skipped,
        Calendar.importFromWebhook p year clock (Calendar.Body (JArr items)) st
          = (st', Calendar.Imported imported skipped) ->
        imported + skipped =
          Z.of_nat (List.length
            (fold_left (fun rows item =>
                          Calendar.adaptRecord (Calendar.jsHost p) year item rows)
               items []))).
Proof.
  split; [|split; [|split; [|split]]].
  - pose proof (processImportedData_counts p clock data st) as H.
    cbv zeta in H |- *. tauto.
  - pose proof (appjs_processImportedData_counts p clock data st0) as H.
    cbv zeta in H |- *. tauto.
  - intro L. unfold Calendar.importRow.
    destruct (Nat.ltb_spec (List.length r) 2); [reflexivity|lia].
  - intros L E. unfold Calendar.importRow.
    destruct (Nat.ltb_spec (List.length r) 2); [lia|].
    destruct E as [-> | ->]; cbn [nonEmpty negb orb]; [reflexivity|].
    now rewrite orb_true_r.
  - intros st' imported skipped.
    unfold Calendar.importFromWebhook. cbn [Calendar.dataArray].
    destruct (existsb Calendar.isNull items); [discriminate|].
    pose proof (adaptRecords_rows (Calendar.jsHost p) year items [] (Forall_nil _)) as F.
    destruct (fold_left _ items []) as [|r0 rows] eqn:J; [discriminate|].
    pose proof (processImportedData_counts p clock (r0 :: rows) st) as H.
    cbv zeta in H.
    destruct (Calendar.processImportedData p clock (r0 :: rows) st)
      as [st1 [imp skip]].
    cbn [fst snd] in H. intro E; injection E as _ <- <-.
    rewrite (webhookRow_no_header r0 rows) in H by (now inversion F).
    cbn [skipn] in H. rewrite (webhookRows_counted _ F) in H. tauto.
Qed.


(** A row whose date cell is blank: the section 4.2 adapter produces no
    candidate for it, and the code counts it as skipped. *)
Lemma blank_date_row_is_counted :
  let data := [[JStr " "; JStr "PO 1: Sale A"]] in
  let result := Calendar.processImportedData (referencePlatform 0)
                  (fun _ => 1700000000000) data Calendar.initialState in
  Spec.candidates data = 0
  /\ snd result = (0, 1)
  /\ fst (snd result) + snd (snd result) <> Spec.candidates data.
Proof.
  cbv zeta. split; [|split].
  - vm_compute. reflexivity.
  - vm_compute. reflexivity.
  - vm_compute. discriminate.
Qed.

Lemma count_accounting_witness :
  let p := referencePlatform 0 in
  let acc := {| Calendar.store := []; Calendar.importedCount := 0;
                Calendar.skippedCount := 0 |} in
  Calendar.importRow p 1700000000000 0 [JStr "2025-03-05"] acc = acc
  /\ Calendar.importRow p 1700000000000 0 [JStr " "; JStr "PO 1: Sale A"] acc =
       {| Calendar.store := []; Calendar.importedCount := 0;
          Calendar.skippedCount := 0 + 1 |}.
Proof.
  cbv zeta. split.
  - refine (proj1 (proj2 (proj2
      (count_accounting (referencePlatform 0) (fun _ => 0) [] Calendar.initialState
         {| AppJs.events := []; AppJs.filteredEvents := AppJs.SameArray;
            AppJs.highlightedDate := None; AppJs.searchInput := "";
            AppJs.modal := None; AppJs.storage := [] |}
         1700000000000 0 [JStr "2025-03-05"] _ 2025 []))) _).
    simpl. lia.
  - refine (proj1 (proj2 (proj2 (proj2
      (count_accounting (referencePlatform 0) (fun _ => 0) [] Calendar.initialState
         {| AppJs.events := []; AppJs.filteredEvents := AppJs.SameArray;
            AppJs.highlightedDate := None; AppJs.searchInput := "";
            AppJs.modal := None; AppJs.storage := [] |}
         1700000000000 0 [JStr " "; JStr "PO 1: Sale A"] _ 2025 [])))) _ _).
    + simpl. lia.
    + left. reflexivity.
Defined.

(** *** The deduplication key *)

Lemma exists_true fd t evs :
  Calendar.exists_ fd t evs = true <-> In (fd, t) (map Calendar.key evs).
Proof.
  unfold Calendar.exists_. rewrite existsb_exists, in_map_iff. split.
  - intros (e & I & E). apply andb_true_iff in E. destruct E as [D T].
    apply String.eqb_eq in D. apply String.eqb_eq in T.
    exists e. split; [|exact I]. unfold Calendar.key. now rewrite D, T.
  - intros (e & E & I). injection E as <- <-.
    exists e. split; [exact I|]. now rewrite !String.eqb_refl.
Qed.

Lemma appjs_exists_true fd t evs :
  AppJs.exists_ fd t evs = true <->
  In (fd, t) (map (fun e => (AppJs.date e, AppJs.title e)) evs).
Proof.
  unfold AppJs.exists_. rewrite existsb_exists, in_map_iff. split.
  - intros (e & I & E). apply andb_true_iff in E. destruct E as [D T].
    apply String.eqb_eq in D. apply String.eqb_eq in T.
    exists e. split; [|exact I]. now rewrite D, T.
  - intros (e & E & I). injection E as <- <-.
    exists e. split; [exact I|]. now rewrite !String.eqb_refl.
Qed.

Lemma importRow_KeyUnique p now i r acc :
  Calendar.KeyUnique (Calendar.store acc) ->
  Calendar.KeyUnique (Calendar.store (Calendar.importRow p now i r acc)).
Proof.
  intro U. unfold Calendar.importRow.
  destruct (List.length r <? 2)%nat; [exact U|].
  destruct (negb _ || negb _); [exact U|].
  destruct (Calendar.formattedDate p _) as [fd|]; [|exact U].
  destruct (Calendar.exists_ fd _ (Calendar.store acc)) eqn:E; cbn [negb]; [exact U|].
  cbn [Calendar.store]. unfold Calendar.KeyUnique.
  rewrite map_app. apply NoDup_snoc; [exact U|].
  intro I. apply exists_true in I.
  cbn [Calendar.date Calendar.title] in I. congruence.
Qed.

Lemma importRows_KeyUnique p clock rows : forall i acc,
  Calendar.KeyUnique (Calendar.store acc) ->
  Calendar.KeyUnique (Calendar.store (Calendar.importRows p clock i rows acc)).
Proof.
  induction rows as [|r rows IH]; intros i acc U; cbn [Calendar.importRows].
  - exact U.
  - apply IH. now apply importRow_KeyUnique.
Qed.

Lemma processImportedData_events p clock data st :
  Calendar.events (fst (Calendar.processImportedData p clock data st)) =
  Calendar.store
    (Calendar.importRows p clock (Z.of_nat (Calendar.startIndex data))
       (skipn (Calendar.startIndex data) data)
       {| Calendar.store := Calendar.events st; Calendar.importedCount := 0;
          Calendar.skippedCount := 0 |}).
Proof.
  unfold Calendar.processImportedData. cbn [fst].
  now destruct (0 <? _).
Qed.

Lemma processImportedData_KeyUnique p clock data st :
  Calendar.KeyUnique (Calendar.events st) ->
  Calendar.KeyUnique
    (Calendar.events (fst (Calendar.processImportedData p clock data st))).
Proof.
  intro U. rewrite processImportedData_events. now apply importRows_KeyUnique.
Qed.

Lemma processImportedData_storage p clock data st :
  let st' := fst (Calendar.processImportedData p clock data st) in
  Calendar.storage st' = Calendar.storage st
  \/ Calendar.storage st' = Calendar.events st'.
Proof.
  cbv zeta. unfold Calendar.processImportedData. cbn [fst].
  destruct (0 <? _); [right|left]; reflexivity.
Qed.

Lemma processImportedData_Deduplicated p clock data st :
  Calendar.Deduplicated st ->
  Calendar.Deduplicated (fst (Calendar.processImportedData p clock data st)).
Proof.
  intros [U V].
  pose proof (processImportedData_KeyUnique p clock data st U) as U'.
  split; [exact U'|].
  destruct (processImportedData_storage p clock data st) as [-> | ->]; assumption.
Qed.

Lemma importFromWebhook_Deduplicated p year clock resp st :
  Calendar.Deduplicated st ->
  Calendar.Deduplicated (fst (Calendar.importFromWebhook p year clock resp st)).
Proof.
  intro U. unfold Calendar.importFromWebhook.
  destruct resp as [|data]; [exact U|].
  destruct (Calendar.dataArray data) as [items|]; [|exact U].
  destruct (existsb Calendar.isNull items); [exact U|].
  destruct (fold_left _ items []) as [|r0 rows]; [exact U|].
  pose proof (processImportedData_Deduplicated p clock (r0 :: rows) st U) as H.
  destruct (Calendar.processImportedData p clock (r0 :: rows) st) as [st1 [imp skip]].
  exact H.
Qed.

Lemma KeyUnique_filter keep evs :
  Calendar.KeyUnique evs -> Calendar.KeyUnique (filter keep evs).
Proof. apply NoDup_map_filter. Qed.

Lemma step_Deduplicated p a st :
  Calendar.Deduplicated st -> Calendar.Deduplicated (Calendar.step p a st).
Proof.
  intros [U V]. destruct a; cbn [Calendar.step]; try (split; assumption).
  - now apply processImportedData_Deduplicated.
  - now apply importFromWebhook_Deduplicated.
  - split; now apply KeyUnique_filter.
  - destruct confirmed; [|split; assumption]. unfold Calendar.Deduplicated.
    destruct (deleteEventFromModal_events (Calendar.jsHost p) e st) as (E & -> & _). rewrite E.
    split; now apply KeyUnique_filter.
  - unfold Calendar.clearAllEvents.
    destruct (Calendar.events st) eqn:E; [split; [now rewrite E|assumption]|].
    destruct confirmed; [split; constructor|split; [now rewrite E|assumption]].
  - unfold Calendar.Deduplicated.
    destruct (handleSearch_events (Calendar.setSearch text fairValue st))
      as (-> & -> & _).
    split; assumption.
  - unfold Calendar.clickDay.
    destruct (Calendar.dayEvents dateString st); split; assumption.
  - unfold Calendar.reload. cbn [Calendar.events].
    destruct (Calendar.storage st) eqn:E; split; cbn; assumption.
Qed.

Lemma run_Deduplicated p actions : forall st,
  Calendar.Deduplicated st -> Calendar.Deduplicated (Calendar.run p actions st).
Proof.
  unfold Calendar.run.
  induction actions as [|a actions IH]; intros st U; cbn [fold_left].
  - exact U.
  - apply IH. now apply step_Deduplicated.
Qed.

Lemma appjs_importRow_KeyUnique p now i r acc :
  NoDup (map (fun e => (AppJs.date e, AppJs.title e)) (AppJs.store acc)) ->
  NoDup (map (fun e => (AppJs.date e, AppJs.title e))
           (AppJs.store (AppJs.importRow p now i r acc))).
Proof.
  intro U. unfold AppJs.importRow.
  destruct (List.length r <? 2)%nat; [exact U|].
  destruct (negb _ || negb _); [exact U|].
  destruct (Calendar.formattedDate p _) as [fd|]; [|exact U].
  destruct (AppJs.exists_ fd _ (AppJs.store acc)) eqn:E; cbn [negb]; [exact U|].
  cbn [AppJs.store].
  rewrite map_app. apply NoDup_snoc; [exact U|].
  intro I. apply appjs_exists_true in I.
  cbn [AppJs.date AppJs.title] in I. congruence.
Qed.

Lemma appjs_importRows_KeyUnique p clock rows : forall i acc,
  NoDup (map (fun e => (AppJs.date e, AppJs.title e)) (AppJs.store acc)) ->
  NoDup (map (fun e => (AppJs.date e, AppJs.title e))
           (AppJs.store (AppJs.importRows p clock i rows acc))).
Proof.
  induction rows as [|r rows IH]; intros i acc U; cbn [AppJs.importRows].
  - exact U.
  - apply IH. now apply appjs_importRow_KeyUnique.
Qed.

(** Distinct positions of a list without repeated keys hold distinct
    keys. *)
Lemma NoDup_map_positions {A B : Type} (f : A -> B) (l : list A) (i j : nat) (a b : A) :
  NoDup (map f l) -> i <> j ->
  nth_error l i = Some a -> nth_error l j = Some b -> f a <> f b.
Proof.
  intros N D Ha Hb E.
  apply D. apply (proj1 (NoDup_nth_error (map f l)) N).
  - rewrite length_map. apply nth_error_Some. congruence.
  - rewrite !nth_error_map, Ha, Hb. cbn. now rewrite E.
Qed.

(** What the loop of [app.js] adds has keys that differ from one another
    and from every key of the store it started with, whether or not that
    store held a key twice. *)
Lemma appjs_importRows_fresh p clock rows : forall i acc,
  exists added,
    AppJs.store (AppJs.importRows p clock i rows acc) = (AppJs.store acc ++ added)%list
    /\ NoDup (map (fun e => (AppJs.date e, AppJs.title e)) added)
    /\ (forall e, In e added ->
          ~ In (AppJs.date e, AppJs.title e)
               (map (fun e => (AppJs.date e, AppJs.title e)) (AppJs.store acc))).
Proof.
  induction rows as [|r rows IH]; intros i acc; cbn [AppJs.importRows].
  - exists []. rewrite app_nil_r. split; [reflexivity|]. split; [constructor|].
    intros e [].
  - destruct (IH (i + 1) (AppJs.importRow p (clock i) i r acc)) as (added & E & N & F).
    revert E F. unfold AppJs.importRow.
    destruct (List.length r <? 2)%nat; [intros E F; now exists added|].
    destruct (negb _ || negb _); [intros E F; now exists added|].
    destruct (Calendar.formattedDate p _) as [fd|]; [|intros E F; now exists added].
    destruct (AppJs.exists_ fd _ (AppJs.store acc)) eqn:X; cbn [negb];
      [intros E F; now exists added|].
    cbn [AppJs.store]. rewrite <- app_assoc. intros E F.
    eexists. split; [exact E|]. cbn [app map AppJs.date AppJs.title]. split.
    + constructor; [|exact N]. intro I. apply in_map_iff in I.
      destruct I as (e & K & I). apply (F e I). rewrite K, map_app.
      apply in_or_app. right. now left.
    + intros e [<- | I].
      * cbn [AppJs.date AppJs.title]. intro I. apply appjs_exists_true in I. congruence.
      * intro J. apply (F e I). rewrite map_app. apply in_or_app. now left.
Qed.

(** The same for the loop of [part_000]. *)
Lemma importRows_fresh p clock rows : forall i acc,
  exists added,
    Calendar.store (Calendar.importRows p clock i rows acc)
      = (Calendar.store acc ++ added)%list
    /\ NoDup (map Calendar.key added)
    /\ (forall e, In e added -> ~ In (Calendar.key e) (map Calendar.key (Calendar.store acc))).
Proof.
  induction rows as [|r rows IH]; intros i acc; cbn [Calendar.importRows].
  - exists []. rewrite app_nil_r. split; [reflexivity|]. split; [constructor|].
    intros e [].
  - destruct (IH (i + 1) (Calendar.importRow p (clock i) i r acc)) as (added & E & N & F).
    revert E F. unfold Calendar.importRow.
    destruct (List.length r <? 2)%nat; [intros E F; now exists added|].
    destruct (negb _ || negb _); [intros E F; now exists added|].
    destruct (Calendar.formattedDate p _) as [fd|]; [|intros E F; now exists added].
    destruct (Calendar.exists_ fd _ (Calendar.store acc)) eqn:X; cbn [negb];
      [intros E F; now exists added|].
    cbn [Calendar.store]. rewrite <- app_assoc. intros E F.
    eexists. split; [exact E|]. cbn [app map]. split.
    + constructor; [|exact N]. intro I. apply in_map_iff in I.
      destruct I as (e & K & I). apply (F e I). rewrite K, map_app.
      apply in_or_app. right. now left.
    + intros e [<- | I].
      * unfold Calendar.key at 1. cbn [Calendar.date Calendar.title].
        intro I. apply exists_true in I. congruence.
      * intro J. apply (F e I). rewrite map_app. apply in_or_app. now left.
Qed.

(** Two rows of one batch with the same date and title and different
    fairs: the first is stored with its fair, the second is skipped.  The
    same table imported again is skipped whole. *)
Example duplicate_in_batch :
  let data := [[JStr "2025-03-05"; JStr "PO 1: Sale A"; JStr "SpringFair"];
               [JStr "2025-03-05"; JStr "PO 1: Sale A"; JStr "WinterFair"]] in
  let first := Calendar.processImportedData (referencePlatform 0)
                 (fun _ => 1700000000000) data Calendar.initialState in
  let second := Calendar.processImportedData (referencePlatform 0)
                  (fun _ => 1700000060000) data (fst first) in
  snd first = (1, 1)
  /\ map Calendar.fair (Calendar.events (fst first)) = ["SpringFair"]
  /\ snd second = (0, 2)
  /\ Calendar.events (fst second) = Calendar.events (fst first).
Proof.
  vm_compute. repeat split; reflexivity.
Qed.

(** *** Dates built from a year, a month and a day *)

Lemma DayFromYear_range y :
  100 <= y <= 9999 -> -700000 <= DayFromYear y <= 2940000.
Proof.
  intro Y. unfold DayFromYear. Z.div_mod_to_equations. lia.
Qed.

Lemma monthStart_range leap m :
  0 <= leap <= 1 -> 0 <= monthStart leap m <= 366.
Proof.
  intro L. unfold monthStart.
  destruct m as [|m|m]; try lia.
  do 4 (destruct m as [m|m|]; try lia).
Qed.

Lemma localCivil_local h day :
  localCivil h (day * msPerDay - localTZA h) = civilOfDay day.
Proof.
  unfold localCivil, Day.
  replace (day * msPerDay - localTZA h + localTZA h) with (day * msPerDay) by lia.
  now rewrite Z.div_mul.
Qed.

(** [new Date(y, m, d)] with a four-digit year (or three), a month of the
    year and a day of that month, on a host within a day of UTC: the date
    is valid and its local getters give [y], [m] and [d] back. *)
Lemma newDate_format h y m d :
  Z.abs (localTZA h) <= msPerDay ->
  100 <= y <= 9999 -> 0 <= m <= 11 -> 1 <= d <= daysInMonth y (m + 1) ->
  exists t, newDate h (Some y) (Some m) (Some d) = Some t
            /\ Calendar.formatLocal h t =
               intToString y ++ "-" ++ pad2 (m + 1) ++ "-" ++ pad2 d.
Proof.
  intros Z Y M D.
  pose proof (DayFromYear_range y Y) as R.
  pose proof (InLeapYear_bound y) as L.
  pose proof (monthStart_range (InLeapYear y) m L) as MS.
  assert (D' : 1 <= d <= 31).
  { unfold daysInMonth in D. replace (m + 1 - 1) with m in D by lia.
    set (leap := InLeapYear y) in *. clearbody leap.
    assert (C : m = 0 \/ m = 1 \/ m = 2 \/ m = 3 \/ m = 4 \/ m = 5 \/ m = 6
                \/ m = 7 \/ m = 8 \/ m = 9 \/ m = 10 \/ m = 11) by lia.
    month_cases C D; lia. }
  unfold newDate.
  destruct (Z.leb_spec 0 y); [|lia]. destruct (Z.leb_spec y 99); [lia|].
  cbn [andb]. unfold MakeDay.
  rewrite (Z.div_small m 12), (Z.mod_small m 12), Z.add_0_r by lia.
  unfold TimeClip, maxTime, msPerDay in *.
  destruct (Z.leb_spec (Z.abs ((DayFromYear y + monthStart (InLeapYear y) m)
                               * 86400000)) 8640000000000000); [|lia].
  destruct (Z.leb_spec
              (Z.abs ((DayFromYear y + monthStart (InLeapYear y) m + d - 1)
                      * 86400000 - localTZA h)) 8640000000000000); [|lia].
  eexists. split; [reflexivity|].
  unfold Calendar.formatLocal.
  change 86400000 with msPerDay. rewrite localCivil_local.
  now rewrite (civilOfDay_day y m d M D).
Qed.

(** *** The fan-out of a webhook record *)

Lemma hasActivity_spec v :
  Calendar.hasActivity v = true <->
  truthy v = true /\ trim (toStr v) <> "" /\ v <> JStr "-".
Proof.
  unfold Calendar.hasActivity.
  rewrite !andb_true_iff, !negb_true_iff, nonEmpty_true. split.
  - intros [[[T B] _] D]. repeat split; try assumption.
    intros ->. discriminate.
  - intros (T & B & D). repeat split; try assumption.
    + destruct v; try reflexivity. apply String.eqb_neq. intros ->. discriminate.
    + destruct v; try reflexivity. apply String.eqb_neq. intros ->. now elim D.
Qed.

Lemma example_date h year :
  Z.abs (localTZA h) <= msPerDay -> 100 <= year <= 9999 ->
  Calendar.webhookDate h year " 5 Mar, Tue" = intToString year ++ "-03-05".
Proof.
  intros Z Y. unfold Calendar.webhookDate.
  set (pieces := filter nonEmpty
                   (split " " (trim (hd "" (split "," (trim " 5 Mar, Tue")))))).
  vm_compute in pieces. subst pieces. cbn [nth_error].
  change (Calendar.monthIndex Calendar.monthMap "Mar") with (Some 2).
  change (parseInt "5") with (Some 5).
  destruct (newDate_format h year 2 5 Z Y) as (t & -> & ->).
  - lia.
  - unfold daysInMonth. pose proof (InLeapYear_bound year).
    change (2 + 1) with 3. change (3 - 1) with 2. cbn [monthStart]. lia.
  - reflexivity.
Qed.

(** C4. A record whose [Date] (or [date]) is a non-empty text gives one
    row for every column of the vocabulary whose value is truthy, not
    blank and not the text "-", in the order of the vocabulary, no column
    twice: the row holds the formatted date of the record, the title
    made of the column name, a colon and the value, and the fair and the
    link of the record.  The vocabulary has 31 names, [Fairs] among them:
    the example record, on a host within a day of UTC and in a year from
    100 to 9999, gives two rows, one for [Fairs] and one for [PO 1], both
    dated the fifth of March of the year with fair SpringFair. *)
Theorem webhook_fan_out (h : host) (year : Z) (item : json) (s : string) :
  (orElse (orElse (getProp item "Date") (getProp item "date")) (JStr "") = JStr s ->
   s <> "" ->
   Calendar.adaptRecord h year item [] =
   map (fun colName =>
          [JStr (Calendar.webhookDate h year s);
           JStr (colName ++ ": " ++ toStr (getProp item colName));
           orElse (getProp item "Fairs") (JStr "");
           orElse (orElse (orElse (orElse (orElse (getProp item "Link")
             (getProp item "link")) (getProp item "URL")) (getProp item "url"))
             (getProp item "Ticket Link")) (JStr "")])
     (filter (fun colName => Calendar.hasActivity (getProp item colName))
        Calendar.eventColumns))
  /\ (forall v, Calendar.hasActivity v = true <->
                truthy v = true /\ trim (toStr v) <> "" /\ v <> JStr "-")
  /\ NoDup Calendar.eventColumns
  /\ List.length Calendar.eventColumns = 31%nat
  /\ In "Fairs" Calendar.eventColumns
  /\ (Z.abs (localTZA h) <= msPerDay -> 100 <= year <= 9999 ->
      Calendar.adaptRecord h year exampleRecord [] =
      [ [JStr (intToString year ++ "-03-05"); JStr "Fairs: SpringFair";
         JStr "SpringFair"; JStr ""];
        [JStr (intToString year ++ "-03-05"); JStr "PO 1: Sale A";
         JStr "SpringFair"; JStr ""] ]).
Proof.
  split; [|split; [|split; [|split; [|split]]]].
  - intros E NE. unfold Calendar.adaptRecord. rewrite E.
    apply nonEmpty_true in NE. cbn [truthy]. rewrite NE. cbn [negb].
    now rewrite scanColumns_eq, app_nil_l.
  - apply hasActivity_spec.
  - unfold Calendar.eventColumns.
    repeat (constructor;
            [cbn [In]; intro H;
             repeat (destruct H as [H|H]; [discriminate H|]); exact H|]).
    constructor.
  - reflexivity.
  - cbn. tauto.
  - intros Z Y. unfold Calendar.adaptRecord.
    change (orElse (orElse (getProp exampleRecord "Date")
                      (getProp exampleRecord "date")) (JStr ""))
      with (JStr " 5 Mar, Tue").
    cbn [truthy nonEmpty negb].
    rewrite scanColumns_eq, app_nil_l, (example_date h year Z Y).
    set (cols := filter (fun colName =>
                           Calendar.hasActivity (getProp exampleRecord colName))
                   Calendar.eventColumns).
    vm_compute in cols. subst cols. reflexivity.
Qed.

(** The example record in 2025: the rows are two, the one for [Fairs]
    first, and not the single row for [PO 1]. *)
Lemma fan_out_example_has_two_rows :
  Calendar.adaptRecord (strictHost 0) 2025 exampleRecord [] =
    [ [JStr "2025-03-05"; JStr "Fairs: SpringFair"; JStr "SpringFair"; JStr ""];
      [JStr "2025-03-05"; JStr "PO 1: Sale A"; JStr "SpringFair"; JStr ""] ]
  /\ Calendar.adaptRecord (strictHost 0) 2025 exampleRecord [] <>
     [ [JStr "2025-03-05"; JStr "PO 1: Sale A"; JStr "SpringFair"; JStr ""] ]
  /\ List.length (Calendar.adaptRecord (strictHost 0) 2025 exampleRecord []) <> 1%nat.
Proof.
  split; [|split].
  - vm_compute. reflexivity.
  - vm_compute. discriminate.
  - vm_compute. discriminate.
Qed.

Lemma webhook_fan_out_witness :
  Calendar.adaptRecord (strictHost 0) 2025 exampleRecord [] =
    [ [JStr (intToString 2025 ++ "-03-05"); JStr "Fairs: SpringFair";
       JStr "SpringFair"; JStr ""];
      [JStr (intToString 2025 ++ "-03-05"); JStr "PO 1: Sale A";
       JStr "SpringFair"; JStr ""] ].
Proof.
  refine (proj2 (proj2 (proj2 (proj2 (proj2
    (webhook_fan_out (strictHost 0) 2025 exampleRecord " 5 Mar, Tue"))))) _ _).
  - vm_compute. discriminate.
  - lia.
Defined.

(** *** The ids of imported events *)

(** Within one batch the ids of the events added increase with the row
    index, as long as the clock does not run backwards. *)
Lemma importRows_ids p clock rows :
  (forall a b, a <= b -> clock a <= clock b) ->
  forall i acc, exists added,
    Calendar.store (Calendar.importRows p clock i rows acc)
      = (Calendar.store acc ++ added)%list
    /\ Forall (fun e => clock i + i <= Calendar.id e) added
    /\ NoDup (map Calendar.id added).
Proof.
  intro Mono. induction rows as [|r rows IH]; intros i acc; cbn [Calendar.importRows].
  - exists []. rewrite app_nil_r. repeat split; constructor.
  - destruct (IH (i + 1) (Calendar.importRow p (clock i) i r acc))
      as (added & E & F & N).
    assert (Later : Forall (fun e => clock i + i < Calendar.id e) added).
    { eapply Forall_impl; [|exact F]. cbv beta. intros e H.
      pose proof (Mono i (i + 1) ltac:(lia)). lia. }
    assert (Weaker : Forall (fun e => clock i + i <= Calendar.id e) added).
    { eapply Forall_impl; [|exact Later]. cbv beta. intros e H. lia. }
    revert E. unfold Calendar.importRow.
    destruct (List.length r <? 2)%nat; [intro E; now exists added|].
    destruct (negb _ || negb _); [intro E; now exists added|].
    destruct (Calendar.formattedDate p _) as [fd|]; [|intro E; now exists added].
    destruct (negb _); [|intro E; now exists added].
    cbn [Calendar.store]. rewrite <- app_assoc. intro E.
    eexists. split; [exact E|]. split.
    + constructor; [cbn; lia|exact Weaker].
    + cbn [app map Calendar.id]. constructor; [|exact N].
      intro I. apply in_map_iff in I. destruct I as (e & Ie & I).
      rewrite Forall_forall in Later. specialize (Later e I). lia.
Qed.

(** C9, at a failing input.  A sheet of 1001 rows is imported at clock
    reading 1700000000000: the event of row [i] gets the id
    1700000000000 + i.  A second import one second later brings one new
    row, at index 0 of its table, which gets the id 1700000001000 - the
    id of the event of row 1000 of the first import.  The store then
    holds two different events with one id, and deleting by that id
    removes both. *)
Theorem id_collision_across_batches :
  let p := referencePlatform 0 in
  let st1 := fst (Calendar.processImportedData p (fun _ => 1700000000000)
                    (sheet 1001) Calendar.initialState) in
  let st2 := fst (Calendar.processImportedData p (fun _ => 1700000001000)
                    [[JStr "2025-03-06"; JStr "Late entry"]] st1) in
  List.length (Calendar.events st2) = 1002%nat
  /\ option_map Calendar.title (nth_error (Calendar.events st2) 1000) = Some "Event 1000"
  /\ option_map Calendar.title (nth_error (Calendar.events st2) 1001) = Some "Late entry"
  /\ option_map Calendar.id (nth_error (Calendar.events st2) 1000) = Some 1700000001000
  /\ option_map Calendar.id (nth_error (Calendar.events st2) 1001) = Some 1700000001000
  /\ List.length (Calendar.events (Calendar.deleteEvent 1700000001000 st2)) = 1000%nat.
Proof.
  vm_compute. repeat split; reflexivity.
Qed.

(** *** Date-only texts *)

Lemma Day_utc_midnight day tza :
  0 <= tza < msPerDay -> Day (day * msPerDay + tza) = day.
Proof.
  intro T. unfold Day, msPerDay in *. Z.div_mod_to_equations. lia.
Qed.

(** A date-only ISO text on a host at or east of UTC (and less than a day
    from it): the local day is the day written. *)
Lemma iso_date_east p s day :
  0 <= localTZA (Calendar.jsHost p) < msPerDay ->
  toNumber s = NaN -> isoDateOnly s = Some day ->
  Calendar.formattedDate p s =
    Some (let '(y, m, d) := civilOfDay day in
          intToString y ++ "-" ++ pad2 (m + 1) ++ "-" ++ pad2 d).
Proof.
  intros T N I. unfold Calendar.formattedDate, Calendar.rowDate.
  rewrite N. cbn [isNaN negb andb]. unfold dateParse.
  rewrite I. cbn [option_map].
  unfold Calendar.formatLocal, localCivil. now rewrite Day_utc_midnight.
Qed.

(* ===================================================================== *)
(** ** Further properties of the code *)
(* ===================================================================== *)

(** *** White space around a text *)

Lemma trimEnd_cons c r :
  trimEnd (String c r) =
  match trimEnd r with
  | EmptyString => if isWhiteSpace c then EmptyString else String c EmptyString
  | r' => String c r'
  end.
Proof. reflexivity. Qed.

Lemma trimEnd_idem s : trimEnd (trimEnd s) = trimEnd s.
Proof.
  induction s as [|c r IH]; [reflexivity|].
  rewrite trimEnd_cons. destruct (trimEnd r) as [|c' r'] eqn:E.
  - destruct (isWhiteSpace c) eqn:W; [reflexivity|].
    rewrite trimEnd_cons. cbn [trimEnd]. now rewrite W.
  - rewrite trimEnd_cons, IH. reflexivity.
Qed.

Lemma trim_comm s : trimStart (trimEnd s) = trimEnd (trimStart s).
Proof.
  induction s as [|c r IH]; [reflexivity|].
  cbn [trimStart trimEnd].
  destruct (isWhiteSpace c) eqn:W.
  - destruct (trimEnd r) as [|c' r'] eqn:E.
    + rewrite <- IH. reflexivity.
    + cbn [trimStart]. rewrite W. exact IH.
  - destruct (trimEnd r) as [|c' r'] eqn:E; cbn [trimStart trimEnd]; rewrite W, ?E; reflexivity.
Qed.

Lemma trimStart_idem s : trimStart (trimStart s) = trimStart s.
Proof.
  induction s as [|c r IH]; [reflexivity|].
  cbn [trimStart]. destruct (isWhiteSpace c) eqn:W; [exact IH|].
  cbn [trimStart]. now rewrite W.
Qed.

Lemma trim_idem s : trim (trim s) = trim s.
Proof.
  unfold trim. rewrite trim_comm, trimStart_idem, trimEnd_idem.
  reflexivity.
Qed.

Lemma numeralChar_not_space c : numeralChar c = true -> isWhiteSpace c = false.
Proof.
  unfold numeralChar, isWhiteSpace. intro H.
  apply orb_true_iff in H. destruct H as [H | H].
  - apply Nat.eqb_eq in H. now rewrite H.
  - apply andb_true_iff in H. destruct H as [A B].
    apply Nat.leb_le in A. apply Nat.leb_le in B.
    repeat (apply orb_false_iff; split); apply Nat.eqb_neq; lia.
Qed.

Lemma numeralChars_trim s : numeralChars s = true -> trim s = s.
Proof.
  intro H. unfold trim.
  assert (S : trimStart s = s).
  { destruct s as [|c r]; [reflexivity|]. cbn [numeralChars] in H.
    apply andb_true_iff in H. destruct H as [C _].
    cbn [trimStart]. now rewrite (numeralChar_not_space _ C). }
  rewrite S. clear S.
  induction s as [|c r IH]; [reflexivity|].
  cbn [numeralChars] in H. apply andb_true_iff in H. destruct H as [C R].
  rewrite trimEnd_cons, (IH R). destruct r; [|reflexivity].
  now rewrite (numeralChar_not_space _ C).
Qed.

Lemma cellText_trim c : trim (Calendar.cellText c) = Calendar.cellText c.
Proof.
  unfold Calendar.cellText. destruct (truthy c); [apply trim_idem | reflexivity].
Qed.

Lemma importRow_WellFormed p now i r acc :
  Forall WellFormed (Calendar.store acc) ->
  Forall WellFormed (Calendar.store (Calendar.importRow p now i r acc)).
Proof.
  intro H. unfold Calendar.importRow.
  destruct (List.length r <? 2)%nat; [exact H|].
  destruct (nonEmpty (Calendar.cellText (Calendar.cell r 0))) eqn:D; [|exact H].
  destruct (nonEmpty (Calendar.cellText (Calendar.cell r 1))) eqn:T; [|exact H].
  cbn [negb orb].
  destruct (Calendar.formattedDate p _) as [fd|] eqn:F; [|exact H].
  destruct (Calendar.exists_ fd _ (Calendar.store acc)); [exact H|].
  cbn [negb Calendar.store]. apply Forall_app. split; [exact H|].
  constructor; [|constructor].
  unfold Calendar.formattedDate in F.
  destruct (Calendar.rowDate p _) as [t|]; [|discriminate].
  injection F as <-.
  destruct (formatLocal_numeral (Calendar.jsHost p) t) as [N E].
  unfold WellFormed. cbn [Calendar.title Calendar.date Calendar.fair Calendar.link].
  repeat split; try apply cellText_trim; try assumption.
  now apply nonEmpty_true.
Qed.

Lemma importRows_WellFormed p clock rows : forall i acc,
  Forall WellFormed (Calendar.store acc) ->
  Forall WellFormed (Calendar.store (Calendar.importRows p clock i rows acc)).
Proof.
  induction rows as [|r rest IH]; intros i acc H; [exact H|].
  cbn [Calendar.importRows]. apply IH. now apply importRow_WellFormed.
Qed.

Lemma Forall_kept {A : Type} (P : A -> Prop) (keep : A -> bool) (l : list A) :
  Forall P l -> Forall P (filter keep l).
Proof.
  intro H. apply Forall_forall. intros x I. apply filter_In in I.
  destruct I as [I _]. revert x I. now apply Forall_forall.
Qed.

Lemma processImportedData_WellFormed p clock data st :
  AllWellFormed st -> AllWellFormed (fst (Calendar.processImportedData p clock data st)).
Proof.
  intros [E S].
  assert (E' : Forall WellFormed
                 (Calendar.events (fst (Calendar.processImportedData p clock data st)))).
  { rewrite processImportedData_events. now apply importRows_WellFormed. }
  split; [exact E'|].
  destruct (processImportedData_storage p clock data st) as [H | H];
    cbv zeta in H; rewrite H; assumption.
Qed.

Lemma importFromWebhook_WellFormed p year clock resp st :
  AllWellFormed st -> AllWellFormed (fst (Calendar.importFromWebhook p year clock resp st)).
Proof.
  intro H. unfold Calendar.importFromWebhook.
  destruct resp as [|data]; [exact H|].
  destruct (Calendar.dataArray data) as [items|]; [|exact H].
  destruct (existsb Calendar.isNull items); [exact H|].
  destruct (fold_left _ items []) as [|r rows] eqn:E; [exact H|].
  pose proof (processImportedData_WellFormed p clock (r :: rows) st H) as W.
  destruct (Calendar.processImportedData p clock (r :: rows) st) as [st' [a b]].
  exact W.
Qed.

Lemma step_WellFormed p a st : AllWellFormed st -> AllWellFormed (Calendar.step p a st).
Proof.
  intros [E S]. destruct a; cbn [Calendar.step]; try (split; assumption).
  - now apply processImportedData_WellFormed.
  - now apply importFromWebhook_WellFormed.
  - split; cbn; now apply Forall_kept.
  - destruct confirmed; [|split; assumption]. unfold AllWellFormed.
    destruct (deleteEventFromModal_events (Calendar.jsHost p) e st) as (A & -> & _). rewrite A.
    split; now apply Forall_kept.
  - unfold Calendar.clearAllEvents. 
    destruct (Calendar.events st) eqn:Ev; [split; [now rewrite Ev|assumption]|].
    destruct confirmed; [split; constructor | split; [now rewrite Ev | assumption]].
  - unfold AllWellFormed.
    destruct (handleSearch_events (Calendar.setSearch text fairValue st)) as (-> & -> & _).
    split; assumption.
  - unfold Calendar.clickDay. destruct (Calendar.dayEvents dateString st); split; assumption.
  - unfold Calendar.reload. cbn [Calendar.events].
    destruct (Calendar.storage st) eqn:St; split; cbn; assumption.
Qed.

(** X1. Whatever the user does on a page first opened with nothing
    stored, every event of the store has a title that is not empty and
    has no white space around it, a date made of digits and dashes, and
    a fair and a link without white space around them. *)
Theorem stored_events_well_formed (p : Calendar.platform) (actions : list Calendar.action) :
  Forall WellFormed (Calendar.events (Calendar.run p actions Calendar.initialState)).
Proof.
  assert (G : forall st, AllWellFormed st -> AllWellFormed (Calendar.run p actions st)).
  { induction actions as [|a rest IH]; intros st H; [exact H|].
    cbn [Calendar.run fold_left]. apply IH. now apply step_WellFormed. }
  apply G. split; constructor.
Qed.

(** *** Importing a table again *)

Lemma exists_app fd t evs more :
  Calendar.exists_ fd t (evs ++ more) =
  Calendar.exists_ fd t evs || Calendar.exists_ fd t more.
Proof. unfold Calendar.exists_. apply existsb_app. Qed.

Lemma covered_app p evs more r :
  covered p evs r = true -> covered p (evs ++ more) r = true.
Proof.
  unfold covered. intro H.
  destruct (List.length r <? 2)%nat; [reflexivity|].
  destruct (nonEmpty (Calendar.cellText (Calendar.cell r 0))); [|reflexivity].
  destruct (nonEmpty (Calendar.cellText (Calendar.cell r 1))); [|reflexivity].
  cbn [negb orb] in H |- *.
  destruct (Calendar.formattedDate p _); [|reflexivity].
  rewrite exists_app, H. reflexivity.
Qed.

Lemma importRow_store p now i r acc :
  exists added,
    Calendar.store (Calendar.importRow p now i r acc) = (Calendar.store acc ++ added)%list
    /\ covered p (Calendar.store (Calendar.importRow p now i r acc)) r = true.
Proof.
  unfold Calendar.importRow, covered.
  destruct (List.length r <? 2)%nat; [exists []; now rewrite app_nil_r|].
  destruct (nonEmpty (Calendar.cellText (Calendar.cell r 0)));
    [|exists []; now rewrite app_nil_r].
  destruct (nonEmpty (Calendar.cellText (Calendar.cell r 1)));
    [|exists []; now rewrite app_nil_r].
  cbn [negb orb].
  destruct (Calendar.formattedDate p _) as [fd|]; [|exists []; now rewrite app_nil_r].
  destruct (Calendar.exists_ fd _ (Calendar.store acc)) eqn:X.
  - exists []. cbn [negb Calendar.store]. now rewrite app_nil_r.
  - eexists. cbn [negb Calendar.store]. split; [reflexivity|].
    rewrite exists_app. unfold Calendar.exists_ at 2.
    cbn [existsb Calendar.date Calendar.title].
    rewrite !String.eqb_refl. apply orb_true_r.
Qed.

Lemma importRows_store p clock rows : forall i acc,
  exists added,
    Calendar.store (Calendar.importRows p clock i rows acc)
      = (Calendar.store acc ++ added)%list
    /\ Forall (fun r => covered p (Calendar.store (Calendar.importRows p clock i rows acc)) r
                        = true) rows.
Proof.
  induction rows as [|r rest IH]; intros i acc.
  - exists []. split; [now rewrite app_nil_r | constructor].
  - cbn [Calendar.importRows].
    destruct (importRow_store p (clock i) i r acc) as (a1 & E1 & C1).
    destruct (IH (i + 1) (Calendar.importRow p (clock i) i r acc)) as (a2 & E2 & C2).
    exists (a1 ++ a2)%list. split.
    + now rewrite E2, E1, app_assoc.
    + constructor; [|exact C2]. rewrite E2. now apply covered_app.
Qed.

Lemma importRow_covered p now i r acc :
  covered p (Calendar.store acc) r = true ->
  Calendar.store (Calendar.importRow p now i r acc) = Calendar.store acc
  /\ Calendar.importedCount (Calendar.importRow p now i r acc) = Calendar.importedCount acc.
Proof.
  unfold Calendar.importRow, covered. intro H.
  destruct (List.length r <? 2)%nat; [now split|].
  destruct (nonEmpty (Calendar.cellText (Calendar.cell r 0))); [|now split].
  destruct (nonEmpty (Calendar.cellText (Calendar.cell r 1))); [|now split].
  cbn [negb orb] in H |- *.
  destruct (Calendar.formattedDate p _) as [fd|]; [|now split].
  rewrite H. now split.
Qed.

Lemma importRows_covered p clock rows : forall i acc,
  Forall (fun r => covered p (Calendar.store acc) r = true) rows ->
  Calendar.store (Calendar.importRows p clock i rows acc) = Calendar.store acc
  /\ Calendar.importedCount (Calendar.importRows p clock i rows acc)
     = Calendar.importedCount acc.
Proof.
  induction rows as [|r rest IH]; intros i acc H; [now split|].
  inversion H as [|? ? C R]; subst. cbn [Calendar.importRows].
  destruct (importRow_covered p (clock i) i r acc C) as [E1 E2].
  destruct (IH (i + 1) (Calendar.importRow p (clock i) i r acc)) as [E3 E4].
  { now rewrite E1. }
  split; congruence.
Qed.

Lemma setEvents_same st : Calendar.setEvents (Calendar.events st) st = st.
Proof. now destruct st. Qed.

(** X2. Importing the same table a second time imports nothing:
    whatever the store held before the first import and whatever the
    clock reads, the second call of [processImportedData] leaves the page
    as the first call left it and reports no imported event, every row of
    two cells or more after the header counting as skipped. *)
Theorem reimport_adds_nothing (p : Calendar.platform) (clock clock' : Z -> Z)
    (data : list Calendar.row) (st : Calendar.State) :
  let st1 := fst (Calendar.processImportedData p clock data st) in
  Calendar.processImportedData p clock' data st1 =
    (st1, (0, counted (skipn (Calendar.startIndex data) data))).
Proof.
  cbv zeta.
  set (st1 := fst (Calendar.processImportedData p clock data st)).
  assert (C : Forall (fun r => covered p (Calendar.events st1) r = true)
                (skipn (Calendar.startIndex data) data)).
  { unfold st1. rewrite processImportedData_events.
    destruct (importRows_store p clock (skipn (Calendar.startIndex data) data)
                (Z.of_nat (Calendar.startIndex data))
                {| Calendar.store := Calendar.events st; Calendar.importedCount := 0;
                   Calendar.skippedCount := 0 |}) as (added & _ & F).
    exact F. }
  pose proof (processImportedData_counts p clock' data st1) as K.
  cbv zeta in K. destruct K as (K1 & _ & _).
  unfold Calendar.processImportedData in K1 |- *.
  cbv zeta in K1 |- *. cbn [fst snd] in K1.
  destruct (importRows_covered p clock' (skipn (Calendar.startIndex data) data)
              (Z.of_nat (Calendar.startIndex data))
              {| Calendar.store := Calendar.events st1; Calendar.importedCount := 0;
                 Calendar.skippedCount := 0 |} C) as [E1 E2].
  cbn [Calendar.store Calendar.importedCount] in E1, E2.
  rewrite E2 in K1 |- *. rewrite E1. cbn [Z.ltb Z.compare].
  rewrite setEvents_same. f_equal. f_equal. lia.
Qed.

(** *** What an import adds *)

Lemma importRows_added p clock rows :
  (forall a b, a <= b -> clock a <= clock b) ->
  forall i acc, exists added,
    Calendar.store (Calendar.importRows p clock i rows acc)
      = (Calendar.store acc ++ added)%list
    /\ Forall (fun e => exists j, i <= j < i + Z.of_nat (List.length rows)
                                  /\ Calendar.id e = clock j + j) added
    /\ StronglySorted Z.lt (map Calendar.id added).
Proof.
  intro Mono. induction rows as [|r rows IH]; intros i acc; cbn [Calendar.importRows].
  - exists []. rewrite app_nil_r. repeat split; constructor.
  - destruct (IH (i + 1) (Calendar.importRow p (clock i) i r acc))
      as (added & E & F & N).
    assert (Wider : Forall (fun e => exists j, i <= j < i + Z.of_nat (List.length (r :: rows))
                                               /\ Calendar.id e = clock j + j) added).
    { eapply Forall_impl; [|exact F]. cbv beta. intros e (j & B & I).
      exists j. split; [cbn [List.length]; lia | exact I]. }
    revert E. unfold Calendar.importRow.
    destruct (List.length r <? 2)%nat; [intro E; now exists added|].
    destruct (negb _ || negb _); [intro E; now exists added|].
    destruct (Calendar.formattedDate p _) as [fd|]; [|intro E; now exists added].
    destruct (negb _); [|intro E; now exists added].
    cbn [Calendar.store]. rewrite <- app_assoc. intro E.
    eexists. split; [exact E|]. split.
    + constructor; [|exact Wider]. exists i. cbn [Calendar.id List.length]. lia.
    + cbn [app map Calendar.id]. constructor; [exact N|].
      apply Forall_forall. intros x I. apply in_map_iff in I.
      destruct I as (e & <- & I). rewrite Forall_forall in F.
      destruct (F e I) as (j & B & ->).
      pose proof (Mono i j ltac:(lia)). lia.
Qed.

(** X3. [processImportedData] only appends: the events that were in
    the store stay in front, in their order; the imported ones follow, as
    many as the reported count, each with the id [Date.now() + i] of its
    row index [i]; with a clock that never runs backwards the new ids are
    strictly increasing. *)
Theorem import_appends (p : Calendar.platform) (clock : Z -> Z)
    (data : list Calendar.row) (st : Calendar.State) :
  (forall a b, a <= b -> clock a <= clock b) ->
  let result := Calendar.processImportedData p clock data st in
  exists added,
    Calendar.events (fst result) = (Calendar.events st ++ added)%list
    /\ Z.of_nat (List.length added) = fst (snd result)
    /\ Forall (fun e => exists i, Z.of_nat (Calendar.startIndex data) <= i
                                  /\ i < Z.of_nat (List.length data)
                                  /\ Calendar.id e = clock i + i) added
    /\ StronglySorted Z.lt (map Calendar.id added).
Proof.
  intros Mono result.
  destruct (importRows_added p clock (skipn (Calendar.startIndex data) data) Mono
              (Z.of_nat (Calendar.startIndex data))
              {| Calendar.store := Calendar.events st; Calendar.importedCount := 0;
                 Calendar.skippedCount := 0 |}) as (added & E & F & S).
  cbn [Calendar.store] in E.
  exists added. unfold result. rewrite processImportedData_events.
  split; [exact E|]. split; [|split; [|exact S]].
  - pose proof (processImportedData_counts p clock data st) as K.
    cbv zeta in K. destruct K as (_ & _ & K). rewrite K.
    rewrite processImportedData_events, E, length_app. lia.
  - eapply Forall_impl; [|exact F]. cbv beta. intros e (j & B & I).
    exists j. rewrite length_skipn in B.
    assert (Calendar.startIndex data <= List.length data)%nat.
    { unfold Calendar.startIndex. destruct data as [|r0 rest]; [lia|].
      destruct (_ && _); cbn [List.length]; lia. }
    split; [lia|]. split; [lia|exact I].
Qed.

Lemma import_appends_witness :
  let clock := fun _ : Z => 1700000000000 in
  let result :=
    Calendar.processImportedData (referencePlatform 0) clock (sheet 2)
      Calendar.initialState in
  exists added,
    Calendar.events (fst result) = (Calendar.events Calendar.initialState ++ added)%list
    /\ Z.of_nat (List.length added) = fst (snd result)
    /\ Forall (fun e => exists i, Z.of_nat (Calendar.startIndex (sheet 2)) <= i
                                  /\ i < Z.of_nat (List.length (sheet 2))
                                  /\ Calendar.id e = clock i + i) added
    /\ StronglySorted Z.lt (map Calendar.id added).
Proof.
  intro clock.
  apply (import_appends (referencePlatform 0) clock (sheet 2) Calendar.initialState).
  intros a b H. unfold clock. lia.
Defined.

(** *** Fair options *)

Lemma ascii_compare_lt_trans a b c :
  Ascii.compare a b = Lt -> Ascii.compare b c = Lt -> Ascii.compare a c = Lt.
Proof.
  unfold Ascii.compare. rewrite !N.compare_lt_iff. lia.
Qed.

Lemma ascii_compare_refl a : Ascii.compare a a = Eq.
Proof. unfold Ascii.compare. apply N.compare_refl. Qed.

Lemma compare_lt_trans a : forall b c,
  String.compare a b = Lt -> String.compare b c = Lt -> String.compare a c = Lt.
Proof.
  induction a as [|x a IH]; intros [|y b] [|z c]; cbn [String.compare];
    try discriminate; try reflexivity.
  destruct (Ascii.compare x y) eqn:XY; try discriminate;
    destruct (Ascii.compare y z) eqn:YZ; try discriminate; intros H1 H2.
  - apply Ascii.compare_eq_iff in XY, YZ. subst.
    rewrite ascii_compare_refl. now apply (IH b c).
  - apply Ascii.compare_eq_iff in XY. subst. now rewrite YZ.
  - apply Ascii.compare_eq_iff in YZ. subst. now rewrite XY.
  - now rewrite (ascii_compare_lt_trans x y z XY YZ).
Qed.

Lemma insertFair_In f l x :
  In x (Calendar.insertFair f l) <-> x = f \/ In x l.
Proof.
  induction l as [|y r IH]; cbn [Calendar.insertFair].
  - cbn. intuition.
  - destruct (String.compare f y) eqn:C.
    + apply String.compare_eq_iff in C. subst. cbn. intuition.
    + cbn. intuition.
    + cbn [In]. rewrite IH. intuition.
Qed.

Lemma insertFair_ascending f l : ascending l -> ascending (Calendar.insertFair f l).
Proof.
  unfold ascending. induction l as [|y r IH]; intro S; cbn [Calendar.insertFair].
  - repeat constructor.
  - inversion S as [|? ? Sr Fy]; subst.
    destruct (String.compare f y) eqn:C.
    + exact S.
    + constructor; [exact S|]. constructor; [exact C|].
      eapply Forall_impl; [|exact Fy]. cbv beta. intros z Hz.
      now apply (compare_lt_trans f y z).
    + constructor; [now apply IH|].
      apply Forall_forall. intros z Iz. apply insertFair_In in Iz.
      destruct Iz as [-> | Iz].
      * rewrite String.compare_antisym, C. reflexivity.
      * rewrite Forall_forall in Fy. now apply Fy.
Qed.

(** X4. After [populateFairFilter] the options of the fair dropdown are
    in strictly ascending order (so none occurs twice), they are exactly
    the fairs of the events of the store that are not blank, and the
    first option, All Fairs, is the selected one. *)
Theorem fair_options_sorted_set (st : Calendar.State) :
  let st' := Calendar.populateFairFilter st in
  StronglySorted (fun a b => String.compare a b = Lt) (Calendar.fairOptions st')
  /\ (forall f, In f (Calendar.fairOptions st') <->
                exists e, In e (Calendar.events st) /\ Calendar.fair e = f
                          /\ trim f <> EmptyString)
  /\ Calendar.fairFilter st' = EmptyString.
Proof.
  cbv zeta. unfold Calendar.populateFairFilter.
  cbn [Calendar.fairOptions Calendar.fairFilter Calendar.setFairOptions].
  assert (G : forall evs acc,
             ascending acc ->
             let out := fold_left
               (fun acc e =>
                  if nonEmpty (Calendar.fair e) && nonEmpty (trim (Calendar.fair e))
                  then Calendar.insertFair (Calendar.fair e) acc else acc) evs acc in
             ascending out
             /\ forall f, In f out <->
                  In f acc \/ exists e, In e evs /\ Calendar.fair e = f
                                        /\ trim f <> EmptyString).
  { induction evs as [|e evs IH]; intros acc A; cbn [fold_left].
    - split; [exact A|]. intro f. split; [now left|].
      intros [H | (e & [] & _)]. exact H.
    - cbv zeta in IH.
      destruct (nonEmpty (Calendar.fair e) && nonEmpty (trim (Calendar.fair e))) eqn:T.
      + destruct (IH (Calendar.insertFair (Calendar.fair e) acc)
                    (insertFair_ascending _ _ A)) as [S I].
        split; [exact S|]. intro f. rewrite I, insertFair_In.
        apply andb_true_iff in T. destruct T as [_ T]. apply nonEmpty_true in T.
        split.
        * intros [[-> | H] | (x & Ix & Fx & Tx)].
          -- right. exists e. cbn [In]. auto.
          -- now left.
          -- right. exists x. cbn [In]. auto.
        * intros [H | (x & [-> | Ix] & Fx & Tx)].
          -- left. now right.
          -- left. left. now symmetry.
          -- right. now exists x.
      + destruct (IH acc A) as [S I]. split; [exact S|].
        intro f. rewrite I. split.
        * intros [H | (x & Ix & Fx & Tx)]; [now left|].
          right. exists x. cbn [In]. auto.
        * intros [H | (x & [<- | Ix] & Fx & Tx)]; [now left | | right; now exists x].
          exfalso. subst f.
          destruct (Calendar.fair e) as [|c r] eqn:Fe; [now apply Tx|].
          cbn [nonEmpty andb] in T. apply nonEmpty_false in T. now apply Tx. }
  destruct (G (Calendar.events st) [] (SSorted_nil _)) as [S I].
  split; [exact S|]. split; [|reflexivity].
  intro f. rewrite I. cbn [In]. tauto.
Qed.

(** *** Deleting from the day modal *)

Ltac fields :=
  cbn [Calendar.events Calendar.filteredEvents Calendar.highlightedDate
       Calendar.searchInput Calendar.fairFilter Calendar.fairOptions
       Calendar.currentDayEvents Calendar.modalSearchInput Calendar.modalShown
       Calendar.modalEventsList Calendar.storage Calendar.timers Calendar.clock
       Calendar.setEvents Calendar.setFilteredEvents Calendar.setHighlight
       Calendar.setSearch Calendar.setFairOptions Calendar.setModal
       Calendar.setClock Calendar.saveEvents] in *.

Lemma handleSearch_modal st :
  Calendar.currentDayEvents (Calendar.handleSearch st) = Calendar.currentDayEvents st
  /\ Calendar.modalShown (Calendar.handleSearch st) = Calendar.modalShown st
  /\ Calendar.modalSearchInput (Calendar.handleSearch st) = Calendar.modalSearchInput st
  /\ Calendar.modalEventsList (Calendar.handleSearch st) = Calendar.modalEventsList st.
Proof.
  unfold Calendar.handleSearch. destruct (Calendar.events st); [now repeat split|].
  destruct (negb _ && negb _); now repeat split.
Qed.


(** *** trim and a trailing blank *)

Lemma trimEnd_snoc s c : isWhiteSpace c = true -> trimEnd (s ++ String c "") = trimEnd s.
Proof.
  intro W. induction s as [|x r IH].
  - cbn. now rewrite W.
  - cbn [append]. rewrite !trimEnd_cons, IH. reflexivity.
Qed.

Lemma trim_snoc s c : isWhiteSpace c = true -> trim (s ++ String c "") = trim s.
Proof.
  intro W. unfold trim. rewrite <- !trim_comm. now rewrite trimEnd_snoc.
Qed.

(** *** Lines and cells *)

Lemma splitAny_nonempty f s : Intake.splitAny f s <> [].
Proof.
  destruct s as [|c r]; cbn [Intake.splitAny]; [discriminate|].
  destruct (f c); [discriminate|]. destruct (Intake.splitAny f r); discriminate.
Qed.

Lemma split_splitAny sep s : split sep s = Intake.splitAny (isChar sep) s.
Proof.
  induction s as [|c r IH]; [reflexivity|].
  cbn [split Intake.splitAny]. unfold isChar at 1. now rewrite IH.
Qed.

Lemma splitAny_snoc f s x :
  f x = false ->
  exists front final,
    Intake.splitAny f s = (front ++ [final])%list
    /\ Intake.splitAny f (s ++ String x "")
       = (front ++ [(final ++ String x "")%string])%list.
Proof.
  intro X. induction s as [|c r (front & final & E & E')].
  - exists [], "". cbn. now rewrite X.
  - cbn [append Intake.splitAny]. destruct (f c).
    + exists ("" :: front), final. now rewrite E, E'.
    + rewrite E, E'. destruct front as [|h t].
      * exists [], (String c final). split; reflexivity.
      * exists (String c h :: t), final. split; reflexivity.
Qed.

Lemma rowOf_cr line : rowOf (line ++ String "013" "") = rowOf line.
Proof.
  unfold rowOf.
  destruct (splitAny_snoc Intake.commaOrTab line "013" eq_refl)
    as (front & final & -> & ->).
  rewrite !map_app. cbn [map]. unfold Intake.cleanCell.
  now rewrite trim_snoc.
Qed.

Lemma split_crlf text :
  exists front final,
    split Intake.newline text = (front ++ [final])%list
    /\ split Intake.newline (crlf text)
       = (map (fun l => (l ++ String "013" "")%string) front ++ [final])%list.
Proof.
  induction text as [|c r (front & final & E & E')].
  - exists [], "". split; reflexivity.
  - cbn [crlf]. destruct (Ascii.eqb c Intake.newline) eqn:N.
    + exists ("" :: front), final.
      cbn [split]. rewrite N.
      change (Ascii.eqb "013" Intake.newline) with false. cbv iota.
      rewrite E, E'. split; reflexivity.
    + cbn [split]. rewrite N, E, E'. destruct front as [|h t].
      * exists [], (String c final). split; reflexivity.
      * exists (String c h :: t), final. split; reflexivity.
Qed.

Lemma csvRows_crlf text : Intake.csvRows (crlf text) = Intake.csvRows text.
Proof.
  unfold Intake.csvRows. fold rowOf.
  change (map (fun line => map (fun part => JStr (Intake.cleanCell part))
                             (Intake.splitAny Intake.commaOrTab line)))
    with (map rowOf).
  destruct (split_crlf text) as (front & final & -> & ->).
  rewrite !map_app, map_map. f_equal. apply map_ext. intro l. apply rowOf_cr.
Qed.

Lemma split_nonempty c s : split c s <> [].
Proof.
  destruct s as [|x r]; cbn [split]; [discriminate|].
  destruct (Ascii.eqb x c); [discriminate|]. destruct (split c r); discriminate.
Qed.

Lemma split_trailing_newline text :
  split Intake.newline (text ++ String Intake.newline "")
  = (split Intake.newline text ++ [""])%list.
Proof.
  induction text as [|c r IH]; [reflexivity|].
  cbn [append split]. rewrite IH. destruct (Ascii.eqb c Intake.newline); [reflexivity|].
  destruct (split Intake.newline r) as [|h t] eqn:E; [now elim (split_nonempty _ _ E)|].
  reflexivity.
Qed.

Lemma importRows_app p clock rows1 rows2 : forall i acc,
  Calendar.importRows p clock i (rows1 ++ rows2) acc =
  Calendar.importRows p clock (i + Z.of_nat (List.length rows1)) rows2
    (Calendar.importRows p clock i rows1 acc).
Proof.
  induction rows1 as [|r rest IH]; intros i acc.
  - cbn [app Calendar.importRows List.length]. now rewrite Z.add_0_r.
  - cbn [app Calendar.importRows]. rewrite IH. f_equal.
    cbn [List.length]. lia.
Qed.

Lemma startIndex_le data :
  data <> [] -> (Calendar.startIndex data <= List.length data)%nat.
Proof.
  destruct data as [|r0 rest]; [intro H; now elim H|]. intros _.
  unfold Calendar.startIndex. destruct (_ && _); cbn [List.length]; lia.
Qed.

Lemma processImportedData_short_row p clock data r st :
  data <> [] -> (List.length r < 2)%nat ->
  Calendar.processImportedData p clock (data ++ [r]) st
  = Calendar.processImportedData p clock data st.
Proof.
  intros N L. unfold Calendar.processImportedData. cbv zeta.
  assert (S : Calendar.startIndex (data ++ [r]) = Calendar.startIndex data).
  { destruct data; [now elim N | reflexivity]. }
  rewrite S.
  rewrite skipn_app.
  pose proof (startIndex_le data N) as B.
  apply Nat.sub_0_le in B.
  match goal with
  | |- context [skipn ?n [r]] => replace n with 0%nat by (symmetry; exact B)
  end.
  cbn [skipn]. rewrite importRows_app. cbn [Calendar.importRows].
  unfold Calendar.importRow at 1 2 3 4 5.
  destruct (Nat.ltb_spec (List.length r) 2); [reflexivity | lia].
Qed.

Lemma csvRows_nonempty text : Intake.csvRows text <> [].
Proof.
  unfold Intake.csvRows. intro H. apply map_eq_nil in H.
  now apply split_nonempty in H.
Qed.

(** X6. The table [importCSVFile] reads off a text does not depend on
    the line ends: a carriage return in front of every line feed changes
    no row, and a line feed at the end of the text changes neither the
    page nor the counts of the import. *)
Theorem csv_line_ends :
  (forall text, Intake.csvRows (crlf text) = Intake.csvRows text)
  /\ (forall p clock text st,
        Intake.importCSVFile p clock (text ++ String Intake.newline "") st
        = Intake.importCSVFile p clock text st).
Proof.
  split; [exact csvRows_crlf|].
  intros p clock text st. unfold Intake.importCSVFile.
  assert (E : Intake.csvRows (text ++ String Intake.newline "")
              = (Intake.csvRows text ++ [[JStr ""]])%list).
  { unfold Intake.csvRows. rewrite split_trailing_newline, map_app. reflexivity. }
  rewrite E. apply processImportedData_short_row.
  - apply csvRows_nonempty.
  - cbn. lia.
Qed.

(** *** No cell holds a separator *)

Lemma lacks_trimStart bad s : lacks bad s = true -> lacks bad (trimStart s) = true.
Proof.
  induction s as [|c r IH]; [reflexivity|]. intro H.
  cbn [trimStart]. destruct (isWhiteSpace c); [|exact H].
  cbn [lacks] in H. apply andb_true_iff in H. now apply IH.
Qed.

Lemma lacks_trimEnd bad s : lacks bad s = true -> lacks bad (trimEnd s) = true.
Proof.
  induction s as [|c r IH]; [reflexivity|]. intro H.
  cbn [lacks] in H. apply andb_true_iff in H. destruct H as [C R].
  rewrite trimEnd_cons. specialize (IH R).
  destruct (trimEnd r).
  - destruct (isWhiteSpace c); [reflexivity|]. cbn [lacks]. now rewrite C.
  - cbn [lacks] in IH |- *. now rewrite C, IH.
Qed.

Lemma lacks_dropClosingQuote bad s :
  lacks bad s = true -> lacks bad (Intake.dropClosingQuote s) = true.
Proof.
  induction s as [|c r IH]; [reflexivity|]. intro H.
  cbn [lacks] in H. apply andb_true_iff in H. destruct H as [C R].
  cbn [Intake.dropClosingQuote]. destruct r as [|c' r'].
  - destruct (Ascii.eqb c Intake.quote); [reflexivity|]. cbn [lacks]. now rewrite C.
  - cbn [lacks]. rewrite C. cbn [andb]. now apply IH.
Qed.

Lemma lacks_cleanCell bad s : lacks bad s = true -> lacks bad (Intake.cleanCell s) = true.
Proof.
  intro H. unfold Intake.cleanCell, Intake.unquote, trim.
  pose proof (lacks_trimEnd bad _ (lacks_trimStart bad s H)) as T.
  destruct (trimEnd (trimStart s)) as [|c r]; [reflexivity|].
  destruct (Ascii.eqb c Intake.quote).
  - apply lacks_dropClosingQuote. cbn [lacks] in T. apply andb_true_iff in T. apply T.
  - now apply lacks_dropClosingQuote.
Qed.

Lemma splitAny_lacks f bad s :
  (lacks bad s = true \/ forall c, bad c = true -> f c = true) ->
  Forall (fun part => lacks bad part = true) (Intake.splitAny f s).
Proof.
  induction s as [|c r IH]; intro H.
  - repeat constructor.
  - assert (H' : lacks bad r = true \/ forall c, bad c = true -> f c = true).
    { destruct H as [H | H]; [left | now right].
      cbn [lacks] in H. apply andb_true_iff in H. apply H. }
    specialize (IH H'). cbn [Intake.splitAny].
    destruct (f c) eqn:F.
    + constructor; [reflexivity | exact IH].
    + destruct (Intake.splitAny f r) as [|h t]; [repeat constructor|].
      * cbn [lacks]. rewrite andb_true_r. apply negb_true_iff.
        destruct H as [H | H].
        -- cbn [lacks] in H. apply andb_true_iff in H. destruct H as [H _].
           now apply negb_true_iff in H.
        -- destruct (bad c) eqn:B; [|reflexivity]. rewrite (H c B) in F. discriminate.
      * inversion IH as [|? ? Hh Ht]; subst. constructor; [|exact Ht].
        cbn [lacks]. rewrite Hh, andb_true_r. apply negb_true_iff.
        destruct H as [H | H].
        -- cbn [lacks] in H. apply andb_true_iff in H. destruct H as [H _].
           now apply negb_true_iff in H.
        -- destruct (bad c) eqn:B; [|reflexivity]. rewrite (H c B) in F. discriminate.
Qed.

Lemma lacks_or f g s :
  lacks f s = true -> lacks g s = true -> lacks (fun c => f c || g c) s = true.
Proof.
  induction s as [|c r IH]; [reflexivity|]. cbn [lacks]. intros F G.
  apply andb_true_iff in F. apply andb_true_iff in G.
  destruct F as [F1 F2], G as [G1 G2]. rewrite (IH F2 G2), andb_true_r.
  apply negb_true_iff in F1. apply negb_true_iff in G1. now rewrite F1, G1.
Qed.

(** X7. Every line of a CSV file gives a row of at least one cell, and
    no cell holds a comma, a tab or a line feed: there is no quoting, a
    quoted field with a comma inside is cut in two. *)
Theorem csv_cells_hold_no_separator (text : string) :
  Forall (fun r : Calendar.row =>
            r <> []
            /\ Forall (fun c => exists s, c = JStr s /\ lacks separator s = true) r)
    (Intake.csvRows text).
Proof.
  unfold Intake.csvRows. apply Forall_forall. intros r I.
  apply in_map_iff in I. destruct I as (line & <- & I). split.
  - intro H. apply map_eq_nil in H. now apply splitAny_nonempty in H.
  - assert (L : lacks (isChar Intake.newline) line = true).
    { rewrite split_splitAny in I.
      pose proof (splitAny_lacks (isChar Intake.newline) (isChar Intake.newline) text
                    (or_intror (fun c H => H))) as F.
      rewrite Forall_forall in F. now apply F. }
    apply Forall_forall. intros c Ic. apply in_map_iff in Ic.
    destruct Ic as (part & <- & Ip). eexists. split; [reflexivity|].
    apply lacks_cleanCell. unfold separator. apply lacks_or.
    + pose proof (splitAny_lacks Intake.commaOrTab Intake.commaOrTab line
                    (or_intror (fun c H => H))) as F.
      rewrite Forall_forall in F. now apply F.
    + pose proof (splitAny_lacks Intake.commaOrTab (isChar Intake.newline) line
                    (or_introl L)) as F.
      rewrite Forall_forall in F. now apply F.
Qed.

(** *** Pasted text *)

Lemma pasteRows_eq text :
  Intake.pasteRows text =
  map (map JStr)
    (filter (fun cells => (2 <=? List.length cells)%nat)
       (map Intake.pasteCells (split Intake.newline text))).
Proof.
  unfold Intake.pasteRows.
  assert (G : forall lines acc,
             fold_left
               (fun (jsonData : list Calendar.row) line =>
                  let cells := Intake.pasteCells line in
                  if (2 <=? List.length cells)%nat
                  then (jsonData ++ [map JStr cells])%list else jsonData)
               lines acc
             = (acc ++ map (map JStr)
                  (filter (fun cells => (2 <=? List.length cells)%nat)
                     (map Intake.pasteCells lines)))%list).
  { induction lines as [|l rest IH]; intro acc; cbn [fold_left map filter].
    - now rewrite app_nil_r.
    - rewrite IH. cbv zeta.
      destruct (2 <=? List.length (Intake.pasteCells l))%nat; [|reflexivity].
      cbn [map]. now rewrite <- app_assoc. }
  now rewrite G.
Qed.

Lemma pasteRows_two_cells text :
  Forall (fun r : Calendar.row => (2 <= List.length r)%nat) (Intake.pasteRows text).
Proof.
  rewrite pasteRows_eq. apply Forall_forall. intros r I.
  apply in_map_iff in I. destruct I as (cells & <- & I).
  apply filter_In in I. destruct I as [_ I]. apply Nat.leb_le in I.
  now rewrite length_map.
Qed.

Lemma counted_all rows :
  Forall (fun r : Calendar.row => (2 <= List.length r)%nat) rows ->
  counted rows = Z.of_nat (List.length rows).
Proof.
  intro F. unfold counted. f_equal. f_equal.
  induction F as [|r rows R F IH]; [reflexivity|].
  cbn [filter]. destruct (Nat.leb_spec 2 (List.length r)); [|lia].
  cbn [List.length]. now rewrite IH.
Qed.

Lemma splitAny_one f s :
  lacks f s = true -> Intake.splitAny f s = [s].
Proof.
  induction s as [|c r IH]; [reflexivity|]. cbn [lacks]. intro H.
  apply andb_true_iff in H. destruct H as [C R]. apply negb_true_iff in C.
  cbn [Intake.splitAny]. now rewrite C, (IH R).
Qed.

Lemma splitAny_two f s :
  lacks f s = false -> (2 <= List.length (Intake.splitAny f s))%nat.
Proof.
  induction s as [|c r IH]; [discriminate|]. cbn [lacks Intake.splitAny]. intro H.
  destruct (f c) eqn:C.
  - cbn [List.length].
    pose proof (splitAny_nonempty f r) as N.
    destruct (Intake.splitAny f r); [now elim N | cbn [List.length]; lia].
  - cbn [negb andb] in H. specialize (IH H).
    destruct (Intake.splitAny f r); cbn [List.length] in IH |- *; lia.
Qed.

(** X8. [importFromPaste] hands on the lines that give two cells or
    more, a line with a tab being cut at its tabs only.  When it reaches
    [processImportedData] the box is emptied and the two counts add up to
    the number of those rows after the header; in the two other cases
    (nothing pasted, no line with two cells) the page and the box stay as
    they were. *)
Theorem paste_rows_are_counted (p : Calendar.platform) (clock : Z -> Z)
    (pasteArea : string) (st : Calendar.State) :
  let rows := Intake.pasteRows (trim pasteArea) in
  Forall (fun r : Calendar.row => (2 <= List.length r)%nat) rows
  /\ (forall line, lacks (isChar Intake.tab) line = false ->
                   Intake.pasteCells line = split Intake.tab line)
  /\ match Intake.importFromPaste p clock pasteArea st with
     | (st', Intake.Pasted imported skipped, box) =>
         box = EmptyString
         /\ imported + skipped
            = Z.of_nat (List.length rows) - Z.of_nat (Calendar.startIndex rows)
         /\ (st', (imported, skipped)) = Calendar.processImportedData p clock rows st
     | (st', _, box) => st' = st /\ box = pasteArea
     end.
Proof.
  cbv zeta. split; [apply pasteRows_two_cells|]. split.
  - intros line T. unfold Intake.pasteCells.
    rewrite split_splitAny. pose proof (splitAny_two _ _ T) as L.
    destruct (Nat.ltb_spec (List.length (Intake.splitAny (isChar Intake.tab) line)) 2);
      [lia | reflexivity].
  - unfold Intake.importFromPaste.
    destruct (nonEmpty (trim pasteArea)); cbn [negb]; [|now split].
    pose proof (pasteRows_two_cells (trim pasteArea)) as F.
    destruct (Intake.pasteRows (trim pasteArea)) as [|r rows] eqn:E; [now split|].
    pose proof (processImportedData_counts p clock (r :: rows) st) as K.
    cbv zeta in K. destruct K as (K & _ & _).
    destruct (Calendar.processImportedData p clock (r :: rows) st) as [st' [i s]].
    cbn [fst snd] in K. split; [reflexivity|]. split; [|reflexivity].
    rewrite K, counted_all.
    + rewrite length_skipn.
      pose proof (startIndex_le (r :: rows) ltac:(discriminate)). lia.
    + apply Forall_forall. intros x I. rewrite Forall_forall in F. apply F.
      revert I. generalize (Calendar.startIndex (r :: rows)). generalize (r :: rows).
      induction l as [|y l IH]; intros n I; destruct n; cbn [skipn] in I;
        try (now elim I); try exact I.
      right. now apply (IH n).
Qed.

(** *** The extension of a file name *)

Lemma last_cons {A : Type} (x : A) (l : list A) (d : A) :
  l <> [] -> last (x :: l) d = last l d.
Proof. destruct l; [intro H; now elim H | reflexivity]. Qed.

Lemma splitAny_last_suffix f base x ext :
  f x = true -> lacks f ext = true ->
  last (Intake.splitAny f (base ++ String x ext)) "" = ext.
Proof.
  intros X L. induction base as [|c r IH].
  - cbn [append Intake.splitAny]. rewrite X, (splitAny_one f ext L). reflexivity.
  - cbn [append Intake.splitAny]. destruct (f c).
    + rewrite last_cons; [exact IH | apply splitAny_nonempty].
    + assert (T : (2 <= List.length (Intake.splitAny f (r ++ String x ext)))%nat).
      { apply splitAny_two. clear IH. induction r as [|y r IHr]; cbn [append lacks].
        - now rewrite X.
        - rewrite IHr. apply andb_false_r. }
      destruct (Intake.splitAny f (r ++ String x ext)) as [|h [|h2 t]];
        cbn [List.length] in T; try lia.
      exact IH.
Qed.

Lemma lowerChar_dot c : Ascii.eqb (lowerChar c) "." = Ascii.eqb c ".".
Proof.
  destruct c as [[] [] [] [] [] [] [] []]; reflexivity.
Qed.

Lemma toLowerCase_app a b : toLowerCase (a ++ b) = toLowerCase a ++ toLowerCase b.
Proof.
  induction a as [|c r IH]; [reflexivity|]. cbn [append toLowerCase]. now rewrite IH.
Qed.

Lemma lacks_dot_lower s :
  lacks (isChar ".") (toLowerCase s) = lacks (isChar ".") s.
Proof.
  induction s as [|c r IH]; [reflexivity|].
  cbn [toLowerCase lacks]. unfold isChar at 1 3. now rewrite lowerChar_dot, IH.
Qed.

(** X9. [importCSV] looks at what follows the last dot of the file
    name, in lower case, and at the whole name when it has no dot: the
    text [csv] there sends the file to [importCSVFile], and anything but
    [csv], [xlsx] and [xls] is refused with the page unchanged. *)
Theorem import_by_extension (p : Calendar.platform) (clock : Z -> Z)
    (f : Intake.file) (base ext : string) (st : Calendar.State) :
  lacks (isChar ".") ext = true ->
  Intake.name f = ext \/ Intake.name f = base ++ "." ++ ext ->
  Intake.fileExtension f = toLowerCase ext
  /\ (toLowerCase ext = "csv" ->
      Intake.importCSV p clock (Some f) st =
        let '(st', (imported, skipped)) := Intake.importCSVFile p clock (Intake.text f) st in
        (st', Intake.Read imported skipped))
  /\ (toLowerCase ext <> "csv" -> toLowerCase ext <> "xlsx" -> toLowerCase ext <> "xls" ->
      Intake.importCSV p clock (Some f) st = (st, Intake.UnsupportedFormat)).
Proof.
  intros L N.
  assert (E : Intake.fileExtension f = toLowerCase ext).
  { unfold Intake.fileExtension. rewrite split_splitAny.
    destruct N as [-> | ->].
    - rewrite splitAny_one; [reflexivity | now rewrite lacks_dot_lower].
    - rewrite toLowerCase_app. cbn [append toLowerCase].
      change (lowerChar ".") with "."%char.
      apply splitAny_last_suffix; [reflexivity | now rewrite lacks_dot_lower]. }
  split; [exact E|]. unfold Intake.importCSV. rewrite E. split.
  - intros ->. reflexivity.
  - intros A B C.
    apply String.eqb_neq in A, B, C. now rewrite A, B, C.
Qed.

Lemma import_by_extension_witness :
  let f := {| Intake.name := "Plan.Final.CSV"; Intake.text := "2025-03-05,Sale";
              Intake.firstSheet := None |} in
  Intake.fileExtension f = toLowerCase "CSV"
  /\ (toLowerCase "CSV" = "csv" ->
      Intake.importCSV (referencePlatform 0) (fun _ => 0) (Some f) Calendar.initialState =
        let '(st', (imported, skipped)) :=
          Intake.importCSVFile (referencePlatform 0) (fun _ => 0) (Intake.text f)
            Calendar.initialState in
        (st', Intake.Read imported skipped))
  /\ (toLowerCase "CSV" <> "csv" -> toLowerCase "CSV" <> "xlsx" ->
      toLowerCase "CSV" <> "xls" ->
      Intake.importCSV (referencePlatform 0) (fun _ => 0) (Some f) Calendar.initialState
      = (Calendar.initialState, Intake.UnsupportedFormat)).
Proof.
  intro f.
  apply (import_by_extension (referencePlatform 0) (fun _ => 0) f "Plan.Final" "CSV"
           Calendar.initialState).
  - reflexivity.
  - right. reflexivity.
Defined.

(** *** The month buttons *)

Lemma YearFromDay_bounds n :
  DayFromYear (YearFromDay n) <= n < DayFromYear (YearFromDay n + 1).
Proof.
  unfold YearFromDay.
  set (y0 := 1970 + 400 * n / 146097).
  assert (B : DayFromYear (y0 - 1) <= n < DayFromYear (y0 + 2)).
  { subst y0. unfold DayFromYear. Z.div_mod_to_equations. lia. }
  destruct (Z.leb_spec (DayFromYear (y0 + 1)) n).
  - replace (y0 + 1 + 1) with (y0 + 2) by lia. lia.
  - destruct (Z.leb_spec (DayFromYear y0) n); [lia|].
    replace (y0 - 1 + 1) with y0 by lia. lia.
Qed.

Ltac month_numbers :=
  change (11 + 1 - 1) with 11; change (10 + 1 - 1) with 10;
  change (9 + 1 - 1) with 9; change (8 + 1 - 1) with 8;
  change (7 + 1 - 1) with 7; change (6 + 1 - 1) with 6;
  change (5 + 1 - 1) with 5; change (4 + 1 - 1) with 4;
  change (3 + 1 - 1) with 3; change (2 + 1 - 1) with 2;
  change (1 + 1 - 1) with 1; change (0 + 1 - 1) with 0;
  change (11 + 1) with 12; change (10 + 1) with 11;
  change (9 + 1) with 10; change (8 + 1) with 9;
  change (7 + 1) with 8; change (6 + 1) with 7;
  change (5 + 1) with 6; change (4 + 1) with 5;
  change (3 + 1) with 4; change (2 + 1) with 3;
  change (1 + 1) with 2; change (0 + 1) with 1.

Lemma civilOfDay_parts n :
  let y := YearFromDay n in
  let m := monthOfDay (InLeapYear y) (n - DayFromYear y)
             [11; 10; 9; 8; 7; 6; 5; 4; 3; 2; 1] in
  let d := n - DayFromYear y - monthStart (InLeapYear y) m + 1 in
  0 <= m <= 11 /\ 1 <= d <= daysInMonth y (m + 1)
  /\ n = DayFromYear y + monthStart (InLeapYear y) m + d - 1.
Proof.
  cbv zeta. unfold daysInMonth.
  pose proof (YearFromDay_bounds n) as B.
  pose proof (DayFromYear_step (YearFromDay n)) as S.
  pose proof (InLeapYear_bound (YearFromDay n)) as L.
  set (leap := InLeapYear (YearFromDay n)) in *.
  set (diy := n - DayFromYear (YearFromDay n)) in *.
  assert (D : 0 <= diy < 365 + leap) by (subst diy; lia).
  assert (N : n = DayFromYear (YearFromDay n) + diy) by (subst diy; lia).
  clearbody leap diy.
  cbn [monthOfDay].
  repeat match goal with
  | |- context [if ?a <=? ?b then _ else _] =>
      destruct (Z.leb_spec a b);
      [month_numbers; cbn [monthStart] in *; lia|]
  end.
  month_numbers. cbn [monthStart] in *. lia.
Qed.

Lemma civilOfDay_inv n y m d :
  civilOfDay n = (y, m, d) ->
  0 <= m <= 11 /\ 1 <= d <= daysInMonth y (m + 1)
  /\ n = DayFromYear y + monthStart (InLeapYear y) m + d - 1.
Proof.
  intro E. pose proof (civilOfDay_parts n) as P. cbv zeta in P.
  unfold civilOfDay in E. cbv zeta in E.
  assert (Ey : YearFromDay n = y) by congruence.
  assert (Em : monthOfDay (InLeapYear (YearFromDay n)) (n - DayFromYear (YearFromDay n))
                 [11; 10; 9; 8; 7; 6; 5; 4; 3; 2; 1] = m) by congruence.
  assert (Ed : n - DayFromYear (YearFromDay n)
               - monthStart (InLeapYear (YearFromDay n))
                   (monthOfDay (InLeapYear (YearFromDay n))
                      (n - DayFromYear (YearFromDay n))
                      [11; 10; 9; 8; 7; 6; 5; 4; 3; 2; 1]) + 1 = d) by congruence.
  rewrite Ed in P. rewrite Em in P. rewrite Ey in P. exact P.
Qed.

Lemma DayFromYear_wide y :
  -200000 <= y <= 200000 -> -80000000 <= DayFromYear y <= 80000000.
Proof.
  intro Y. unfold DayFromYear. Z.div_mod_to_equations. lia.
Qed.

Lemma daysInMonth_bounds y j : 1 <= j <= 12 -> 28 <= daysInMonth y j <= 31.
Proof.
  intro J. unfold daysInMonth. pose proof (InLeapYear_bound y) as L.
  set (leap := InLeapYear y) in *. clearbody leap.
  assert (C : j = 1 \/ j = 2 \/ j = 3 \/ j = 4 \/ j = 5 \/ j = 6 \/ j = 7
              \/ j = 8 \/ j = 9 \/ j = 10 \/ j = 11 \/ j = 12) by lia.
  repeat (destruct C as [-> | C]); try subst j;
    match goal with
    | |- context [monthStart _ (?k - 1)] =>
        let k' := eval vm_compute in (k - 1) in change (k - 1) with k'
    end; cbn [monthStart]; lia.
Qed.

Lemma monthStart_next y m :
  0 <= m <= 10 ->
  monthStart (InLeapYear y) (m + 1) = monthStart (InLeapYear y) m + daysInMonth y (m + 1).
Proof.
  intro M. unfold daysInMonth. replace (m + 1 - 1) with m by lia. lia.
Qed.

(** A day counted on from the first of a month: it falls in that month
    when the month has it, and in the next one otherwise. *)
Lemma civilOfDay_overflow y m d :
  0 <= m <= 11 -> 1 <= d <= 31 ->
  civilOfDay (DayFromYear y + monthStart (InLeapYear y) m + d - 1) =
  if d <=? daysInMonth y (m + 1) then (y, m, d)
  else (y, m + 1, d - daysInMonth y (m + 1)).
Proof.
  intros M D. pose proof (daysInMonth_bounds y (m + 1) ltac:(lia)) as B.
  destruct (Z.leb_spec d (daysInMonth y (m + 1))).
  - apply civilOfDay_day; lia.
  - assert (M' : m <= 10).
    { destruct (Z.eq_dec m 11) as [-> | ]; [|lia].
      unfold daysInMonth in H. change (11 + 1 - 1) with 11 in H.
      change (11 + 1) with 12 in H. cbn [monthStart] in H. lia. }
    pose proof (daysInMonth_bounds y (m + 1 + 1) ltac:(lia)) as B'.
    rewrite <- (civilOfDay_day y (m + 1) (d - daysInMonth y (m + 1))) by lia.
    f_equal. rewrite monthStart_next by lia. lia.
Qed.

Lemma localCivil_eq h t : localCivil h t = civilOfDay (Day (t + localTZA h)).
Proof. reflexivity. Qed.

Lemma setMonth_lands h t y m d k :
  Z.abs (localTZA h) <= msPerDay ->
  localCivil h t = (y, m, d) -> -199990 <= y <= 199990 -> -1 <= k <= 12 ->
  let N := DayFromYear (y + k / 12)
           + monthStart (InLeapYear (y + k / 12)) (k mod 12) + d - 1 in
  let u := N * msPerDay + (t + localTZA h) mod msPerDay - localTZA h in
  Grid.setMonth h t k = Some u
  /\ Day (u + localTZA h) = N
  /\ (u + localTZA h) mod msPerDay = (t + localTZA h) mod msPerDay.
Proof.
  intros Z C Y K. cbv zeta.
  destruct (civilOfDay_inv _ _ _ _ C) as (M & D & _).
  pose proof (daysInMonth_bounds y (m + 1) ltac:(lia)) as B.
  assert (Q : -1 <= k / 12 <= 1) by (Z.div_mod_to_equations; lia).
  pose proof (DayFromYear_wide (y + k / 12) ltac:(lia)) as W.
  pose proof (monthStart_range (InLeapYear (y + k / 12)) (k mod 12)
                (InLeapYear_bound _)) as MS.
  pose proof (Z.mod_pos_bound (t + localTZA h) msPerDay ltac:(reflexivity)) as TOD.
  set (tod := (t + localTZA h) mod msPerDay) in *.
  set (first := DayFromYear (y + k / 12)
                + monthStart (InLeapYear (y + k / 12)) (k mod 12)) in *.
  split; [|split].
  - unfold Grid.setMonth. rewrite localCivil_eq in C. rewrite C.
    unfold MakeDay. fold first. unfold TimeClip, maxTime, msPerDay in *.
    destruct (Z.leb_spec (Z.abs (first * 86400000)) 8640000000000000); [|lia].
    fold tod.
    destruct (Z.leb_spec (Z.abs ((first + d - 1) * 86400000 + tod - localTZA h))
                8640000000000000); [|lia].
    reflexivity.
  - unfold Day, msPerDay in *. clearbody tod first.
    Z.div_mod_to_equations. lia.
  - replace ((first + d - 1) * msPerDay + tod - localTZA h + localTZA h)
      with (tod + (first + d - 1) * msPerDay) by lia.
    rewrite Z.mod_add by (unfold msPerDay; lia).
    unfold tod. apply Z.mod_mod. unfold msPerDay. lia.
Qed.





(** *** The numerals of years, months and days *)

Lemma range_check (f : Z -> bool) (lo count : Z) :
  forallb f (map (fun i => lo + Z.of_nat i) (seq 0 (Z.to_nat count))) = true ->
  forall k, lo <= k < lo + count -> f k = true.
Proof.
  intros H k K. rewrite forallb_forall in H. apply H.
  apply in_map_iff. exists (Z.to_nat (k - lo)). split; [lia|].
  apply in_seq. lia.
Qed.

Lemma pad2_shape k :
  0 <= k <= 99 ->
  exists a b, pad2 k = String a (String b EmptyString) /\ twoDigits a b = Some k.
Proof.
  intro K.
  assert (H : twoChars k = true).
  { apply (range_check twoChars 0 100); [vm_compute; reflexivity | lia]. }
  unfold twoChars in H.
  destruct (pad2 k) as [|a [|b [|]]]; try discriminate.
  destruct (twoDigits a b) as [v|] eqn:T; [|discriminate].
  apply Z.eqb_eq in H. subst v. now exists a, b.
Qed.

Lemma intToString_shape y :
  1000 <= y <= 9999 ->
  exists a b c d,
    intToString y = String a (String b (String c (String d EmptyString)))
    /\ twoDigits a b = Some (y / 100) /\ twoDigits c d = Some (y mod 100).
Proof.
  intro Y.
  assert (H : fourChars y = true).
  { apply (range_check fourChars 1000 9000); [vm_compute; reflexivity | lia]. }
  unfold fourChars in H.
  destruct (intToString y) as [|a [|b [|c [|d [|]]]]]; try discriminate.
  destruct (twoDigits a b) as [v|] eqn:T1; [|discriminate].
  destruct (twoDigits c d) as [w|] eqn:T2; [|discriminate].
  apply andb_true_iff in H. destruct H as [H1 H2].
  apply Z.eqb_eq in H1, H2. subst v w. now exists a, b, c, d.
Qed.

Lemma append_inv_head p a b : p ++ a = p ++ b -> a = b.
Proof.
  induction p as [|c r IH]; [trivial|]. cbn [append]. intro H.
  injection H as H. now apply IH.
Qed.

Lemma pad2_inj k k' : 0 <= k <= 99 -> 0 <= k' <= 99 -> pad2 k = pad2 k' -> k = k'.
Proof.
  intros K K' E.
  destruct (pad2_shape k K) as (a & b & Ea & Ta).
  destruct (pad2_shape k' K') as (a' & b' & Ea' & Ta').
  rewrite Ea, Ea' in E. injection E as -> ->. congruence.
Qed.

Lemma dateString_inj y m k k' :
  0 <= k <= 99 -> 0 <= k' <= 99 ->
  Grid.dateString y m k = Grid.dateString y m k' -> k = k'.
Proof.
  intros K K' E. unfold Grid.dateString in E.
  apply append_inv_head in E. cbn [append] in E. injection E as E.
  apply append_inv_head in E. cbn [append] in E. injection E as E.
  now apply pad2_inj.
Qed.

(** The date-only ISO reading of a date the program wrote. *)
Lemma isoDateOnly_dateString y m d :
  1000 <= y <= 9999 -> 0 <= m <= 11 -> 1 <= d <= daysInMonth y (m + 1) ->
  isoDateOnly (Grid.dateString y m d)
  = Some (DayFromYear y + monthStart (InLeapYear y) m + d - 1).
Proof.
  intros Y M D.
  pose proof (daysInMonth_bounds y (m + 1) ltac:(lia)) as B.
  destruct (intToString_shape y Y) as (a & b & c & e & Ey & T1 & T2).
  destruct (pad2_shape (m + 1) ltac:(lia)) as (m1 & m2 & Em & Tm).
  destruct (pad2_shape d ltac:(lia)) as (d1 & d2 & Ed & Td).
  unfold Grid.dateString. rewrite Ey, Em, Ed. cbn [append].
  unfold isoDateOnly. rewrite T1, T2, Tm, Td.
  replace (100 * (y / 100) + y mod 100) with y
    by (pose proof (Z.div_mod y 100 ltac:(lia)); lia).
  destruct (Z.leb_spec 1 (m + 1)); [|lia].
  destruct (Z.leb_spec (m + 1) 12); [|lia].
  destruct (Z.leb_spec 1 d); [|lia].
  destruct (Z.leb_spec d (daysInMonth y (m + 1))); [|lia].
  cbn [andb]. replace (m + 1 - 1) with m by lia.
  unfold MakeDay. rewrite (Z.div_small m 12), (Z.mod_small m 12), Z.add_0_r by lia.
  pose proof (DayFromYear_range y ltac:(lia)) as R.
  pose proof (monthStart_range (InLeapYear y) m (InLeapYear_bound y)) as MS.
  unfold TimeClip, maxTime, msPerDay.
  destruct (Z.leb_spec (Z.abs ((DayFromYear y + monthStart (InLeapYear y) m) * 86400000))
              8640000000000000); [reflexivity | lia].
Qed.

(** *** The dates [renderCalendar] builds *)

Lemma newDate_day h y k d :
  Z.abs (localTZA h) <= msPerDay -> 100 <= y <= 199000 ->
  -1 <= k <= 12 -> 0 <= d <= 31 ->
  let N := DayFromYear (y + k / 12)
           + monthStart (InLeapYear (y + k / 12)) (k mod 12) + d - 1 in
  newDate h (Some y) (Some k) (Some d) = Some (N * msPerDay - localTZA h).
Proof.
  intros Z Y K D. cbv zeta. unfold newDate.
  destruct (Z.leb_spec 0 y); [|lia]. destruct (Z.leb_spec y 99); [lia|].
  cbn [andb]. unfold MakeDay.
  assert (Q : -1 <= k / 12 <= 1) by (Z.div_mod_to_equations; lia).
  pose proof (DayFromYear_wide (y + k / 12) ltac:(lia)) as W.
  pose proof (monthStart_range (InLeapYear (y + k / 12)) (k mod 12)
                (InLeapYear_bound _)) as MS.
  set (first := DayFromYear (y + k / 12)
                + monthStart (InLeapYear (y + k / 12)) (k mod 12)) in *.
  unfold TimeClip, maxTime, msPerDay in *.
  destruct (Z.leb_spec (Z.abs (first * 86400000)) 8640000000000000); [|lia].
  destruct (Z.leb_spec (Z.abs ((first + d - 1) * 86400000 - localTZA h))
              8640000000000000); [reflexivity | lia].
Qed.

Lemma getDay_local h N : Grid.getDay h (N * msPerDay - localTZA h) = (N + 4) mod 7.
Proof.
  unfold Grid.getDay, Day.
  replace (N * msPerDay - localTZA h + localTZA h) with (N * msPerDay) by lia.
  now rewrite Z.div_mul.
Qed.

Lemma getDate_local h N :
  Grid.getDate h (N * msPerDay - localTZA h) = let '(_, _, d) := civilOfDay N in d.
Proof. unfold Grid.getDate. now rewrite localCivil_local. Qed.

(** The first of the month, [new Date(year, month, 1)]. *)
Lemma first_of_month h y m :
  Z.abs (localTZA h) <= msPerDay -> 100 <= y <= 199000 -> 0 <= m <= 11 ->
  option_map (Grid.getDay h) (newDate h (Some y) (Some m) (Some 1))
  = Some ((DayFromYear y + monthStart (InLeapYear y) m + 4) mod 7).
Proof.
  intros Z Y M. rewrite newDate_day by lia. cbn [option_map].
  rewrite getDay_local, (Z.div_small m 12), (Z.mod_small m 12) by lia.
  replace (y + 0) with y by lia.
  f_equal. f_equal. lia.
Qed.

(** The last of the month, [new Date(year, month + 1, 0)]. *)
Lemma last_of_month h y m :
  Z.abs (localTZA h) <= msPerDay -> 100 <= y <= 199000 -> 0 <= m <= 11 ->
  option_map (Grid.getDate h) (newDate h (Some y) (Some (m + 1)) (Some 0))
  = Some (daysInMonth y (m + 1)).
Proof.
  intros Z Y M. rewrite newDate_day by lia. cbn [option_map].
  rewrite getDate_local.
  pose proof (daysInMonth_bounds y (m + 1) ltac:(lia)) as B.
  assert (E : DayFromYear (y + (m + 1) / 12)
              + monthStart (InLeapYear (y + (m + 1) / 12)) ((m + 1) mod 12) + 0 - 1
              = DayFromYear y + monthStart (InLeapYear y) m + daysInMonth y (m + 1) - 1).
  { destruct (Z.eq_dec m 11) as [-> | N].
    - change ((11 + 1) / 12) with 1. change ((11 + 1) mod 12) with 0.
      pose proof (DayFromYear_step y). unfold daysInMonth.
      change (11 + 1 - 1) with 11. change (11 + 1) with 12.
      cbn [monthStart]. lia.
    - rewrite (Z.div_small (m + 1) 12), (Z.mod_small (m + 1) 12) by lia.
      replace (y + 0) with y by lia.
      rewrite monthStart_next by lia. lia. }
  rewrite E, civilOfDay_day by lia. reflexivity.
Qed.

(** The last of the month before, [new Date(year, month, 0)]. *)
Lemma last_of_previous_month h y m :
  Z.abs (localTZA h) <= msPerDay -> 100 <= y <= 199000 -> 0 <= m <= 11 ->
  option_map (Grid.getDate h) (newDate h (Some y) (Some m) (Some 0))
  = Some (if m =? 0 then 31 else daysInMonth y m).
Proof.
  intros Z Y M. rewrite newDate_day by lia. cbn [option_map].
  rewrite getDate_local, (Z.div_small m 12), (Z.mod_small m 12) by lia.
  replace (y + 0) with y by lia.
  destruct (Z.eqb_spec m 0) as [-> | N].
  - cbn [monthStart]. pose proof (DayFromYear_step (y - 1)) as S.
    replace (y - 1 + 1) with y in S by lia.
    replace (DayFromYear y + 0 + 0 - 1)
      with (DayFromYear (y - 1) + monthStart (InLeapYear (y - 1)) 11 + 31 - 1)
      by (cbn [monthStart]; lia).
    rewrite civilOfDay_day; [reflexivity | lia |].
    unfold daysInMonth. change (11 + 1 - 1) with 11. change (11 + 1) with 12.
    cbn [monthStart]. lia.
  - pose proof (daysInMonth_bounds y m ltac:(lia)) as B.
    replace (DayFromYear y + monthStart (InLeapYear y) m + 0 - 1)
      with (DayFromYear y + monthStart (InLeapYear y) (m - 1) + daysInMonth y m - 1)
      by (unfold daysInMonth; lia).
    rewrite civilOfDay_day; [reflexivity | lia |].
    replace (m - 1 + 1) with m by lia. lia.
Qed.

Lemma upTo_length n : 0 <= n -> Z.of_nat (List.length (Grid.upTo n)) = n.
Proof. intro N. unfold Grid.upTo. rewrite length_map, length_seq. lia. Qed.

Lemma upTo_In n k : In k (Grid.upTo n) <-> 1 <= k <= n.
Proof.
  unfold Grid.upTo. rewrite in_map_iff. split.
  - intros (i & <- & I). apply in_seq in I. lia.
  - intro K. exists (Z.to_nat k). split; [lia|]. apply in_seq. lia.
Qed.

Lemma shown_month h t y m d0 : localCivil h t = (y, m, d0) -> 0 <= m <= 11.
Proof. intro Civil. now destruct (civilOfDay_inv _ _ _ _ Civil) as (M & _ & _). Qed.

Lemma previousCells_eq h t y m d0 :
  Z.abs (localTZA h) <= msPerDay -> localCivil h t = (y, m, d0) -> 100 <= y <= 199000 ->
  Grid.previousCells h (Some t) =
  map (fun k =>
         Grid.createDayElement
           (Some ((if m =? 0 then 31 else daysInMonth y m)
                  - ((DayFromYear y + monthStart (InLeapYear y) m + 4) mod 7
                     - 1 - Z.of_nat k)))
           true false false false [])
    (seq 0 (Z.to_nat ((DayFromYear y + monthStart (InLeapYear y) m + 4) mod 7))).
Proof.
  intros Zone Civil Year.
  pose proof (shown_month h t y m d0 Civil) as M.
  assert (EY : option_map (Grid.getFullYear h) (Some t) = Some y).
  { cbn [option_map]. unfold Grid.getFullYear. now rewrite Civil. }
  assert (EM : option_map (Grid.getMonth h) (Some t) = Some m).
  { cbn [option_map]. unfold Grid.getMonth. now rewrite Civil. }
  unfold Grid.previousCells. rewrite EY, EM. cbv zeta.
  rewrite first_of_month, last_of_previous_month by assumption.
  reflexivity.
Qed.

Lemma currentCells_eq h now t y m d0 st :
  Z.abs (localTZA h) <= msPerDay -> localCivil h t = (y, m, d0) -> 100 <= y <= 199000 ->
  Grid.currentCells h now (Some t) st =
  map (fun day =>
         Grid.createDayElement (Some day) false
           ((day =? Grid.getDate h now) && (m =? Grid.getMonth h now)
            && (y =? Grid.getFullYear h now))
           (0 <? List.length (Calendar.dayEvents (Grid.dateString y m day) st))%nat
           (match Calendar.highlightedDate st with
            | Some d => String.eqb d (Grid.dateString y m day)
            | None => false
            end)
           (Calendar.dayEvents (Grid.dateString y m day) st))
    (Grid.upTo (daysInMonth y (m + 1))).
Proof.
  intros Zone Civil Year.
  pose proof (shown_month h t y m d0 Civil) as M.
  assert (EY : option_map (Grid.getFullYear h) (Some t) = Some y).
  { cbn [option_map]. unfold Grid.getFullYear. now rewrite Civil. }
  assert (EM : option_map (Grid.getMonth h) (Some t) = Some m).
  { cbn [option_map]. unfold Grid.getMonth. now rewrite Civil. }
  unfold Grid.currentCells. rewrite EY, EM. cbv zeta.
  change (option_map (fun m0 => m0 + 1) (Some m)) with (Some (m + 1)).
  rewrite last_of_month by assumption. reflexivity.
Qed.

(** X12. With the seven weekday headers in place [renderCalendar]
    appends, in this order: as many closing days of the month before as
    the weekday of the first of the month says (0 for a Sunday), every
    day of the shown month once, from 1 to its last, and days of the next
    month numbered from 1 up to a total of 35 cells.  A month that needs
    more than 35 cells gets no day of the next month, so that the grid
    has the larger of 35 and weekday + days cells, never the 42 of six
    full rows unless the month itself needs them. *)
Theorem grid_layout (h : host) (now t y m d0 : Z) (st : Calendar.State) :
  Z.abs (localTZA h) <= msPerDay ->
  localCivil h t = (y, m, d0) ->
  100 <= y <= 199000 ->
  let days := daysInMonth y (m + 1) in
  let before := if m =? 0 then 31 else daysInMonth y m in
  exists firstDay previous current next,
    option_map (Grid.getDay h) (newDate h (Some y) (Some m) (Some 1)) = Some firstDay
    /\ 0 <= firstDay <= 6
    /\ Grid.renderCalendar h now 7 (Some t) st = (previous ++ current ++ next)%list
    /\ map Grid.dayNumber previous
       = map (fun k => Some (before - firstDay + k)) (Grid.upTo firstDay)
    /\ map Grid.dayNumber current = map Some (Grid.upTo days)
    /\ map Grid.dayNumber next = map Some (Grid.upTo (35 - firstDay - days))
    /\ Forall (fun c => Grid.otherMonth c = true) (previous ++ next)
    /\ Forall (fun c => Grid.otherMonth c = false) current
    /\ Z.of_nat (List.length (Grid.renderCalendar h now 7 (Some t) st))
       = Z.max 35 (firstDay + days).
Proof.
  intros Zone Civil Year. cbv zeta.
  pose proof (shown_month h t y m d0 Civil) as M.
  pose proof (daysInMonth_bounds y (m + 1) ltac:(lia)) as B.
  set (firstDay := (DayFromYear y + monthStart (InLeapYear y) m + 4) mod 7).
  assert (F : 0 <= firstDay < 7) by (apply Z.mod_pos_bound; lia).
  exists firstDay, (Grid.previousCells h (Some t)),
    (Grid.currentCells h now (Some t) st),
    (Grid.nextCells 7 (Grid.previousCells h (Some t)
                       ++ Grid.currentCells h now (Some t) st)).
  assert (LP : Z.of_nat (List.length (Grid.previousCells h (Some t))) = firstDay).
  { rewrite (previousCells_eq h t y m d0 Zone Civil Year).
    rewrite length_map, length_seq. fold firstDay. lia. }
  assert (LC : Z.of_nat (List.length (Grid.currentCells h now (Some t) st))
               = daysInMonth y (m + 1)).
  { rewrite (currentCells_eq h now t y m d0 st Zone Civil Year).
    rewrite length_map. apply upTo_length. lia. }
  assert (R : 42 - (7 + Z.of_nat (List.length (Grid.previousCells h (Some t)
                                  ++ Grid.currentCells h now (Some t) st)) - 7) - 7
              = 35 - firstDay - daysInMonth y (m + 1)).
  { rewrite length_app. lia. }
  split; [now apply first_of_month|]. split; [lia|].
  split; [unfold Grid.renderCalendar; now rewrite <- app_assoc|].
  split; [|split; [|split; [|split; [|split]]]].
  - rewrite (previousCells_eq h t y m d0 Zone Civil Year). fold firstDay.
    unfold Grid.upTo. rewrite !map_map. rewrite <- seq_shift, map_map.
    apply map_ext. intro k. cbn [Grid.dayNumber Grid.createDayElement].
    f_equal. lia.
  - rewrite (currentCells_eq h now t y m d0 st Zone Civil Year).
    rewrite map_map. reflexivity.
  - unfold Grid.nextCells. rewrite R, map_map. reflexivity.
  - apply Forall_app. split.
    + rewrite (previousCells_eq h t y m d0 Zone Civil Year).
      apply Forall_forall. intros c I. apply in_map_iff in I.
      destruct I as (k & <- & _). reflexivity.
    + unfold Grid.nextCells. apply Forall_forall. intros c I.
      apply in_map_iff in I. destruct I as (k & <- & _). reflexivity.
  - rewrite (currentCells_eq h now t y m d0 st Zone Civil Year).
    apply Forall_forall. intros c I. apply in_map_iff in I.
    destruct I as (k & <- & _). reflexivity.
  - unfold Grid.renderCalendar. rewrite length_app.
    unfold Grid.nextCells at 1. rewrite length_map, R.
    unfold Grid.upTo. rewrite length_map, length_seq, length_app. lia.
Qed.

Lemma grid_layout_witness :
  let h := strictHost 0 in
  let days := daysInMonth 2025 (2 + 1) in
  let before := if 2 =? 0 then 31 else daysInMonth 2025 2 in
  exists firstDay previous current next,
    option_map (Grid.getDay h) (newDate h (Some 2025) (Some 2) (Some 1)) = Some firstDay
    /\ 0 <= firstDay <= 6
    /\ Grid.renderCalendar h 0 7 (Some 1741996800000) Calendar.initialState
       = (previous ++ current ++ next)%list
    /\ map Grid.dayNumber previous
       = map (fun k => Some (before - firstDay + k)) (Grid.upTo firstDay)
    /\ map Grid.dayNumber current = map Some (Grid.upTo days)
    /\ map Grid.dayNumber next = map Some (Grid.upTo (35 - firstDay - days))
    /\ Forall (fun c => Grid.otherMonth c = true) (previous ++ next)
    /\ Forall (fun c => Grid.otherMonth c = false) current
    /\ Z.of_nat (List.length
                   (Grid.renderCalendar h 0 7 (Some 1741996800000) Calendar.initialState))
       = Z.max 35 (firstDay + days).
Proof.
  intro h.
  apply (grid_layout h 0 1741996800000 2025 2 15 Calendar.initialState).
  - vm_compute. discriminate.
  - vm_compute. reflexivity.
  - lia.
Defined.

Lemma in_dayEvents e s st :
  In e (Calendar.dayEvents s st) <->
  In e (Calendar.filteredEvents st) /\ Calendar.date e = s.
Proof.
  unfold Calendar.dayEvents. rewrite filter_In. split.
  - intros [I E]. split; [exact I|]. now apply String.eqb_eq.
  - intros [I E]. split; [exact I|]. now apply String.eqb_eq.
Qed.

Lemma nextCells_other headers shown c :
  In c (Grid.nextCells headers shown) ->
  exists n, c = Grid.createDayElement n true false false false [].
Proof.
  unfold Grid.nextCells. intro N. apply in_map_iff in N.
  destruct N as (k & <- & _). eexists. reflexivity.
Qed.

(** The cells of the grid: a cell of another month, or the cell of a
    day of the shown month. *)
Lemma grid_cells (h : host) (now t y m d0 : Z) (st : Calendar.State) (c : Grid.dayElement) :
  Z.abs (localTZA h) <= msPerDay ->
  localCivil h t = (y, m, d0) ->
  100 <= y <= 199000 ->
  In c (Grid.renderCalendar h now 7 (Some t) st) <->
  (exists n, c = Grid.createDayElement n true false false false [])
    /\ In c (Grid.previousCells h (Some t)
             ++ Grid.nextCells 7 (Grid.previousCells h (Some t)
                                  ++ Grid.currentCells h now (Some t) st))
  \/ exists k,
       1 <= k <= daysInMonth y (m + 1)
       /\ c = Grid.createDayElement (Some k) false
               ((k =? Grid.getDate h now) && (m =? Grid.getMonth h now)
                && (y =? Grid.getFullYear h now))
               (0 <? List.length (Calendar.dayEvents (Grid.dateString y m k) st))%nat
               (match Calendar.highlightedDate st with
                | Some d => String.eqb d (Grid.dateString y m k)
                | None => false
                end)
               (Calendar.dayEvents (Grid.dateString y m k) st).
Proof.
  intros Zone Civil Year. unfold Grid.renderCalendar.
  rewrite in_app_iff, in_app_iff.
  split.
  - intros [[P | C] | N].
    + left. split; [|apply in_or_app; left; exact P].
      rewrite (previousCells_eq h t y m d0 Zone Civil Year) in P.
      apply in_map_iff in P. destruct P as (k & <- & _). eexists. reflexivity.
    + right. rewrite (currentCells_eq h now t y m d0 st Zone Civil Year) in C.
      apply in_map_iff in C. destruct C as (k & <- & K).
      exists k. split; [now apply upTo_In | reflexivity].
    + left. split; [|apply in_or_app; right; exact N].
      now apply nextCells_other in N.
  - intros [[_ I] | (k & K & ->)].
    + apply in_app_or in I. destruct I as [P | N]; [left; left; exact P | right; exact N].
    + left. right. rewrite (currentCells_eq h now t y m d0 st Zone Civil Year).
      apply in_map_iff. exists k. split; [reflexivity | now apply upTo_In].
Qed.

Lemma opens_other n : 
  Grid.opens (Grid.createDayElement n true false false false []) = None.
Proof. reflexivity. Qed.

Lemma opens_day day isToday hasEvent isHighlighted l :
  Grid.opens (Grid.createDayElement day false isToday hasEvent isHighlighted l)
  = match l with [] => None | _ => Some l end.
Proof. destruct l; reflexivity. Qed.

Lemma grid_layout_cells h now t y m d0 st k :
  Z.abs (localTZA h) <= msPerDay -> localCivil h t = (y, m, d0) -> 100 <= y <= 199000 ->
  1 <= k <= daysInMonth y (m + 1) ->
  exists c, In c (Grid.renderCalendar h now 7 (Some t) st)
            /\ Grid.otherMonth c = false /\ Grid.dayNumber c = Some k.
Proof.
  intros Zone Civil Year K. eexists. split; [|split].
  - apply (proj2 (grid_cells h now t y m d0 st _ Zone Civil Year)).
    right. exists k. split; [exact K | reflexivity].
  - reflexivity.
  - reflexivity.
Qed.

Lemma grid_cell_days h now t y m d0 st c k :
  Z.abs (localTZA h) <= msPerDay -> localCivil h t = (y, m, d0) -> 100 <= y <= 199000 ->
  In c (Grid.renderCalendar h now 7 (Some t) st) ->
  Grid.otherMonth c = false -> Grid.dayNumber c = Some k ->
  1 <= k <= daysInMonth y (m + 1).
Proof.
  intros Zone Civil Year I O Dn.
  destruct (proj1 (grid_cells h now t y m d0 st c Zone Civil Year) I)
    as [[(n & ->) _] | (k' & K' & ->)]; [discriminate O|].
  injection Dn as <-. exact K'.
Qed.

(** The highlighted cells. *)
Lemma grid_highlighted h now t y m d0 st c :
  Z.abs (localTZA h) <= msPerDay -> localCivil h t = (y, m, d0) -> 100 <= y <= 199000 ->
  In c (Grid.renderCalendar h now 7 (Some t) st) ->
  (Grid.highlighted c = true <->
   Grid.otherMonth c = false
   /\ exists k, Grid.dayNumber c = Some k
                /\ Calendar.highlightedDate st = Some (Grid.dateString y m k)).
Proof.
  intros Zone Civil Year I.
  destruct (proj1 (grid_cells h now t y m d0 st c Zone Civil Year) I)
    as [[(n & ->) _] | (k & K & ->)];
    cbn [Grid.highlighted Grid.createDayElement Grid.otherMonth Grid.dayNumber].
  - split; [discriminate | intros [Hf _]; discriminate Hf].
  - destruct (Calendar.highlightedDate st) as [s|]; split.
    + intro H. apply String.eqb_eq in H. subst s. split; [reflexivity|].
      exists k. split; reflexivity.
    + intros (_ & k' & Dn & Hs). injection Dn as <-. injection Hs as ->.
      apply String.eqb_refl.
    + discriminate.
    + intros (_ & k' & _ & Hs). discriminate Hs.
Qed.

(** The cell of a day lists the filtered events of that day. *)
Lemma grid_lists h now t y m d0 st e k :
  Z.abs (localTZA h) <= msPerDay -> localCivil h t = (y, m, d0) -> 100 <= y <= 199000 ->
  In e (Calendar.filteredEvents st) -> 1 <= k <= daysInMonth y (m + 1) ->
  Calendar.date e = Grid.dateString y m k ->
  exists c l, In c (Grid.renderCalendar h now 7 (Some t) st)
              /\ Grid.otherMonth c = false /\ Grid.dayNumber c = Some k
              /\ Grid.opens c = Some l /\ In e l.
Proof.
  intros Zone Civil Year If K Ed.
  assert (Il : In e (Calendar.dayEvents (Grid.dateString y m k) st)).
  { apply in_dayEvents. split; assumption. }
  eexists. exists (Calendar.dayEvents (Grid.dateString y m k) st).
  split; [|split; [|split; [|split]]].
  - apply (proj2 (grid_cells h now t y m d0 st _ Zone Civil Year)).
    right. exists k. split; [exact K | reflexivity].
  - reflexivity.
  - reflexivity.
  - rewrite opens_day.
    destruct (Calendar.dayEvents (Grid.dateString y m k) st); [now elim Il | reflexivity].
  - exact Il.
Qed.

(** X13. In the grid of the shown month a cell lists an event (its
    click opens the day modal with it) exactly when it is a cell of the
    shown month and the event is in the filtered list with the date of
    that day; the highlighted cells are the cells of the shown month
    whose date is [highlightedDate]; every filtered event dated in the
    shown month is listed in some cell, and in one cell only. *)
Theorem grid_places_events (h : host) (now t y m d0 : Z) (st : Calendar.State) :
  Z.abs (localTZA h) <= msPerDay ->
  localCivil h t = (y, m, d0) ->
  100 <= y <= 199000 ->
  let grid := Grid.renderCalendar h now 7 (Some t) st in
  let listed (c : Grid.dayElement) (e : Calendar.Event) :=
    exists l, Grid.opens c = Some l /\ In e l in
  (forall c e, In c grid ->
     (listed c e <->
      Grid.otherMonth c = false
      /\ In e (Calendar.filteredEvents st)
      /\ exists k, Grid.dayNumber c = Some k
                   /\ Calendar.date e = Grid.dateString y m k))
  /\ (forall c, In c grid ->
        (Grid.highlighted c = true <->
         Grid.otherMonth c = false
         /\ exists k, Grid.dayNumber c = Some k
                      /\ Calendar.highlightedDate st = Some (Grid.dateString y m k)))
  /\ (forall e k, In e (Calendar.filteredEvents st) ->
        1 <= k <= daysInMonth y (m + 1) ->
        Calendar.date e = Grid.dateString y m k ->
        exists c, In c grid /\ listed c e)
  /\ (forall c c' e, In c grid -> In c' grid -> listed c e -> listed c' e -> c = c').
Proof.
  intros Zone Civil Year. cbv zeta.
  pose proof (shown_month h t y m d0 Civil) as M.
  pose proof (daysInMonth_bounds y (m + 1) ltac:(lia)) as B.
  pose proof (fun c => grid_cells h now t y m d0 st c Zone Civil Year) as G.
  set (grid := Grid.renderCalendar h now 7 (Some t) st) in *.
  set (cellOf := fun k : Z =>
         Grid.createDayElement (Some k) false
           ((k =? Grid.getDate h now) && (m =? Grid.getMonth h now)
            && (y =? Grid.getFullYear h now))
           (0 <? List.length (Calendar.dayEvents (Grid.dateString y m k) st))%nat
           (match Calendar.highlightedDate st with
            | Some d => String.eqb d (Grid.dateString y m k)
            | None => false
            end)
           (Calendar.dayEvents (Grid.dateString y m k) st)).
  assert (G' : forall c, In c grid <->
             ((exists n, c = Grid.createDayElement n true false false false [])
              /\ In c (Grid.previousCells h (Some t)
                       ++ Grid.nextCells 7 (Grid.previousCells h (Some t)
                                            ++ Grid.currentCells h now (Some t) st)))
             \/ exists k, 1 <= k <= daysInMonth y (m + 1) /\ c = cellOf k).
  { exact G. }
  clear G. clearbody grid.
  assert (Cases : forall c, In c grid ->
             (exists n, c = Grid.createDayElement n true false false false [])
             \/ exists k, 1 <= k <= daysInMonth y (m + 1) /\ c = cellOf k).
  { intros c I. destruct (proj1 (G' c) I) as [[H _] | H]; [now left | now right]. }
  assert (Shown : forall k, 1 <= k <= daysInMonth y (m + 1) -> In (cellOf k) grid).
  { intros k K. apply (proj2 (G' (cellOf k))). right. exists k. split; [exact K | reflexivity]. }
  clear G'.
  assert (Opens : forall k e,
             (exists l, Grid.opens (cellOf k) = Some l /\ In e l) <->
             In e (Calendar.filteredEvents st)
             /\ Calendar.date e = Grid.dateString y m k).
  { intros k e. unfold cellOf. rewrite opens_day, <- in_dayEvents.
    destruct (Calendar.dayEvents (Grid.dateString y m k) st) as [|x l] eqn:E.
    - split; [intros (l & Hl & _); discriminate Hl | intros []].
    - split.
      + intros (l' & Hl & I). now injection Hl as <-.
      + intro I. exists (x :: l); split; [reflexivity | exact I]. }
  assert (Fields : forall k,
             Grid.otherMonth (cellOf k) = false
             /\ Grid.dayNumber (cellOf k) = Some k
             /\ Grid.highlighted (cellOf k)
                = match Calendar.highlightedDate st with
                  | Some d => String.eqb d (Grid.dateString y m k)
                  | None => false
                  end).
  { intro k. repeat split. }
  clearbody cellOf.
  assert (L : forall c e, In c grid ->
              ((exists l, Grid.opens c = Some l /\ In e l) <->
               exists k, 1 <= k <= daysInMonth y (m + 1) /\ c = cellOf k
                         /\ In e (Calendar.filteredEvents st)
                         /\ Calendar.date e = Grid.dateString y m k)).
  { intros c e I. destruct (Cases c I) as [(n & ->) | (k & K & ->)].
    - rewrite opens_other. split.
      + intros (l & Hl & _). discriminate Hl.
      + intros (k & _ & E & _). 
        destruct (Fields k) as (F1 & _). rewrite <- E in F1. discriminate F1.
    - rewrite Opens. split.
      + intros [If Ed]. exists k. split; [exact K|]. split; [reflexivity|]. split; assumption.
      + intros (k' & K' & E & If & Ed).
        assert (k = k').
        { destruct (Fields k) as (_ & F2 & _). destruct (Fields k') as (_ & F2' & _).
          rewrite E in F2. congruence. }
        subst k'. now split. }
  split; [|split; [|split]].
  - intros c e I. rewrite (L c e I). split.
    + intros (k & K & -> & If & Ed). destruct (Fields k) as (F1 & F2 & _).
      split; [exact F1|]. split; [exact If|]. exists k. split; assumption.
    + intros (A & If & k & Dn & Ed).
      destruct (Cases c I) as [(n & ->) | (k' & K' & ->)]; [discriminate A|].
      destruct (Fields k') as (_ & F2 & _). rewrite F2 in Dn. injection Dn as <-.
      exists k'. split; [exact K'|]. split; [reflexivity|]. split; assumption.
  - intros c I. destruct (Cases c I) as [(n & ->) | (k & K & ->)].
    + cbn [Grid.highlighted Grid.createDayElement Grid.otherMonth].
      split; [discriminate | intros [Hf _]; discriminate Hf].
    + destruct (Fields k) as (F1 & F2 & F3). rewrite F1, F2, F3.
      destruct (Calendar.highlightedDate st) as [s|]; split.
      * intro H. apply String.eqb_eq in H. subst s. split; [reflexivity|].
        exists k. split; reflexivity.
      * intros (_ & k' & Dn & Hs). injection Dn as <-. injection Hs as ->.
        apply String.eqb_refl.
      * discriminate.
      * intros (_ & k' & _ & Hs). discriminate Hs.
  - intros e k If K Ed. exists (cellOf k).
    pose proof (Shown k K) as I.
    split; [exact I|]. apply (proj2 (L _ e I)). exists k.
    split; [exact K|]. split; [reflexivity|]. split; assumption.
  - intros c c' e I I' Lc Lc'.
    destruct (proj1 (L c e I) Lc) as (k & K & -> & _ & Ed).
    destruct (proj1 (L c' e I') Lc') as (k' & K' & -> & _ & Ed').
    assert (k = k') by (apply (dateString_inj y m); try lia; congruence).
    now subst k'.
Qed.

Lemma grid_places_events_witness :
  let h := strictHost 0 in
  let e := {| Calendar.id := 1; Calendar.date := "2025-03-05";
              Calendar.title := "PO 1: Sale A"; Calendar.fair := "";
              Calendar.link := "" |} in
  let st := Calendar.setHighlight (Some "2025-03-05") []
              (Calendar.setFilteredEvents [e] (Calendar.setEvents [e] Calendar.initialState)) in
  let grid := Grid.renderCalendar h 0 7 (Some 1741996800000) st in
  let listed (c : Grid.dayElement) (e : Calendar.Event) :=
    exists l, Grid.opens c = Some l /\ In e l in
  (forall c e, In c grid ->
     (listed c e <->
      Grid.otherMonth c = false
      /\ In e (Calendar.filteredEvents st)
      /\ exists k, Grid.dayNumber c = Some k
                   /\ Calendar.date e = Grid.dateString 2025 2 k))
  /\ (forall c, In c grid ->
        (Grid.highlighted c = true <->
         Grid.otherMonth c = false
         /\ exists k, Grid.dayNumber c = Some k
                      /\ Calendar.highlightedDate st = Some (Grid.dateString 2025 2 k)))
  /\ (forall e k, In e (Calendar.filteredEvents st) ->
        1 <= k <= daysInMonth 2025 (2 + 1) ->
        Calendar.date e = Grid.dateString 2025 2 k ->
        exists c, In c grid /\ listed c e)
  /\ (forall c c' e, In c grid -> In c' grid -> listed c e -> listed c' e -> c = c').
Proof.
  intros h e st.
  apply (grid_places_events h 0 1741996800000 2025 2 15 st).
  - vm_compute. discriminate.
  - vm_compute. reflexivity.
  - lia.
Defined.

(** *** Selecting a search result *)

Lemma navigateToEvent_month h e y m k :
  Z.abs (localTZA h) <= msPerDay ->
  1000 <= y <= 9999 -> 0 <= m <= 11 -> 1 <= k <= daysInMonth y (m + 1) ->
  Calendar.date e = Grid.dateString y m k ->
  exists t, Grid.navigateToEvent h e = Some t /\ localCivil h t = (y, m, 1).
Proof.
  intros Z Y M K E.
  pose proof (daysInMonth_bounds y (m + 1) ltac:(lia)) as B.
  unfold Grid.navigateToEvent, Grid.localMidnight.
  rewrite E, (isoDateOnly_dateString y m k Y M K).
  pose proof (DayFromYear_range y ltac:(lia)) as R.
  pose proof (monthStart_range (InLeapYear y) m (InLeapYear_bound y)) as MS.
  assert (T : TimeClip ((DayFromYear y + monthStart (InLeapYear y) m + k - 1) * msPerDay
                        - localTZA h)
              = Some ((DayFromYear y + monthStart (InLeapYear y) m + k - 1) * msPerDay
                      - localTZA h)).
  { unfold TimeClip, maxTime, msPerDay in *.
    destruct (Z.leb_spec (Z.abs ((DayFromYear y + monthStart (InLeapYear y) m + k - 1)
                                 * 86400000 - localTZA h)) 8640000000000000);
      [reflexivity | lia]. }
  rewrite T. cbn [option_map]. unfold Grid.getFullYear, Grid.getMonth.
  rewrite localCivil_local, (civilOfDay_day y m k M K).
  rewrite newDate_day by lia. eexists. split; [reflexivity|].
  rewrite localCivil_local, (Z.div_small m 12), (Z.mod_small m 12) by lia.
  replace (y + 0) with y by lia.
  apply civilOfDay_day; lia.
Qed.

(** X14. Selecting a search result whose date is a calendar day of a
    year from 1000 to 9999 turns the grid to the month of the event and
    highlights the cell of its day and no other cell; when the event is
    in the filtered list that cell lists it. *)
Theorem navigate_shows_day (h : host) (now y m k : Z) (e : Calendar.Event)
    (st : Calendar.State) :
  Z.abs (localTZA h) <= msPerDay ->
  1000 <= y <= 9999 -> 0 <= m <= 11 -> 1 <= k <= daysInMonth y (m + 1) ->
  Calendar.date e = Grid.dateString y m k ->
  let grid :=
    Grid.renderCalendar h now 7 (Grid.navigateToEvent h e)
      (Calendar.navigateToEvent e st) in
  (exists c, In c grid /\ Grid.highlighted c = true)
  /\ (forall c, In c grid ->
        (Grid.highlighted c = true <->
         Grid.otherMonth c = false /\ Grid.dayNumber c = Some k))
  /\ (In e (Calendar.filteredEvents st) ->
      exists c l, In c grid /\ Grid.highlighted c = true
                  /\ Grid.opens c = Some l /\ In e l).
Proof.
  intros Z Y M K E. cbv zeta.
  destruct (navigateToEvent_month h e y m k Z Y M K E) as (t & -> & C).
  pose proof (daysInMonth_bounds y (m + 1) ltac:(lia)) as B.
  assert (Yr : 100 <= y <= 199000) by lia.
  pose proof (fun c => grid_highlighted h now t y m 1 (Calendar.navigateToEvent e st) c
                         Z C Yr) as H.
  assert (Hd : Calendar.highlightedDate (Calendar.navigateToEvent e st)
               = Some (Grid.dateString y m k)).
  { unfold Calendar.navigateToEvent. cbn [Calendar.highlightedDate Calendar.setHighlight].
    rewrite E. reflexivity. }
  split; [|split].
  - destruct (grid_layout_cells h now t y m 1 (Calendar.navigateToEvent e st) k Z C Yr K)
      as (c & I & O & Dn).
    exists c. split; [exact I|]. apply (proj2 (H c I)).
    split; [exact O|]. exists k. split; [exact Dn | exact Hd].
  - intros c' I'. split.
    + intro Hc. destruct (proj1 (H c' I') Hc) as (O' & k' & Dn' & Hs).
      split; [exact O'|]. rewrite Dn'. apply f_equal.
      rewrite Hd in Hs. injection Hs as Hs. symmetry.
      pose proof (grid_cell_days h now t y m 1 (Calendar.navigateToEvent e st) c' k'
                    Z C Yr I' O' Dn') as K'.
      apply (dateString_inj y m); try lia. exact Hs.
    + intros (O' & Dn'). apply (proj2 (H c' I')).
      split; [exact O'|]. exists k. split; [exact Dn' | exact Hd].
  - intro If.
    destruct (grid_lists h now t y m 1 (Calendar.navigateToEvent e st) e k Z C Yr If K E)
      as (c' & l & I' & O' & Dn' & Ol & Il).
    exists c', l. split; [exact I'|]. split; [|split; [exact Ol | exact Il]].
    apply (proj2 (H c' I')).
    split; [exact O'|]. exists k. split; [exact Dn' | exact Hd].
Qed.

Lemma navigate_shows_day_witness :
  let h := strictHost 0 in
  let e := {| Calendar.id := 1; Calendar.date := "2025-03-05";
              Calendar.title := "PO 1: Sale A"; Calendar.fair := "";
              Calendar.link := "" |} in
  let st := Calendar.setFilteredEvents [e] (Calendar.setEvents [e] Calendar.initialState) in
  let grid :=
    Grid.renderCalendar h 0 7 (Grid.navigateToEvent h e)
      (Calendar.navigateToEvent e st) in
  (exists c, In c grid /\ Grid.highlighted c = true)
  /\ (forall c, In c grid ->
        (Grid.highlighted c = true <->
         Grid.otherMonth c = false /\ Grid.dayNumber c = Some 5))
  /\ (In e (Calendar.filteredEvents st) ->
      exists c l, In c grid /\ Grid.highlighted c = true
                  /\ Grid.opens c = Some l /\ In e l).
Proof.
  intros h e st.
  apply (navigate_shows_day h 0 2025 2 5 e st).
  - vm_compute. discriminate.
  - lia.
  - lia.
  - vm_compute. split; discriminate.
  - reflexivity.
Defined.

(** *** What is on the page is in localStorage *)

Lemma processImportedData_saved p clock data st :
  Calendar.storage st = Calendar.events st ->
  let st' := fst (Calendar.processImportedData p clock data st) in
  Calendar.storage st' = Calendar.events st'.
Proof.
  intro S. cbv zeta.
  pose proof (processImportedData_counts p clock data st) as K.
  cbv zeta in K. destruct K as (_ & _ & K).
  pose proof (processImportedData_events p clock data st) as E.
  destruct (importRows_store p clock (skipn (Calendar.startIndex data) data)
              (Z.of_nat (Calendar.startIndex data))
              {| Calendar.store := Calendar.events st; Calendar.importedCount := 0;
                 Calendar.skippedCount := 0 |}) as (added & A & _).
  cbn [Calendar.store] in A. rewrite A in E.
  revert K E. unfold Calendar.processImportedData. cbv zeta. cbn [fst snd].
  destruct (0 <? Calendar.importedCount _) eqn:I.
  - intros _ _.
    destruct (populateFairFilter_events
                (Calendar.saveEvents
                   (Calendar.setEvents
                      (Calendar.store
                         (Calendar.importRows p clock (Z.of_nat (Calendar.startIndex data))
                            (skipn (Calendar.startIndex data) data)
                            {| Calendar.store := Calendar.events st;
                               Calendar.importedCount := 0;
                               Calendar.skippedCount := 0 |})) st)))
      as (-> & -> & _).
    reflexivity.
  - intros K E. cbn [Calendar.events Calendar.storage Calendar.setEvents] in *.
    apply Z.ltb_ge in I. rewrite E, length_app in K.
    assert (added = []) by (destruct added; [reflexivity | cbn [List.length] in K; lia]).
    subst added. rewrite app_nil_r in E. now rewrite E.
Qed.

Lemma importFromWebhook_saved p year clock resp st :
  Calendar.storage st = Calendar.events st ->
  let st' := fst (Calendar.importFromWebhook p year clock resp st) in
  Calendar.storage st' = Calendar.events st'.
Proof.
  intro H. cbv zeta. unfold Calendar.importFromWebhook.
  destruct resp as [|data]; [exact H|].
  destruct (Calendar.dataArray data) as [items|]; [|exact H].
  destruct (existsb Calendar.isNull items); [exact H|].
  destruct (fold_left _ items []) as [|r rows] eqn:E; [exact H|].
  pose proof (processImportedData_saved p clock (r :: rows) st H) as W.
  cbv zeta in W.
  destruct (Calendar.processImportedData p clock (r :: rows) st) as [st' [a b]].
  exact W.
Qed.

Lemma step_saved p a st :
  Calendar.storage st = Calendar.events st ->
  Calendar.storage (Calendar.step p a st) = Calendar.events (Calendar.step p a st).
Proof.
  intro H. destruct a; cbn [Calendar.step]; try exact H.
  - now apply processImportedData_saved.
  - now apply importFromWebhook_saved.
  - reflexivity.
  - destruct confirmed; [|exact H].
    now destruct (deleteEventFromModal_events (Calendar.jsHost p) e st) as (_ & -> & _).
  - unfold Calendar.clearAllEvents.
    destruct (Calendar.events st) eqn:E; [now rewrite E|].
    destruct confirmed; [reflexivity | now rewrite E].
  - destruct (handleSearch_events (Calendar.setSearch text fairValue st)) as (-> & -> & _).
    exact H.
  - unfold Calendar.clickDay. destruct (Calendar.dayEvents dateString st); exact H.
  - unfold Calendar.reload. cbn [Calendar.events].
    destruct (Calendar.storage st) eqn:E; [reflexivity|].
    now destruct (populateFairFilter_events
                    {| Calendar.events := e :: l; Calendar.filteredEvents := [];
                       Calendar.highlightedDate := None; Calendar.searchInput := "";
                       Calendar.fairFilter := ""; Calendar.fairOptions := [];
                       Calendar.currentDayEvents := []; Calendar.modalSearchInput := "";
                       Calendar.modalShown := false; Calendar.modalEventsList := [];
                       Calendar.storage := e :: l; Calendar.timers := [];
                       Calendar.clock := Calendar.clock st |}) as (-> & -> & _).
Qed.

(** X15. On a page first opened with nothing stored, after any sequence
    of actions [localStorage] holds exactly the events of the store, so
    that loading the page anew brings all of them back. *)
Theorem page_is_saved (p : Calendar.platform) (actions : list Calendar.action) :
  let st := Calendar.run p actions Calendar.initialState in
  Calendar.storage st = Calendar.events st
  /\ Calendar.events (Calendar.reload st) = Calendar.events st.
Proof.
  cbv zeta.
  assert (G : forall st, Calendar.storage st = Calendar.events st ->
                         Calendar.storage (Calendar.run p actions st)
                         = Calendar.events (Calendar.run p actions st)).
  { induction actions as [|a rest IH]; intros st H; [exact H|].
    cbn [Calendar.run fold_left]. apply IH. now apply step_saved. }
  specialize (G Calendar.initialState eq_refl).
  split; [exact G|].
  pose proof (step_saved p Calendar.Reload _ G) as R. cbn [Calendar.step] in R.
  rewrite <- R, <- G. unfold Calendar.reload. cbn [Calendar.events].
  destruct (Calendar.storage (Calendar.run p actions Calendar.initialState)) eqn:E;
    [reflexivity|].
  now destruct (populateFairFilter_events
                  {| Calendar.events := e :: l; Calendar.filteredEvents := [];
                     Calendar.highlightedDate := None; Calendar.searchInput := "";
                     Calendar.fairFilter := ""; Calendar.fairOptions := [];
                     Calendar.currentDayEvents := []; Calendar.modalSearchInput := "";
                     Calendar.modalShown := false; Calendar.modalEventsList := [];
                     Calendar.storage := e :: l; Calendar.timers := [];
                     Calendar.clock :=
                       Calendar.clock (Calendar.run p actions Calendar.initialState) |})
    as (_ & -> & _).
Qed.

(** *** Records the webhook import rejects *)

(** X16. One [null] record anywhere in the array of a webhook response
    makes the whole import fail with the page unchanged, the valid
    records included.  A record whose date is missing, empty or not a
    text adds no row, and a response made of such records only ends with
    the no-valid-events alert and the page unchanged. *)
Theorem webhook_rejects (p : Calendar.platform) (year : Z) (clock : Z -> Z)
    (data : json) (items : list json) (st : Calendar.State) :
  Calendar.dataArray data = Some items ->
  let dateOf item :=
    orElse (orElse (getProp item "Date") (getProp item "date")) (JStr "") in
  (existsb Calendar.isNull items = true ->
   Calendar.importFromWebhook p year clock (Calendar.Body data) st = (st, Calendar.FetchError))
  /\ (existsb Calendar.isNull items = false ->
      (forall item s, In item items -> dateOf item = JStr s -> s = EmptyString) ->
      Calendar.importFromWebhook p year clock (Calendar.Body data) st
      = (st, Calendar.NoValidEvents))
  /\ (forall item jsonData,
        (forall s, dateOf item = JStr s -> s = EmptyString) ->
        Calendar.adaptRecord (Calendar.jsHost p) year item jsonData = jsonData).
Proof.
  intros D dateOf.
  assert (A : forall item jsonData,
             (forall s, dateOf item = JStr s -> s = EmptyString) ->
             Calendar.adaptRecord (Calendar.jsHost p) year item jsonData = jsonData).
  { intros item jsonData H. unfold Calendar.adaptRecord. fold (dateOf item).
    destruct (dateOf item) as [| | |s| |] eqn:E; try reflexivity;
      try (destruct (negb _); reflexivity).
    rewrite (H s eq_refl). reflexivity. }
  split; [|split; [|exact A]].
  - intro N. unfold Calendar.importFromWebhook. now rewrite D, N.
  - intros N H. unfold Calendar.importFromWebhook. rewrite D, N.
    assert (F : forall acc,
               fold_left (fun acc item =>
                            Calendar.adaptRecord (Calendar.jsHost p) year item acc)
                 items acc = acc).
    { clear D N. induction items as [|item rest IH]; intro acc; [reflexivity|].
      cbn [fold_left]. rewrite A.
      - apply IH. intros x s I. apply H. now right.
      - intros s. apply H. now left. }
    now rewrite F.
Qed.

Lemma webhook_rejects_witness :
  let p := referencePlatform 0 in
  let data := JObj [("data", JArr [exampleRecord; JNull])] in
  let items := [exampleRecord; JNull] in
  let st := Calendar.initialState in
  let dateOf item :=
    orElse (orElse (getProp item "Date") (getProp item "date")) (JStr "") in
  (existsb Calendar.isNull items = true ->
   Calendar.importFromWebhook p 2025 (fun _ => 0) (Calendar.Body data) st
   = (st, Calendar.FetchError))
  /\ (existsb Calendar.isNull items = false ->
      (forall item s, In item items -> dateOf item = JStr s -> s = EmptyString) ->
      Calendar.importFromWebhook p 2025 (fun _ => 0) (Calendar.Body data) st
      = (st, Calendar.NoValidEvents))
  /\ (forall item jsonData,
        (forall s, dateOf item = JStr s -> s = EmptyString) ->
        Calendar.adaptRecord (Calendar.jsHost p) 2025 item jsonData = jsonData).
Proof.
  intros p data items st.
  apply (webhook_rejects p 2025 (fun _ => 0) data items st).
  reflexivity.
Defined.

(** *** Reading back a date the program wrote *)

Lemma digit_numeral c v : digitValue 10 c = Some v -> numeralChar c = true.
Proof.
  destruct c as [[] [] [] [] [] [] [] []]; intro H; try reflexivity;
    vm_compute in H; discriminate H.
Qed.

Lemma digit_not_radix c v r :
  digitValue 10 c = Some v -> radixLiteral (String "0" (String c r)) = None.
Proof.
  destruct c as [[] [] [] [] [] [] [] []]; intro H; try reflexivity;
    vm_compute in H; discriminate H.
Qed.

Lemma twoDigits_inv a b v :
  twoDigits a b = Some v ->
  exists x y, digitValue 10 a = Some x /\ digitValue 10 b = Some y.
Proof.
  unfold twoDigits. destruct (digitValue 10 a) as [x|]; [|discriminate].
  destruct (digitValue 10 b) as [y|]; [|discriminate]. intros _. now exists x, y.
Qed.

Lemma scanDecimal_dashed a b c e va vb vc ve rest :
  digitValue 10 a = Some va -> digitValue 10 b = Some vb ->
  digitValue 10 c = Some vc -> digitValue 10 e = Some ve ->
  exists q,
    scanDecimal (String a (String b (String c (String e (String "-" rest)))))
    = Some (Fin q, String "-" rest).
Proof.
  intros Ha Hb Hc He.
  destruct a as [[] [] [] [] [] [] [] []];
    try (exfalso; vm_compute in Ha; discriminate Ha);
    unfold scanDecimal; cbn [startsWith Ascii.eqb Bool.eqb andb];
    unfold scanUnsignedDecimal; cbn [scanDigits]; rewrite Ha, Hb, Hc, He;
    change (digitValue 10 "-") with (@None Z); cbv iota;
    cbn [scanExponent Ascii.eqb Bool.eqb orb andb]; eexists; reflexivity.
Qed.

Lemma toNumber_dashed a b c e v w rest :
  twoDigits a b = Some v -> twoDigits c e = Some w -> numeralChars rest = true ->
  toNumber (String a (String b (String c (String e (String "-" rest))))) = NaN.
Proof.
  intros T1 T2 R.
  destruct (twoDigits_inv _ _ _ T1) as (va & vb & Ha & Hb).
  destruct (twoDigits_inv _ _ _ T2) as (vc & ve & Hc & He).
  unfold toNumber.
  rewrite numeralChars_trim.
  2:{ cbn [numeralChars]. rewrite (digit_numeral _ _ Ha), (digit_numeral _ _ Hb),
        (digit_numeral _ _ Hc), (digit_numeral _ _ He), R. reflexivity. }
  assert (X : radixLiteral (String a (String b (String c (String e (String "-" rest)))))
              = None).
  { destruct (Ascii.eqb_spec a "0") as [-> | N].
    - now apply (digit_not_radix b vb).
    - destruct a as [[] [] [] [] [] [] [] []]; try reflexivity. now elim N. }
  rewrite X.
  destruct (scanDecimal_dashed a b c e va vb vc ve rest Ha Hb Hc He) as (q & ->).
  reflexivity.
Qed.

Lemma dateString_numeral y m d : numeralChars (Grid.dateString y m d) = true.
Proof.
  unfold Grid.dateString. destruct (intToString_numeral y) as [Y _].
  rewrite !numeralChars_app, Y, !pad2_numeral. reflexivity.
Qed.

Lemma toNumber_dateString y m d :
  1000 <= y <= 9999 -> toNumber (Grid.dateString y m d) = NaN.
Proof.
  intro Y. destruct (intToString_shape y Y) as (a & b & c & e & Ey & T1 & T2).
  pose proof (dateString_numeral y m d) as N.
  unfold Grid.dateString in *. rewrite Ey in *. cbn [append] in *.
  apply (toNumber_dashed a b c e _ _ _ T1 T2).
  cbn [numeralChars] in N. 
  repeat (apply andb_true_iff in N; destruct N as [_ N]). exact N.
Qed.

Lemma formatLocal_dateString h t :
  Calendar.formatLocal h t =
  let '(y, m, d) := localCivil h t in Grid.dateString y m d.
Proof. reflexivity. Qed.

(** X17. A date the program wrote for a year from 1000 to 9999 and
    reads again as the date cell of a row (as the webhook import does
    with the dates it builds) comes back as itself on a host at or east
    of UTC, and as the day before on a host west of UTC. *)
Theorem written_dates_read_back (p : Calendar.platform) (t y m d : Z) :
  let h := Calendar.jsHost p in
  localCivil h t = (y, m, d) ->
  1000 <= y <= 9999 ->
  (0 <= localTZA h < msPerDay ->
   Calendar.formattedDate p (Calendar.formatLocal h t) = Some (Calendar.formatLocal h t))
  /\ (- msPerDay <= localTZA h < 0 ->
      Calendar.formattedDate p (Calendar.formatLocal h t)
      = Some (Calendar.formatLocal h (t - msPerDay))).
Proof.
  intros h C Y.
  destruct (civilOfDay_inv _ _ _ _ C) as (M & D & N).
  assert (F : Calendar.formatLocal h t = Grid.dateString y m d).
  { rewrite formatLocal_dateString. now rewrite C. }
  pose proof (toNumber_dateString y m d Y) as TN.
  pose proof (isoDateOnly_dateString y m d Y M D) as ISO.
  rewrite <- N in ISO.
  split.
  - intro Z. rewrite F at 1.
    rewrite (iso_date_east p _ _ Z TN ISO).
    rewrite localCivil_eq in C. fold h in C.
    rewrite F. f_equal.
    change (civilOfDay (Day (t + localTZA h))) with (localCivil h t).
    rewrite localCivil_eq. rewrite C. reflexivity.
  - intro Z. rewrite F at 1.
    unfold Calendar.formattedDate, Calendar.rowDate. rewrite TN.
    cbn [isNaN negb andb]. unfold dateParse. rewrite ISO. cbn [option_map].
    f_equal. fold h. rewrite !formatLocal_dateString, !localCivil_eq.
    assert (E : Day (Day (t + localTZA h) * msPerDay + localTZA h)
                = Day (t - msPerDay + localTZA h)).
    { unfold Day, msPerDay in *. Z.div_mod_to_equations. lia. }
    now rewrite E.
Qed.

Lemma written_dates_read_back_witness :
  let p := referencePlatform 0 in
  let h := Calendar.jsHost p in
  let t := 1741996800000 in
  (0 <= localTZA h < msPerDay ->
   Calendar.formattedDate p (Calendar.formatLocal h t) = Some (Calendar.formatLocal h t))
  /\ (- msPerDay <= localTZA h < 0 ->
      Calendar.formattedDate p (Calendar.formatLocal h t)
      = Some (Calendar.formatLocal h (t - msPerDay))).
Proof.
  intros p h t.
  apply (written_dates_read_back p t 2025 2 15).
  - vm_compute. reflexivity.
  - lia.
Defined.

(** *** Loading liveops.json *)

Lemma linkOf_ok a b : linkOk (AppJs.linkOf a b).
Proof.
  unfold AppJs.linkOf. destruct (truthy _); [|exact I].
  destruct (nonEmpty _) eqn:N; cbn [andb].
  - destruct (AppJs.hasScheme _) eqn:S; cbn [negb linkOk].
    + now right.
    + right. reflexivity.
  - left. now apply nonEmpty_false.
Qed.

Lemma normalizeLiveopsDate_numeral h year raw nd :
  AppJs.normalizeLiveopsDate h year raw = Some nd ->
  numeralChars nd = true /\ nd <> EmptyString.
Proof.
  unfold AppJs.normalizeLiveopsDate. destruct raw; try discriminate.
  destruct (nonEmpty _); [|discriminate].
  destruct (dateParse h _) as [t|]; [|discriminate].
  intro E. injection E as <-. apply formatLocal_numeral.
Qed.

Lemma mapRow_fields h year i row e :
  AppJs.mapRow h year i row = Some e ->
  AppJs.id e = i
  /\ AppJs.title e <> EmptyString
  /\ numeralChars (AppJs.date e) = true
  /\ linkOk (AppJs.doc e) /\ linkOk (AppJs.clickup e).
Proof.
  unfold AppJs.mapRow.
  set (data := if truthy row && truthy (getProp row "json")
               then getProp row "json" else row).
  destruct (AppJs.normalizeLiveopsDate h year (getProp data "JUMP TO TODAY"))
    as [nd|] eqn:N; [|discriminate].
  destruct (normalizeLiveopsDate_numeral _ _ _ _ N) as [Nu Ne].
  intro E. injection E as <-.
  cbn [AppJs.id AppJs.title AppJs.date AppJs.doc AppJs.clickup].
  split; [reflexivity|]. split; [|split; [exact Nu|split; apply linkOf_ok]].
  destruct (nonEmpty (AppJs.joinParts _)) eqn:J; [now apply nonEmpty_true | exact Ne].
Qed.

Lemma mapRow_key h year i j row :
  option_map (fun e => (AppJs.date e, AppJs.title e)) (AppJs.mapRow h year i row)
  = option_map (fun e => (AppJs.date e, AppJs.title e)) (AppJs.mapRow h year j row).
Proof.
  unfold AppJs.mapRow.
  destruct (AppJs.normalizeLiveopsDate h year _); reflexivity.
Qed.

Lemma mapRows_keys h year rows : forall i j,
  map (fun e => (AppJs.date e, AppJs.title e)) (AppJs.mapRows h year i rows)
  = map (fun e => (AppJs.date e, AppJs.title e)) (AppJs.mapRows h year j rows).
Proof.
  induction rows as [|row rest IH]; intros i j; [reflexivity|].
  cbn [AppJs.mapRows]. pose proof (mapRow_key h year i j row) as K.
  destruct (AppJs.mapRow h year i row), (AppJs.mapRow h year j row);
    cbn [option_map] in K; try discriminate K.
  - cbn [map]. injection K as K1 K2. rewrite K1, K2. apply f_equal. apply IH.
  - apply IH.
Qed.

Lemma mapRows_app h year a b : forall i,
  AppJs.mapRows h year i (a ++ b)
  = (AppJs.mapRows h year i a
     ++ AppJs.mapRows h year (i + Z.of_nat (List.length a)) b)%list.
Proof.
  induction a as [|row rest IH]; intro i.
  - cbn [app AppJs.mapRows List.length]. now rewrite Z.add_0_r.
  - cbn [app AppJs.mapRows]. rewrite IH.
    replace (i + 1 + Z.of_nat (List.length rest))
      with (i + Z.of_nat (List.length (row :: rest))) by (cbn [List.length]; lia).
    destruct (AppJs.mapRow h year i row); reflexivity.
Qed.

Lemma mapRows_events h year rows : forall i,
  StronglySorted Z.lt (map AppJs.id (AppJs.mapRows h year i rows))
  /\ Forall (fun e => i <= AppJs.id e < i + Z.of_nat (List.length rows)
                      /\ AppJs.title e <> EmptyString
                      /\ numeralChars (AppJs.date e) = true
                      /\ linkOk (AppJs.doc e) /\ linkOk (AppJs.clickup e))
       (AppJs.mapRows h year i rows).
Proof.
  induction rows as [|row rest IH]; intro i.
  - split; constructor.
  - cbn [AppJs.mapRows]. destruct (IH (i + 1)) as [S F].
    assert (F' : Forall (fun e => i <= AppJs.id e < i + Z.of_nat (List.length (row :: rest))
                      /\ AppJs.title e <> EmptyString
                      /\ numeralChars (AppJs.date e) = true
                      /\ linkOk (AppJs.doc e) /\ linkOk (AppJs.clickup e))
                  (AppJs.mapRows h year (i + 1) rest)).
    { eapply Forall_impl; [|exact F]. cbv beta. intros e (B & R).
      split; [cbn [List.length]; lia | exact R]. }
    destruct (AppJs.mapRow h year i row) as [e|] eqn:E; [|now split].
    destruct (mapRow_fields _ _ _ _ _ E) as (Ei & R).
    split.
    + cbn [map]. constructor; [exact S|].
      apply Forall_forall. intros x Ix. apply in_map_iff in Ix.
      destruct Ix as (e' & <- & Ie'). rewrite Forall_forall in F.
      destruct (F e' Ie') as (B & _). lia.
    + constructor; [|exact F']. split; [cbn [List.length]; lia | exact R].
Qed.


(** X19. The loader of [liveops.json] does not deduplicate: a file that
    lists its rows twice puts every date and title on the page twice, so
    that the store of that variant holds the same key more than once. *)
Theorem liveops_keeps_duplicates (h : host) (year : Z) (rows : list json)
    (st : AppJs.State) :
  existsb Calendar.isNull rows = false ->
  AppJs.mapRows h year 0 rows <> [] ->
  let key := fun e => (AppJs.date e, AppJs.title e) in
  let st' :=
    AppJs.loadEventsFromLiveopsJson h year (Calendar.Body (JArr (rows ++ rows))) st in
  map key (AppJs.events st')
  = (map key (AppJs.mapRows h year 0 rows) ++ map key (AppJs.mapRows h year 0 rows))%list
  /\ (NoDup (map key (AppJs.events st')) -> False).
Proof.
  intros N L key st'.
  assert (E : AppJs.events st' = AppJs.mapRows h year 0 (rows ++ rows)).
  { unfold st', AppJs.loadEventsFromLiveopsJson.
    rewrite existsb_app, N. cbn [orb].
    destruct (AppJs.mapRows h year 0 (rows ++ rows)) as [|e l] eqn:M; [|reflexivity].
    rewrite mapRows_app in M. apply app_eq_nil in M. destruct M as [M _]. now elim L. }
  assert (K : map key (AppJs.events st')
              = (map key (AppJs.mapRows h year 0 rows)
                 ++ map key (AppJs.mapRows h year 0 rows))%list).
  { rewrite E, mapRows_app, map_app. f_equal.
    apply (mapRows_keys h year rows). }
  split; [exact K|]. rewrite K. intro D.
  destruct (AppJs.mapRows h year 0 rows) as [|e l]; [now elim L|].
  cbn [map app] in D. inversion D as [|? ? NI _]; subst. apply NI.
  apply in_or_app. right. now left.
Qed.

Lemma liveops_keeps_duplicates_witness :
  let h := shortDateHost 0 in
  let rows := [JObj [("JUMP TO TODAY", JStr " 1 Jan, Wed"); ("Holiday List", JStr "New Year")]] in
  let st := {| AppJs.events := []; AppJs.filteredEvents := AppJs.SameArray;
               AppJs.highlightedDate := None; AppJs.searchInput := "";
               AppJs.modal := None; AppJs.storage := [] |} in
  let key := fun e => (AppJs.date e, AppJs.title e) in
  let st' :=
    AppJs.loadEventsFromLiveopsJson h 2025 (Calendar.Body (JArr (rows ++ rows))) st in
  map key (AppJs.events st')
  = (map key (AppJs.mapRows h 2025 0 rows) ++ map key (AppJs.mapRows h 2025 0 rows))%list
  /\ (NoDup (map key (AppJs.events st')) -> False).
Proof.
  intros h rows st.
  apply (liveops_keeps_duplicates h 2025 rows st).
  - reflexivity.
  - vm_compute. discriminate.
Defined.

(** *** The shape of the webhook response *)

(** The rows of a response are the rows of its records, one record after
    the other. *)
Lemma adaptRecords_flat h year items : forall jsonData,
  fold_left (fun acc item => Calendar.adaptRecord h year item acc) items jsonData
  = (jsonData ++ flat_map (fun item => Calendar.adaptRecord h year item []) items)%list.
Proof.
  induction items as [|item items IH]; intro jsonData; cbn [fold_left flat_map].
  - now rewrite app_nil_r.
  - rewrite IH, (adaptRecord_app h year item jsonData), <- app_assoc. reflexivity.
Qed.

Lemma no_null_record items :
  Forall (fun item => item <> JNull) items -> existsb Calendar.isNull items = false.
Proof.
  induction 1 as [|x l N F IH]; [reflexivity|].
  cbn [existsb]. rewrite IH. destruct x; try reflexivity. now elim N.
Qed.

Lemma webhookRow_dated r :
  webhookRow r -> nonEmpty (Calendar.cellText (Calendar.cell r 0)) = true.
Proof.
  intros (fd & t & f & l & -> & [-> | [N NE]]); [reflexivity|].
  unfold Calendar.cellText, Calendar.cell. cbn [nth truthy toStr].
  apply nonEmpty_true in NE. rewrite NE.
  rewrite (numeralChars_trim fd N). exact NE.
Qed.

(** C8. A response that is an array of records, an object whose [data]
    is an array, or an object whose [body] is an array (its [data] being
    no array) is taken for import, exactly as if the array had come bare.
    An array without a [null] record is imported: its records fan out
    into rows, record after record; without a row the call ends in the
    alert that no valid event was found, with the page as it was;
    otherwise the rows go through [processImportedData], whose state and
    counts are the outcome: the counts add up to the number of rows, the
    store keeps its events and gains as many as were counted imported,
    every row with a title and a date that converts has its event in the
    store afterwards, and the store is written to storage when an event
    was imported.  Any other response ends in the failure alert with the
    state, the store and the storage included, as it was. *)
Theorem webhook_shapes (p : Calendar.platform) (year : Z) (clock : Z -> Z)
    (data : json) (st : Calendar.State) :
  (forall items,
     data = JArr items
     \/ (exists fields, data = JObj fields /\ lookupField "data" fields = JArr items)
     \/ (exists fields, data = JObj fields
                        /\ (forall l, lookupField "data" fields <> JArr l)
                        /\ lookupField "body" fields = JArr items) ->
     Calendar.dataArray data = Some items
     /\ Calendar.importFromWebhook p year clock (Calendar.Body data) st =
        Calendar.importFromWebhook p year clock (Calendar.Body (JArr items)) st)
  /\ (forall items,
        Forall (fun item => item <> JNull) items ->
        let rows :=
          flat_map (fun item => Calendar.adaptRecord (Calendar.jsHost p) year item [])
            items in
        let result := Calendar.processImportedData p clock rows st in
        (rows = [] ->
         Calendar.importFromWebhook p year clock (Calendar.Body (JArr items)) st
           = (st, Calendar.NoValidEvents))
        /\ (rows <> [] ->
            Calendar.importFromWebhook p year clock (Calendar.Body (JArr items)) st
              = (fst result, Calendar.Imported (fst (snd result)) (snd (snd result))))
        /\ fst (snd result) + snd (snd result) = Z.of_nat (List.length rows)
        /\ (exists added,
              Calendar.events (fst result) = (Calendar.events st ++ added)%list
              /\ Z.of_nat (List.length added) = fst (snd result))
        /\ (forall r fd,
              In r rows ->
              Calendar.cellText (Calendar.cell r 1) <> "" ->
              Calendar.formattedDate p (Calendar.cellText (Calendar.cell r 0)) = Some fd ->
              exists e, In e (Calendar.events (fst result))
                        /\ Calendar.date e = fd
                        /\ Calendar.title e = Calendar.cellText (Calendar.cell r 1))
        /\ (0 < fst (snd result) ->
            Calendar.storage (fst result) = Calendar.events (fst result)))
  /\ ((forall items, data <> JArr items) ->
      (forall fields items, data = JObj fields ->
         lookupField "data" fields <> JArr items
         /\ lookupField "body" fields <> JArr items) ->
      Calendar.importFromWebhook p year clock (Calendar.Body data) st
        = (st, Calendar.FetchError)).
Proof.
  split; [|split].
  - intros items H.
    assert (D : Calendar.dataArray data = Some items).
    { destruct H as [-> | [(fields & -> & F) | (fields & -> & N & F)]].
      - reflexivity.
      - cbn [Calendar.dataArray getProp]. now rewrite F.
      - cbn [Calendar.dataArray getProp]. rewrite F.
        destruct (lookupField "data" fields) eqn:E; try reflexivity.
        now elim (N items0). }
    split; [exact D|].
    unfold Calendar.importFromWebhook. rewrite D. reflexivity.
  - intros items NN rows result.
    assert (W : Forall webhookRow rows).
    { pose proof (adaptRecords_rows (Calendar.jsHost p) year items [] (Forall_nil _)) as F.
      rewrite adaptRecords_flat, app_nil_l in F. exact F. }
    assert (I : Calendar.importFromWebhook p year clock (Calendar.Body (JArr items)) st
                = match rows with
                  | [] => (st, Calendar.NoValidEvents)
                  | _ => (fst result,
                          Calendar.Imported (fst (snd result)) (snd (snd result)))
                  end).
    { unfold Calendar.importFromWebhook. cbn [Calendar.dataArray].
      rewrite (no_null_record items NN), adaptRecords_flat, app_nil_l.
      fold rows. destruct rows as [|r0 rest]; [reflexivity|]. fold result.
      destruct result as [st1 [imp skip]]. reflexivity. }
    assert (S0 : Calendar.startIndex rows = 0%nat).
    { destruct rows as [|r0 rest]; [reflexivity|].
      apply webhookRow_no_header. now inversion W. }
    pose proof (processImportedData_counts p clock rows st) as K.
    cbv zeta in K. fold result in K. destruct K as (K1 & _ & K2).
    rewrite S0 in K1. cbn [skipn] in K1. rewrite (webhookRows_counted rows W) in K1.
    destruct (importRows_store p clock (skipn (Calendar.startIndex rows) rows)
                (Z.of_nat (Calendar.startIndex rows))
                {| Calendar.store := Calendar.events st; Calendar.importedCount := 0;
                   Calendar.skippedCount := 0 |}) as (added & A & C).
    rewrite <- processImportedData_events in A, C. fold result in A, C.
    cbn [Calendar.store] in A. rewrite S0 in C. cbn [skipn] in C.
    split; [intro E; rewrite I, E; reflexivity|].
    split; [intro NE; rewrite I; destruct rows; [now elim NE|reflexivity]|].
    split; [exact K1|]. split; [|split].
    + exists added. split; [exact A|]. rewrite K2, A, length_app. lia.
    + intros r fd R T F. rewrite Forall_forall in C, W.
      specialize (C r R). specialize (W r R).
      pose proof (webhookRow_dated r W) as D0.
      apply nonEmpty_true in T. unfold covered in C.
      destruct W as (a & b & c & d & -> & _).
      change (List.length [JStr a; JStr b; c; d] <? 2)%nat with false in C.
      rewrite D0, T, F in C. cbn [negb orb] in C.
      apply exists_true in C. apply in_map_iff in C.
      destruct C as (e & E & Ie). injection E as E1 E2.
      exists e. split; [exact Ie|]. now split.
    + intro P.
      unfold result, Calendar.processImportedData in P |- *. cbv zeta in P |- *.
      cbn [fst snd] in P |- *. apply Z.ltb_lt in P. rewrite P. reflexivity.
  - intros NA NO. unfold Calendar.importFromWebhook.
    assert (D : Calendar.dataArray data = None).
    { destruct data as [| b | n | s | items | fields]; try reflexivity.
      - now elim (NA items).
      - cbn [Calendar.dataArray getProp].
        destruct (lookupField "data" fields) eqn:E1;
          try (destruct (lookupField "body" fields) eqn:E2; try reflexivity;
               now elim (proj2 (NO fields items eq_refl)));
          now elim (proj1 (NO fields items eq_refl)). }
    now rewrite D.
Qed.

(** A response with one record under [body], on the page as first
    opened: one event is imported and stored; a response that is an
    object without [data] and [body] fails and changes nothing. *)
Lemma webhook_shapes_witness :
  let record := JObj [("Date", JStr " 5 Mar, Tue"); ("PO 1", JStr "Sale A")] in
  let clock := fun _ : Z => 1700000000000 in
  let outcome :=
    Calendar.importFromWebhook (referencePlatform 0) 2025 clock
      (Calendar.Body (JObj [("body", JArr [record])])) Calendar.initialState in
  snd outcome = Calendar.Imported 1 0
  /\ Calendar.events (fst outcome) =
       [{| Calendar.id := 1700000000000; Calendar.date := "2025-03-05";
           Calendar.title := "PO 1: Sale A"; Calendar.fair := "";
           Calendar.link := "" |}]
  /\ Calendar.storage (fst outcome) = Calendar.events (fst outcome)
  /\ Calendar.importFromWebhook (referencePlatform 0) 2025 clock
       (Calendar.Body (JObj [("status", JStr "ok")])) Calendar.initialState
     = (Calendar.initialState, Calendar.FetchError).
Proof.
  intros record clock outcome.
  pose proof (webhook_shapes (referencePlatform 0) 2025 clock
                (JObj [("body", JArr [record])]) Calendar.initialState) as H.
  destruct H as (Shape & Import & _).
  destruct (Shape [record]) as [_ Same].
  { right. right. eexists. split; [reflexivity|]. split; [|reflexivity].
    intros l. simpl. discriminate. }
  assert (NN : Forall (fun item => item <> JNull) [record]).
  { constructor; [discriminate|constructor]. }
  destruct (Import [record] NN) as (_ & Run & _).
  assert (E : outcome =
              (fst (Calendar.processImportedData (referencePlatform 0) clock
                      (flat_map (fun item => Calendar.adaptRecord
                                   (Calendar.jsHost (referencePlatform 0)) 2025 item [])
                         [record]) Calendar.initialState),
               Calendar.Imported
                 (fst (snd (Calendar.processImportedData (referencePlatform 0) clock
                      (flat_map (fun item => Calendar.adaptRecord
                                   (Calendar.jsHost (referencePlatform 0)) 2025 item [])
                         [record]) Calendar.initialState)))
                 (snd (snd (Calendar.processImportedData (referencePlatform 0) clock
                      (flat_map (fun item => Calendar.adaptRecord
                                   (Calendar.jsHost (referencePlatform 0)) 2025 item [])
                         [record]) Calendar.initialState))))).
  { unfold outcome. rewrite Same. apply Run. vm_compute. discriminate. }
  split; [|split; [|split]].
  - rewrite E. vm_compute. reflexivity.
  - rewrite E. vm_compute. reflexivity.
  - rewrite E. vm_compute. reflexivity.
  - refine (proj2 (proj2 (webhook_shapes (referencePlatform 0) 2025 clock
                            (JObj [("status", JStr "ok")]) Calendar.initialState)) _ _).
    + intros items. discriminate.
    + intros fields items F. injection F as <-. simpl. split; discriminate.
Defined.

(** *** The dates of rows and records *)

Lemma trimStart_blank lead s : blank lead = true -> trimStart (lead ++ s) = trimStart s.
Proof.
  unfold blank. induction lead as [|c r IH]; [reflexivity|].
  cbn [lacks append trimStart]. intro H. apply andb_true_iff in H.
  destruct H as [C R]. rewrite negb_involutive in C. rewrite C. now apply IH.
Qed.

Lemma trimEnd_app s t : trimEnd t <> "" -> trimEnd (s ++ t) = s ++ trimEnd t.
Proof.
  intro N. induction s as [|c r IH]; [reflexivity|].
  cbn [append]. rewrite trimEnd_cons, IH.
  destruct (r ++ trimEnd t) eqn:E; [|reflexivity].
  destruct r; [|discriminate E]. cbn [append] in E. now elim N.
Qed.

Lemma trimEnd_comma w : exists w', trimEnd (String "," w) = String "," w'.
Proof.
  rewrite trimEnd_cons. destruct (trimEnd w); eexists; reflexivity.
Qed.

Lemma split_one sep s : lacks (isChar sep) s = true -> split sep s = [s].
Proof. intro L. rewrite split_splitAny. now apply splitAny_one. Qed.

Lemma split_head sep s t :
  lacks (isChar sep) s = true -> hd "" (split sep (s ++ String sep t)) = s.
Proof.
  induction s as [|c r IH]; cbn [lacks append split]; intro L.
  - now rewrite Ascii.eqb_refl.
  - apply andb_true_iff in L. destruct L as [C R]. apply negb_true_iff in C.
    unfold isChar in C. rewrite C. specialize (IH R).
    destruct (split sep (r ++ String sep t)) as [|x l] eqn:E.
    + now elim (split_nonempty _ _ E).
    + cbn [hd] in IH |- *. now rewrite IH.
Qed.

Lemma shortForm_checked mo m d :
  In (mo, m) Calendar.monthMap -> 0 <= d <= 999 -> shortFormCheck mo m d = true.
Proof.
  intros I D.
  assert (R : forall name index,
            forallb (shortFormCheck name index)
              (map (fun i => 0 + Z.of_nat i) (seq 0 (Z.to_nat 1000))) = true ->
            shortFormCheck name index d = true).
  { intros name index H. apply (range_check _ 0 1000 H). lia. }
  cbn [In Calendar.monthMap] in I.
  repeat (destruct I as [I | I];
          [injection I as <- <-; apply R; vm_compute; reflexivity|]).
  destruct I.
Qed.

Lemma append_assoc (a b c : string) : (a ++ b) ++ c = a ++ (b ++ c).
Proof. induction a as [|x r IH]; [reflexivity|]. cbn [append]. now rewrite IH. Qed.

Lemma append_empty_r (a : string) : a ++ "" = a.
Proof. induction a as [|x r IH]; [reflexivity|]. cbn [append]. now rewrite IH. Qed.

(** [new Date(year, month, day)] for a month of the year and any day
    count within a million: local midnight of the day reached by counting
    from the first of the month. *)
Lemma newDate_counted h y m d :
  Z.abs (localTZA h) <= msPerDay -> 100 <= y <= 9999 -> 0 <= m <= 11 ->
  -1000000 <= d <= 1000000 ->
  newDate h (Some y) (Some m) (Some d)
  = Some ((DayFromYear y + monthStart (InLeapYear y) m + d - 1) * msPerDay - localTZA h).
Proof.
  intros Z Y M D. unfold newDate.
  destruct (Z.leb_spec 0 y); [|lia]. destruct (Z.leb_spec y 99); [lia|].
  cbn [andb]. unfold MakeDay.
  rewrite (Z.div_small m 12), (Z.mod_small m 12), Z.add_0_r by lia.
  pose proof (DayFromYear_range y Y) as R.
  pose proof (monthStart_range (InLeapYear y) m (InLeapYear_bound y)) as MS.
  set (first := DayFromYear y + monthStart (InLeapYear y) m) in *.
  unfold TimeClip, maxTime, msPerDay in *.
  destruct (Z.leb_spec (Z.abs (first * 86400000)) 8640000000000000); [|lia].
  destruct (Z.leb_spec (Z.abs ((first + d - 1) * 86400000 - localTZA h))
              8640000000000000); [reflexivity | lia].
Qed.

Lemma monthIndex_spec mo m :
  Calendar.monthIndex Calendar.monthMap mo = Some m ->
  In (mo, m) Calendar.monthMap /\ 0 <= m <= 11.
Proof.
  unfold Calendar.monthMap. cbn [Calendar.monthIndex].
  repeat match goal with
  | |- (if String.eqb mo ?k then _ else _) = _ -> _ =>
      destruct (String.eqb_spec mo k) as [-> | _];
      [intro H; injection H as <-; split; [cbn [In]; tauto | lia]|]
  end.
  discriminate.
Qed.

Lemma webhookDate_datePieces h year s :
  Calendar.webhookDate h year s =
  match newDate h (Some year)
          match nth_error (datePieces s) 1 with
          | Some monthStr => Calendar.monthIndex Calendar.monthMap monthStr
          | None => None
          end
          match nth_error (datePieces s) 0 with
          | Some d => parseInt d
          | None => None
          end with
  | Some t => Calendar.formatLocal h t
  | None => "NaN-NaN-NaN"
  end.
Proof. reflexivity. Qed.

(** The first piece is the day and the second the month; what follows is
    not looked at. *)
Lemma webhookDate_counted h year s day month rest d m :
  datePieces s = day :: month :: rest ->
  parseInt day = Some d -> Calendar.monthIndex Calendar.monthMap month = Some m ->
  Z.abs (localTZA h) <= msPerDay -> 100 <= year <= 9999 ->
  -1000000 <= d <= 1000000 ->
  Calendar.webhookDate h year s =
    let '(y', m', d') :=
      civilOfDay (DayFromYear year + monthStart (InLeapYear year) m + d - 1) in
    Grid.dateString y' m' d'.
Proof.
  intros P D M Z Y R. rewrite webhookDate_datePieces, P. cbn [nth_error].
  rewrite D, M. destruct (monthIndex_spec _ _ M) as [_ MR].
  rewrite (newDate_counted h year m d Z Y MR R).
  rewrite formatLocal_dateString, localCivil_local. reflexivity.
Qed.

Lemma webhookDate_invalid h year s :
  (List.length (datePieces s) < 2)%nat
  \/ (exists month, nth_error (datePieces s) 1 = Some month
                    /\ Calendar.monthIndex Calendar.monthMap month = None)
  \/ (exists day, nth_error (datePieces s) 0 = Some day /\ parseInt day = None) ->
  Calendar.webhookDate h year s = "NaN-NaN-NaN".
Proof.
  rewrite webhookDate_datePieces. intros [L | [(mo & E & M) | (day & E & D)]].
  - destruct (datePieces s) as [|a [|b l]]; cbn [List.length] in L; try lia;
      cbn [nth_error]; reflexivity.
  - rewrite E, M. reflexivity.
  - rewrite E, D.
    destruct (match nth_error (datePieces s) 1 with Some _ => _ | None => _ end);
      reflexivity.
Qed.

Lemma lacks_numeral bad s :
  (forall c, numeralChar c = true -> bad c = false) ->
  numeralChars s = true -> lacks bad s = true.
Proof.
  intro B. induction s as [|c r IH]; [reflexivity|]. cbn [numeralChars lacks].
  intro H. apply andb_true_iff in H. destruct H as [C R].
  now rewrite (B c C), (IH R).
Qed.

Lemma numeral_not_char x c :
  numeralChar x = false -> numeralChar c = true -> isChar x c = false.
Proof.
  intros X C. unfold isChar. destruct (Ascii.eqb_spec c x) as [-> | _]; [|reflexivity].
  congruence.
Qed.

(** A text of digits and dashes is one piece, or none. *)
Lemma datePieces_numeral s :
  numeralChars s = true -> (List.length (datePieces s) < 2)%nat.
Proof.
  intro N. unfold datePieces. rewrite (numeralChars_trim s N).
  rewrite (split_one "," s).
  2:{ apply lacks_numeral; [|exact N]. intros c Hc.
      apply numeral_not_char; [reflexivity | exact Hc]. }
  cbn [hd]. rewrite (numeralChars_trim s N).
  rewrite (split_one " " s).
  2:{ apply lacks_numeral; [|exact N]. intros c Hc.
      apply numeral_not_char; [reflexivity | exact Hc]. }
  cbn [filter]. destruct (nonEmpty s); cbn [List.length]; lia.
Qed.

Lemma datePieces_short lead d mo m tail :
  blank lead = true -> In (mo, m) Calendar.monthMap -> 0 <= d <= 999 ->
  tail = "" \/ (exists w, tail = String "," w) ->
  datePieces (lead ++ intToString d ++ " " ++ mo ++ tail) = [intToString d; mo]
  /\ parseInt (intToString d) = Some d
  /\ Calendar.monthIndex Calendar.monthMap mo = Some m.
Proof.
  intros B I D T.
  pose proof (shortForm_checked mo m d I D) as C. unfold shortFormCheck in C.
  cbv zeta in C.
  set (core := intToString d ++ " " ++ mo) in *.
  apply andb_true_iff in C. destruct C as [C Cmonth].
  apply andb_true_iff in C. destruct C as [C Cday].
  apply andb_true_iff in C. destruct C as [C Csplit].
  apply andb_true_iff in C. destruct C as [C Ccomma].
  apply andb_true_iff in C. destruct C as [C Cend].
  assert (E : lead ++ intToString d ++ " " ++ mo ++ tail = lead ++ (core ++ tail)).
  { unfold core. now rewrite !append_assoc. }
  apply String.eqb_eq in Cend.
  assert (P : datePieces (lead ++ (core ++ tail)) = filter nonEmpty (split " " core)).
  { unfold datePieces, trim. rewrite (trimStart_blank lead _ B).
    destruct core as [|c r] eqn:K; [discriminate C|].
    apply negb_true_iff in C.
    assert (S1 : trimStart (String c r ++ tail) = String c r ++ tail).
    { cbn [append trimStart]. now rewrite C. }
    rewrite S1.
    assert (S2 : trimStart (String c r) = String c r).
    { cbn [trimStart]. now rewrite C. }
    destruct T as [-> | (w & ->)].
    - rewrite append_empty_r, Cend, (split_one "," _ Ccomma). cbn [hd].
      now rewrite S2, Cend.
    - destruct (trimEnd_comma w) as (w' & W).
      rewrite (trimEnd_app (String c r) (String "," w)) by (rewrite W; discriminate).
      rewrite W, (split_head "," _ w' Ccomma). now rewrite S2, Cend. }
  rewrite E, P.
  destruct (filter nonEmpty (split " " core)) as [|a [|b [|x l]]]; try discriminate Csplit.
  apply andb_true_iff in Csplit. destruct Csplit as [A Bq].
  apply String.eqb_eq in A. apply String.eqb_eq in Bq. subst a b.
  split; [reflexivity|]. split.
  - destruct (parseInt (intToString d)) as [v|]; [|discriminate Cday].
    apply Z.eqb_eq in Cday. now subst v.
  - destruct (Calendar.monthIndex Calendar.monthMap mo) as [v|]; [|discriminate Cmonth].
    apply Z.eqb_eq in Cmonth. now subst v.
Qed.

(** The spreadsheet library on a whole serial above 60: the day that
    many days after 30 December 1899. *)
Lemma parse_date_code_serial q n :
  (q == inject_Z n)%Q -> 61 <= n <= 2958465 ->
  XLSX.parse_date_code (Fin q) =
    let '(y, m, d) := civilOfDay (n - 25569) in Some (y, m + 1, d).
Proof.
  intros Hq R.
  assert (A1 : Qle_bool q (inject_Z 2958465) = true).
  { apply Qle_bool_iff. rewrite Hq. rewrite <- Zle_Qle. lia. }
  assert (A2 : Qle_bool 0 q = true).
  { apply Qle_bool_iff. rewrite Hq. change 0%Q with (inject_Z 0).
    rewrite <- Zle_Qle. lia. }
  assert (A3 : Qfloor q = n) by (rewrite Hq; apply Qfloor_Z).
  assert (A4 : (Qmult (inject_Z 86400) (Qminus q (inject_Z n)) == 0)%Q).
  { rewrite Hq. ring. }
  assert (A5 : Qfloor (Qmult (inject_Z 86400) (Qminus q (inject_Z n))) = 0).
  { rewrite A4. reflexivity. }
  assert (A6 : Qle_bool (Qminus (Qmult (inject_Z 86400) (Qminus q (inject_Z n)))
                           (inject_Z 0)) (Qmake 9999 10000) = true).
  { apply Qle_bool_iff. rewrite A4. vm_compute. discriminate. }
  unfold XLSX.parse_date_code. cbv zeta.
  rewrite A1, A2. cbn [negb orb]. rewrite A3, A5, A6. cbn [negb andb].
  destruct (Z.eqb_spec n 60); [lia|]. destruct (Z.eqb_spec n 0); [lia|].
  destruct (Z.ltb_spec 60 n); [|lia].
  replace (DayFromYear 1900 + (n - 1) - 1) with (n - 25569)
    by (change (DayFromYear 1900) with (-25567); lia).
  reflexivity.
Qed.

Lemma civilOfDay_year n y m d :
  civilOfDay n = (y, m, d) -> -600000 <= n <= 2932896 -> 100 <= y <= 9999.
Proof.
  intros C R. destruct (civilOfDay_inv n y m d C) as (M & D & N).
  pose proof (monthStart_range (InLeapYear y) m (InLeapYear_bound y)) as MS.
  pose proof (daysInMonth_bounds y (m + 1) ltac:(lia)) as DB.
  assert (L : DayFromYear y <= 2932896) by lia.
  assert (U : -600400 <= DayFromYear y) by lia.
  unfold DayFromYear in L, U. split; Z.div_mod_to_equations; lia.
Qed.

Lemma serial_row_date p s q n :
  isNaN (toNumber s) = false -> gtZ (toNumber s) 1000 = true ->
  parseFloat s = Fin q -> (q == inject_Z n)%Q -> 61 <= n <= 2958465 ->
  Calendar.parse_date_code p = XLSX.parse_date_code ->
  Z.abs (localTZA (Calendar.jsHost p)) <= msPerDay ->
  Calendar.formattedDate p s =
    Some (let '(y, m, d) := civilOfDay (n - 25569) in Grid.dateString y m d).
Proof.
  intros N G F Hq R L Z. unfold Calendar.formattedDate, Calendar.rowDate.
  rewrite N, G, F, L. cbn [negb andb].
  rewrite (parse_date_code_serial q n Hq R).
  destruct (civilOfDay (n - 25569)) as [[y m] d] eqn:C.
  destruct (civilOfDay_inv _ _ _ _ C) as (M & D & _).
  pose proof (civilOfDay_year _ _ _ _ C ltac:(lia)) as Y.
  replace (m + 1 - 1) with m by lia.
  destruct (newDate_format (Calendar.jsHost p) y m d Z Y M D) as (t & -> & E).
  cbn [option_map]. rewrite E. reflexivity.
Qed.

Lemma iso_row_date p y m d :
  1000 <= y <= 9999 -> 0 <= m <= 11 -> 1 <= d <= daysInMonth y (m + 1) ->
  (0 <= localTZA (Calendar.jsHost p) < msPerDay ->
   Calendar.formattedDate p (Grid.dateString y m d) = Some (Grid.dateString y m d))
  /\ (- msPerDay <= localTZA (Calendar.jsHost p) < 0 ->
      Calendar.formattedDate p (Grid.dateString y m d) =
        Some (let '(y', m', d') :=
                civilOfDay (DayFromYear y + monthStart (InLeapYear y) m + d - 2) in
              Grid.dateString y' m' d')).
Proof.
  intros Y M D.
  pose proof (toNumber_dateString y m d Y) as TN.
  pose proof (isoDateOnly_dateString y m d Y M D) as ISO.
  split; intro Z.
  - rewrite (iso_date_east p _ _ Z TN ISO), (civilOfDay_day y m d M D). reflexivity.
  - unfold Calendar.formattedDate, Calendar.rowDate. rewrite TN.
    cbn [isNaN negb andb]. unfold dateParse. rewrite ISO. cbn [option_map].
    rewrite formatLocal_dateString, localCivil_eq.
    assert (E : Day ((DayFromYear y + monthStart (InLeapYear y) m + d - 1) * msPerDay
                     + localTZA (Calendar.jsHost p))
                = DayFromYear y + monthStart (InLeapYear y) m + d - 2).
    { unfold Day, msPerDay in *. Z.div_mod_to_equations. lia. }
    rewrite E. reflexivity.
Qed.

Lemma other_row_date p s :
  isNaN (toNumber s) = true \/ gtZ (toNumber s) 1000 = false ->
  isoDateOnly s = None ->
  Calendar.formattedDate p s =
    option_map (Calendar.formatLocal (Calendar.jsHost p))
      (dateParseFallback (Calendar.jsHost p) s).
Proof.
  intros [N | G] I; unfold Calendar.formattedDate, Calendar.rowDate, dateParse.
  - rewrite N, I. reflexivity.
  - rewrite G, andb_false_r, I. reflexivity.
Qed.




(** *** The deduplication key in both variants *)

(** C1. Whatever is done to the page of [part_000] from its first
    opening on - imports of tables, webhook imports, deletions, searches,
    reloads from storage - two events at different places of the store
    never have the same date and title.  In either variant the events an
    import adds have keys that differ from one another and from every key
    the store held, so that a store without a repeated key stays one; and
    a row whose date converts to the date of a stored event and whose
    trimmed title is the title of that event adds one to the skipped
    count and leaves the store, that event included, as it is, whatever
    the fair and link cells of the row hold; the store meant is the one
    the loop has reached, which holds the events accepted earlier in the
    batch.  The store of [app.js] need not be without a repeated key,
    though: the loader of [liveops.json], which fills it at start-up,
    makes no such test, so that a file that lists its rows twice puts
    every key there twice, and an import into a store with a repeated key
    leaves a store with a repeated key. *)
Theorem store_dedup (p : Calendar.platform) :
  (forall actions i j a b,
     let evs := Calendar.events (Calendar.run p actions Calendar.initialState) in
     i <> j -> nth_error evs i = Some a -> nth_error evs j = Some b ->
     (Calendar.date a, Calendar.title a) <> (Calendar.date b, Calendar.title b))
  /\ (forall clock data st,
        Calendar.KeyUnique (Calendar.events st) ->
        Calendar.KeyUnique
          (Calendar.events (fst (Calendar.processImportedData p clock data st))))
  /\ (forall clock data st,
        exists added,
          Calendar.events (fst (Calendar.processImportedData p clock data st))
            = (Calendar.events st ++ added)%list
          /\ NoDup (map Calendar.key added)
          /\ (forall e, In e added ->
                ~ In (Calendar.key e) (map Calendar.key (Calendar.events st))))
  /\ (forall clock data st0,
        let key := fun e => (AppJs.date e, AppJs.title e) in
        exists added,
          AppJs.events (fst (AppJs.processImportedData p clock data st0))
            = (AppJs.events st0 ++ added)%list
          /\ NoDup (map key added)
          /\ (forall e, In e added -> ~ In (key e) (map key (AppJs.events st0))))
  /\ (forall clock data st0,
        NoDup (map (fun e => (AppJs.date e, AppJs.title e)) (AppJs.events st0)) ->
        NoDup (map (fun e => (AppJs.date e, AppJs.title e))
                 (AppJs.events (fst (AppJs.processImportedData p clock data st0)))))
  /\ (forall now i r acc e,
        (2 <= List.length r)%nat ->
        In e (Calendar.store acc) ->
        Calendar.formattedDate p (Calendar.cellText (Calendar.cell r 0))
          = Some (Calendar.date e) ->
        Calendar.cellText (Calendar.cell r 1) = Calendar.title e ->
        Calendar.importRow p now i r acc =
          {| Calendar.store := Calendar.store acc;
             Calendar.importedCount := Calendar.importedCount acc;
             Calendar.skippedCount := Calendar.skippedCount acc + 1 |})
  /\ (forall now i r acc e,
        (2 <= List.length r)%nat ->
        In e (AppJs.store acc) ->
        Calendar.formattedDate p (Calendar.cellText (Calendar.cell r 0))
          = Some (AppJs.date e) ->
        Calendar.cellText (Calendar.cell r 1) = AppJs.title e ->
        AppJs.importRow p now i r acc =
          {| AppJs.store := AppJs.store acc;
             AppJs.importedCount := AppJs.importedCount acc;
             AppJs.skippedCount := AppJs.skippedCount acc + 1 |})
  /\ (forall year rows st0,
        let key := fun e => (AppJs.date e, AppJs.title e) in
        let st' :=
          AppJs.loadEventsFromLiveopsJson (Calendar.jsHost p) year
            (Calendar.Body (JArr (rows ++ rows))) st0 in
        existsb Calendar.isNull rows = false ->
        AppJs.mapRows (Calendar.jsHost p) year 0 rows <> [] ->
        AppJs.events st' = AppJs.mapRows (Calendar.jsHost p) year 0 (rows ++ rows)
        /\ AppJs.storage st' = AppJs.events st'
        /\ ~ NoDup (map key (AppJs.events st')))
  /\ (forall clock data st0,
        let key := fun e => (AppJs.date e, AppJs.title e) in
        ~ NoDup (map key (AppJs.events st0)) ->
        ~ NoDup (map key (AppJs.events (fst (AppJs.processImportedData p clock data st0))))).
Proof.
  split; [|split; [|split; [|split; [|split; [|split; [|split; [|split]]]]]]].
  - intros actions i j a b evs D Ha Hb.
    apply (NoDup_map_positions Calendar.key evs i j a b); try assumption.
    apply run_Deduplicated. split; constructor.
  - intros clock data st. apply processImportedData_KeyUnique.
  - intros clock data st. rewrite processImportedData_events.
    apply (importRows_fresh p clock (skipn (Calendar.startIndex data) data)
             (Z.of_nat (Calendar.startIndex data))
             {| Calendar.store := Calendar.events st; Calendar.importedCount := 0;
                Calendar.skippedCount := 0 |}).
  - intros clock data st0 key. unfold AppJs.processImportedData.
    cbn [fst AppJs.events].
    apply (appjs_importRows_fresh p clock (skipn (Calendar.startIndex data) data)
             (Z.of_nat (Calendar.startIndex data))
             {| AppJs.store := AppJs.events st0; AppJs.importedCount := 0;
                AppJs.skippedCount := 0 |}).
  - intros clock data st0 U. unfold AppJs.processImportedData.
    cbn [fst AppJs.events]. now apply appjs_importRows_KeyUnique.
  - intros now i r acc e L I F T. unfold Calendar.importRow.
    destruct (Nat.ltb_spec (List.length r) 2); [lia|].
    destruct (negb _ || negb _); [reflexivity|].
    rewrite F, T.
    assert (X : Calendar.exists_ (Calendar.date e) (Calendar.title e)
                  (Calendar.store acc) = true).
    { apply exists_true. apply in_map_iff. now exists e. }
    now rewrite X.
  - intros now i r acc e L I F T. unfold AppJs.importRow.
    destruct (Nat.ltb_spec (List.length r) 2); [lia|].
    destruct (negb _ || negb _); [reflexivity|].
    rewrite F, T.
    assert (X : AppJs.exists_ (AppJs.date e) (AppJs.title e) (AppJs.store acc) = true).
    { apply appjs_exists_true. apply in_map_iff. now exists e. }
    now rewrite X.
  - intros year rows st0 key st' N L.
    set (h := Calendar.jsHost p) in *.
    assert (M : AppJs.mapRows h year 0 (rows ++ rows) <> []).
    { rewrite mapRows_app. intro E. apply app_eq_nil in E. now elim L. }
    assert (E : AppJs.events st' = AppJs.mapRows h year 0 (rows ++ rows)
                /\ AppJs.storage st' = AppJs.events st').
    { unfold st', AppJs.loadEventsFromLiveopsJson.
      rewrite existsb_app, N. cbn [orb].
      destruct (AppJs.mapRows h year 0 (rows ++ rows)); [now elim M|].
      split; reflexivity. }
    destruct E as [E S]. split; [exact E|]. split; [exact S|].
    unfold key. rewrite E, mapRows_app, map_app.
    rewrite (mapRows_keys h year rows (0 + Z.of_nat (List.length rows)) 0).
    destruct (AppJs.mapRows h year 0 rows) as [|e l]; [now elim L|].
    cbn [map app]. intro D. inversion D as [|? ? NI _]; subst. apply NI.
    apply in_or_app. right. now left.
  - intros clock data st0 key D U. unfold key in *. apply D.
    destruct (appjs_importRows_fresh p clock (skipn (Calendar.startIndex data) data)
                (Z.of_nat (Calendar.startIndex data))
                {| AppJs.store := AppJs.events st0; AppJs.importedCount := 0;
                   AppJs.skippedCount := 0 |}) as (added & E & _).
    unfold AppJs.processImportedData in U. cbn [fst AppJs.events] in U.
    cbn [AppJs.store] in E. rewrite E, map_app in U.
    exact (NoDup_app_remove_r _ _ U).
Qed.

(** [app.js], a [liveops.json] that lists one row twice, then the import
    of a table with one new row: the store holds the first two events,
    different in their ids and equal in date and title, next to the
    imported one. *)
Lemma loader_keeps_duplicate_keys :
  let h := shortDateHost 0 in
  let row := JObj [("JUMP TO TODAY", JStr " 1 Jan, Wed"); ("Holiday List", JStr "New Year")] in
  let fresh := {| AppJs.events := []; AppJs.filteredEvents := AppJs.SameArray;
                  AppJs.highlightedDate := None; AppJs.searchInput := "";
                  AppJs.modal := None; AppJs.storage := [] |} in
  let st1 := AppJs.loadEventsFromLiveopsJson h 2025 (Calendar.Body (JArr [row; row])) fresh in
  let st2 := fst (AppJs.processImportedData (sheetPlatform h) (fun _ => 1700000000000)
                    [[JStr "2025-03-05"; JStr "PO 1: Sale A"]] st1) in
  map (fun e => (AppJs.id e, AppJs.date e, AppJs.title e)) (AppJs.events st2)
    = [ (0, "2025-01-01", " 1 Jan, Wed | New Year");
        (1, "2025-01-01", " 1 Jan, Wed | New Year");
        (1700000000000, "2025-03-05", "PO 1: Sale A") ]
  /\ (exists a b, nth_error (AppJs.events st2) 0 = Some a
                  /\ nth_error (AppJs.events st2) 1 = Some b
                  /\ a <> b
                  /\ (AppJs.date a, AppJs.title a) = (AppJs.date b, AppJs.title b))
  /\ AppJs.storage st2 = AppJs.events st2.
Proof.
  cbv zeta. split; [vm_compute; reflexivity|]. split; [|vm_compute; reflexivity].
  eexists _, _. split; [vm_compute; reflexivity|]. split; [vm_compute; reflexivity|].
  split; [discriminate|reflexivity].
Qed.

(** A row that repeats a stored event with another fair and another link:
    it is counted as skipped and the store stays as it is. *)
Lemma store_dedup_witness :
  let p := referencePlatform 0 in
  let e := {| Calendar.id := 1700000000000; Calendar.date := "2025-03-05";
              Calendar.title := "PO 1: Sale A"; Calendar.fair := "SpringFair";
              Calendar.link := "" |} in
  let acc := {| Calendar.store := [e]; Calendar.importedCount := 1;
                Calendar.skippedCount := 0 |} in
  Calendar.importRow p 1700000000005 1
    [JStr "2025-03-05"; JStr " PO 1: Sale A "; JStr "WinterFair"; JStr "https://example.org/t/1"]
    acc
  = {| Calendar.store := [e]; Calendar.importedCount := 1;
       Calendar.skippedCount := 0 + 1 |}.
Proof.
  cbv zeta.
  refine (proj1 (proj2 (proj2 (proj2 (proj2 (proj2 (store_dedup (referencePlatform 0)))))))
            1700000000005 1 _ _ _ _ _ _ _).
  - simpl. lia.
  - left. reflexivity.
  - vm_compute. reflexivity.
  - vm_compute. reflexivity.
Defined.
